(** * Gemini Heavy: the multi-agent generation pipeline of [src/index.tsx]

    A shallow embedding of the orchestration core of the chat client:
    the stage tracker ([LoadingTask], [updateTaskStatus], the progress bar of
    [LoadingIndicator]), the long-term memory list, the history window of
    [handleSubmit], the search gate and [executeGeneration].

    Conventions.
    - A JavaScript string is a [string]; every [ascii] stands for one code
      unit below 256, so [String.length] is [.length].  The library methods
      [trim], [toUpperCase], [toLowerCase] and [includes] are modelled on
      that range (see each definition).
    - React state is one record, [AppState]; a state setter is a function on
      it.  The settings a run reads from its closure are the record
      [Settings].
    - [await] is sequencing in the monad [Async] (state plus a thrown
      error); the remote model is a function from the position of a call and
      its request to a reply, and every call is logged with its reply in the
      ghost field [calls].  The order in which the replies of the calls of
      one [Promise.all] arrive is the function [arrival]; wall-clock delays
      ([setTimeout]) are not represented otherwise.
    - The numbers of the progress bar are binary64 values ([float]). *)

From Stdlib Require Import String Ascii List Arith Lia Bool QArith DecimalString.
From Stdlib Require Import PrimFloat.
Import ListNotations.

Open Scope string_scope.
Open Scope list_scope.
Open Scope nat_scope.

(** ** JavaScript strings *)

Module JsString.

(** The line feed written [\n] in the source. *)
Definition LF : string := String (ascii_of_nat 10) EmptyString.

(** The double quote. *)
Definition DQUOTE : string := String (ascii_of_nat 34) EmptyString.

(** White space and line terminators of ECMAScript among the code units
    below 256: TAB, LF, VT, FF, CR, SP and NBSP. *)
Definition isWhiteSpace (c : ascii) : bool :=
  match nat_of_ascii c with
  | 9 | 10 | 11 | 12 | 13 | 32 | 160 => true
  | _ => false
  end.

Fixpoint trimStart (s : string) : string :=
  match s with
  | EmptyString => EmptyString
  | String c rest => if isWhiteSpace c then trimStart rest else s
  end.

Fixpoint trimEnd (s : string) : string :=
  match s with
  | EmptyString => EmptyString
  | String c rest =>
      match trimEnd rest with
      | EmptyString => if isWhiteSpace c then EmptyString else String c EmptyString
      | kept => String c kept
      end
  end.

(** [String.prototype.trim]. *)
Definition trim (s : string) : string := trimEnd (trimStart s).

Definition upperChar (c : ascii) : ascii :=
  let n := nat_of_ascii c in
  if (97 <=? n) && (n <=? 122) then ascii_of_nat (n - 32) else c.

Definition lowerChar (c : ascii) : ascii :=
  let n := nat_of_ascii c in
  if (65 <=? n) && (n <=? 90) then ascii_of_nat (n + 32) else c.

Fixpoint mapChars (f : ascii -> ascii) (s : string) : string :=
  match s with
  | EmptyString => EmptyString
  | String c rest => String (f c) (mapChars f rest)
  end.

(** [toUpperCase] and [toLowerCase] on the ASCII letters; the other code
    units are left as they are.  No code unit outside a-z is mapped to an
    ASCII capital by the real method on this range, so comparisons with an
    ASCII capital word are not affected. *)
Definition toUpperCase (s : string) : string := mapChars upperChar s.
Definition toLowerCase (s : string) : string := mapChars lowerChar s.

(** [s.includes(needle)]. *)
Fixpoint includes (needle s : string) : bool :=
  prefix needle s ||
  match s with
  | EmptyString => false
  | String _ rest => includes needle rest
  end.

(** [s.substring(0, n)]. *)
Fixpoint substring0 (n : nat) (s : string) : string :=
  match n, s with
  | S k, String c rest => String c (substring0 k rest)
  | _, _ => EmptyString
  end.

(** [xs.join(sep)]. *)
Fixpoint join (sep : string) (xs : list string) : string :=
  match xs with
  | [] => EmptyString
  | [x] => x
  | x :: rest => x ++ sep ++ join sep rest
  end.

(** A string in a boolean position: only [''] is falsy. *)
Definition truthy (s : string) : bool :=
  match s with EmptyString => false | _ => true end.

(** The decimal numeral that a template literal prints for a count. *)
Definition ofNat (n : nat) : string := NilEmpty.string_of_uint (Nat.to_uint n).

End JsString.

Import JsString.

(** ** Stage tracker: lines 210-263 and 1240-1264 *)

Inductive TaskStatus := pending | active | completed.
Inductive ResearchMode := offline | web | deepResearch.
Inductive ModelName := gemini_2_5_pro | gemini_2_5_flash.
Inductive GenerationDepth := fast | balanced | deep.

Inductive Icon :=
  IconHistory | IconBot | IconSparkles | IconBlend | IconShieldCheck | IconSearch.

Record LoadingTask := mkTask {
  name : string;
  status : TaskStatus;
  icon : Icon
}.

Definition TaskStatus_eqb (a b : TaskStatus) : bool :=
  match a, b with
  | pending, pending | active, active | completed, completed => true
  | _, _ => false
  end.

Definition HISTORY_PROCESSING_TASK : LoadingTask :=
  {| name := "Processando histórico..."; icon := IconHistory; status := pending |}.
Definition BRAINSTORMING_TASK : LoadingTask :=
  {| name := "Brainstorming..."; icon := IconBot; status := pending |}.
Definition REFINING_TASK : LoadingTask :=
  {| name := "Refinando rascunhos..."; icon := IconSparkles; status := pending |}.
Definition SYNTHESIZING_TASK : LoadingTask :=
  {| name := "Sintetizando resposta..."; icon := IconBlend; status := pending |}.
Definition CRITIC_TASK : LoadingTask :=
  {| name := "Revisão crítica..."; icon := IconShieldCheck; status := pending |}.
Definition SEARCHING_TASK : LoadingTask :=
  {| name := "Pesquisando na web..."; icon := IconSearch; status := pending |}.

Definition OFFLINE_TASKS : list LoadingTask :=
  [ HISTORY_PROCESSING_TASK; BRAINSTORMING_TASK; REFINING_TASK;
    SYNTHESIZING_TASK; CRITIC_TASK ].
Definition WEB_RESEARCH_TASKS : list LoadingTask :=
  [ HISTORY_PROCESSING_TASK; SEARCHING_TASK; BRAINSTORMING_TASK; REFINING_TASK;
    SYNTHESIZING_TASK; CRITIC_TASK ].
Definition DEEP_RESEARCH_TASKS : list LoadingTask :=
  [ HISTORY_PROCESSING_TASK; SEARCHING_TASK; BRAINSTORMING_TASK; REFINING_TASK;
    SYNTHESIZING_TASK; CRITIC_TASK ].

(** The single stage of a fast run (line 1241). *)
Definition FAST_TASK : LoadingTask :=
  {| name := "Gerando resposta..."; icon := IconBot; status := pending |}.

Definition withStatus (s : TaskStatus) (t : LoadingTask) : LoadingTask :=
  {| name := name t; status := s; icon := icon t |}.

(** The [switch] of lines 1244-1248. *)
Definition currentTaskTemplate (researchMode : ResearchMode) : list LoadingTask :=
  match researchMode with
  | web => WEB_RESEARCH_TASKS
  | deepResearch => DEEP_RESEARCH_TASKS
  | offline => OFFLINE_TASKS
  end.

(** The argument of [setLoadingTasks] at lines 1240-1254. *)
Definition tasksForRun (generationDepth : GenerationDepth) (researchMode : ResearchMode)
    (isSelfCorrectionEnabled : bool) : list LoadingTask :=
  match generationDepth with
  | fast => [ FAST_TASK ]
  | _ =>
      let template := currentTaskTemplate researchMode in
      let kept :=
        if negb isSelfCorrectionEnabled
        then filter (fun t => negb (name t =? name CRITIC_TASK)%string) template
        else template in
      map (withStatus pending) kept
  end.

(** [xs.map((x, i) => f(x, i))]. *)
Fixpoint mapi_from {A B : Type} (f : A -> nat -> B) (i : nat) (xs : list A) : list B :=
  match xs with
  | [] => []
  | x :: rest => f x i :: mapi_from f (S i) rest
  end.

Definition mapi {A B : Type} (f : A -> nat -> B) (xs : list A) : list B :=
  mapi_from f 0 xs.

(** The updater of [updateTaskStatus] (lines 1256-1264). *)
Definition updateTaskStatus (index : nat) (st : TaskStatus) (prev : list LoadingTask)
    : list LoadingTask :=
  mapi (fun task i =>
          if i <? index then withStatus completed task
          else if i =? index then withStatus st task
          else withStatus pending task) prev.

(** [advance(i)] of the specification is the call with status ['active']. *)
Definition advance (index : nat) (tasks : list LoadingTask) : list LoadingTask :=
  updateTaskStatus index active tasks.

(** A JavaScript number as far as the progress bar needs it: a finite
    binary64 value, or one of the two results of a division by zero of
    non-negative counts. *)
Inductive JsNumber :=
  | Finite (f : float)
  | PosInfinity
  | NaN.

(** A count as a number: the binary64 value of a non-negative integer,
    exact below 2^53. *)
Fixpoint js_ofNat (n : nat) : float :=
  match n with
  | 0 => 0%float
  | S k => (js_ofNat k + 1)%float
  end.

(** [a / b] for two non-negative integers, rounded as binary64 division
    rounds. *)
Definition js_div (a b : nat) : JsNumber :=
  match b with
  | 0 => match a with 0 => NaN | _ => PosInfinity end
  | _ => Finite (js_ofNat a / js_ofNat b)%float
  end.

(** [x * k] for a positive integer [k], rounded as binary64 multiplication
    rounds. *)
Definition js_scale (x : JsNumber) (k : positive) : JsNumber :=
  match x with
  | Finite f => Finite (f * js_ofNat (Pos.to_nat k))%float
  | PosInfinity => PosInfinity
  | NaN => NaN
  end.

Definition completedCount (tasks : list LoadingTask) : nat :=
  length (filter (fun t => TaskStatus_eqb (status t) completed) tasks).

(** Lines 261-262 of [LoadingIndicator]. *)
Definition progressPercentage (tasks : list LoadingTask) : JsNumber :=
  if 0 <? length tasks
  then js_scale (js_div (completedCount tasks) (length tasks - 1)) 100
  else Finite 0.

(** The ratio of the specification, written from its words: zero for at
    most one stage, completed over stages minus one otherwise; the quotient
    is taken in the numbers of the program. *)
Definition spec_progressRatio (tasks : list LoadingTask) : JsNumber :=
  if length tasks <=? 1
  then Finite 0
  else Finite (js_ofNat (completedCount tasks) / js_ofNat (length tasks - 1))%float.

(** ** Long-term memory: lines 1155-1161 and 1654 *)

Definition MAX_MEMORIES : nat := 20.

(** The updater passed to [setLongTermMemories] at lines 1157-1161. *)
Definition storeMemory (newMemory : string) (prev : list string) : list string :=
  let updatedMemories :=
    newMemory :: filter (fun m => negb (m =? newMemory)%string) prev in
  firstn MAX_MEMORIES updatedMemories.

(** Lines 1155-1162: what memory extraction does with the model's text. *)
Definition admitExtracted (responseText : string) (prev : list string) : list string :=
  let newMemory := trim responseText in
  if truthy newMemory && (10 <? String.length newMemory)
  then storeMemory newMemory prev
  else prev.

(** [onAdd] of the memory modal (line 1654). *)
Definition onAdd (memory : string) (prev : list string) : list string :=
  memory :: prev.

(** [handleAdd] of [MemoryManagementModal] (lines 451-457): the text typed by
    the user is trimmed and added when something is left. *)
Definition handleAdd (typed : string) (prev : list string) : list string :=
  if truthy (trim typed) then onAdd (trim typed) prev else prev.

(** ** Data model: lines 17-63 *)

Inductive Role := user | model.

(** A [Part] of the SDK: a text part or an inline attachment. *)
Inductive Part :=
  | TextPart (text : string)
  | InlineData (mimeType data : string).

Record Content := mkContent {
  content_role : Role;
  content_parts : list Part
}.

Record WebSource := mkSource { uri : string; title : string }.

Record GenerationDetails := mkDetails {
  initial : list string;
  refined : list string
}.

Record ToolOutput := mkToolOutput {
  code : string;
  result : list Part
}.

Record File := mkFile { fileName : string }.

Record AttachedFile := mkAttached {
  file : File;
  content : Part
}.

(** An optional field of the interface is an [option]; [isError] is absent
    exactly when it is [false] here. *)
Record Message := mkMessage {
  role : Role;
  parts : list Part;
  sources : option (list WebSource);
  msg_attachedFiles : option (list File);
  isError : bool;
  generationDetails : option GenerationDetails;
  toolOutputs : option (list ToolOutput)
}.

Record Conversation := mkConversation {
  id : string;
  conv_title : string;
  messages : list Message
}.

Record SearchConfirmationData := mkConfirmation {
  originalUserInput : string;
  searchQuery : string;
  questions : list string;
  pendingAttachedFileParts : list Part;
  pendingHistory : list Content
}.

(** ** The model gateway: requests, replies and thrown errors *)

(** The instruction constants of lines 7-15, by name. *)
Inductive SystemInstruction :=
  | INITIAL_SYSTEM_INSTRUCTION
  | REFINEMENT_SYSTEM_INSTRUCTION
  | SYNTHESIZER_SYSTEM_INSTRUCTION
  | SUMMARIZER_SYSTEM_INSTRUCTION
  | SEARCH_REFINER_SYSTEM_INSTRUCTION
  | CRITIC_SYSTEM_INSTRUCTION
  | PROACTIVE_ASSISTANT_SYSTEM_INSTRUCTION.

Inductive Tool := googleSearch | codeExecution.

(** The two response schemas the core asks for. *)
Inductive ResponseSchema := SearchProposalSchema | StringArraySchema.

Inductive Contents :=
  | PromptText (prompt : string)
  | PromptContents (cs : list Content).

(** [tools = []] stands for a configuration without the [tools] key. *)
Record Config := mkConfig {
  systemInstruction : option SystemInstruction;
  temperature : option Q;
  tools : list Tool;
  responseSchema : option ResponseSchema
}.

Record Request := mkRequest {
  req_model : ModelName;
  contents : Contents;
  config : Config
}.

Record GroundingChunk := mkChunk { chunk_web : option WebSource }.

(** One entry of [toolCodeOutputs.outputs]. *)
Record RawToolOutput := mkRaw {
  raw_code : option string;
  raw_outputs : option (list Part)
}.

(** What the orchestrator reads of a response: [text],
    [candidates[0].groundingMetadata.groundingChunks] when present, and, for
    each part of [candidates[0].content.parts] that has [toolCodeOutputs],
    its [outputs]. *)
Record Response := mkResponse {
  text : string;
  groundingChunks : option (list GroundingChunk);
  toolCalls : list (list RawToolOutput)
}.

(** A thrown value: whether it is an [Error] and its [message]. *)
Record JsError := mkError {
  instanceofError : bool;
  message : string
}.

Inductive GatewayReply :=
  | Resolved (r : Response)
  | Rejected (e : JsError).

(** ** Application state and settings: lines 747-786 *)

Record Notification := mkNotification {
  notif_message : string;
  notif_isError : bool
}.

(** The state the core reads and writes.  [calls] is a ghost log of the
    gateway calls issued so far, oldest first, each with its reply.  The
    timer, the refine panel and the draft kept in local storage are left
    out: the core only resets them. *)
Record AppState := mkState {
  conversations : list Conversation;
  currentConversationId : option string;
  input : string;
  attachedFiles : list AttachedFile;
  isLoading : bool;
  loadingTasks : list LoadingTask;
  notification : option Notification;
  longTermMemories : list string;
  proactiveSuggestions : list string;
  showSearchConfirmation : bool;
  searchConfirmationData : option SearchConfirmationData;
  calls : list (Request * GatewayReply)
}.

(** The settings of a run, read from the closure. *)
Record Settings := mkSettings {
  ai : bool;
  researchMode : ResearchMode;
  generationDepth : GenerationDepth;
  modelName : ModelName;
  initialTemps : list Q;
  refinementTemp : Q;
  synthesizerTemp : Q;
  isSelfCorrectionEnabled : bool;
  isCodeInterpreterEnabled : bool;
  isLongTermMemoryEnabled : bool
}.

Definition setConversations (f : list Conversation -> list Conversation) (s : AppState) :=
  mkState (f (conversations s)) (currentConversationId s) (input s) (attachedFiles s)
    (isLoading s) (loadingTasks s) (notification s) (longTermMemories s)
    (proactiveSuggestions s) (showSearchConfirmation s) (searchConfirmationData s) (calls s).

Definition setInput (v : string) (s : AppState) :=
  mkState (conversations s) (currentConversationId s) v (attachedFiles s)
    (isLoading s) (loadingTasks s) (notification s) (longTermMemories s)
    (proactiveSuggestions s) (showSearchConfirmation s) (searchConfirmationData s) (calls s).

Definition setAttachedFiles (v : list AttachedFile) (s : AppState) :=
  mkState (conversations s) (currentConversationId s) (input s) v
    (isLoading s) (loadingTasks s) (notification s) (longTermMemories s)
    (proactiveSuggestions s) (showSearchConfirmation s) (searchConfirmationData s) (calls s).

Definition setIsLoading (v : bool) (s : AppState) :=
  mkState (conversations s) (currentConversationId s) (input s) (attachedFiles s)
    v (loadingTasks s) (notification s) (longTermMemories s)
    (proactiveSuggestions s) (showSearchConfirmation s) (searchConfirmationData s) (calls s).

Definition setLoadingTasks (f : list LoadingTask -> list LoadingTask) (s : AppState) :=
  mkState (conversations s) (currentConversationId s) (input s) (attachedFiles s)
    (isLoading s) (f (loadingTasks s)) (notification s) (longTermMemories s)
    (proactiveSuggestions s) (showSearchConfirmation s) (searchConfirmationData s) (calls s).

Definition setNotification (v : option Notification) (s : AppState) :=
  mkState (conversations s) (currentConversationId s) (input s) (attachedFiles s)
    (isLoading s) (loadingTasks s) v (longTermMemories s)
    (proactiveSuggestions s) (showSearchConfirmation s) (searchConfirmationData s) (calls s).

Definition setLongTermMemories (f : list string -> list string) (s : AppState) :=
  mkState (conversations s) (currentConversationId s) (input s) (attachedFiles s)
    (isLoading s) (loadingTasks s) (notification s) (f (longTermMemories s))
    (proactiveSuggestions s) (showSearchConfirmation s) (searchConfirmationData s) (calls s).

Definition setProactiveSuggestions (v : list string) (s : AppState) :=
  mkState (conversations s) (currentConversationId s) (input s) (attachedFiles s)
    (isLoading s) (loadingTasks s) (notification s) (longTermMemories s)
    v (showSearchConfirmation s) (searchConfirmationData s) (calls s).

Definition setShowSearchConfirmation (v : bool) (s : AppState) :=
  mkState (conversations s) (currentConversationId s) (input s) (attachedFiles s)
    (isLoading s) (loadingTasks s) (notification s) (longTermMemories s)
    (proactiveSuggestions s) v (searchConfirmationData s) (calls s).

Definition setSearchConfirmationData (v : option SearchConfirmationData) (s : AppState) :=
  mkState (conversations s) (currentConversationId s) (input s) (attachedFiles s)
    (isLoading s) (loadingTasks s) (notification s) (longTermMemories s)
    (proactiveSuggestions s) (showSearchConfirmation s) v (calls s).

Definition logCall (rq : Request) (rp : GatewayReply) (s : AppState) :=
  mkState (conversations s) (currentConversationId s) (input s) (attachedFiles s)
    (isLoading s) (loadingTasks s) (notification s) (longTermMemories s)
    (proactiveSuggestions s) (showSearchConfirmation s) (searchConfirmationData s)
    (calls s ++ [(rq, rp)]).

(** ** The monad of an async function *)

Inductive Completion (A : Type) :=
  | Normal (a : A)
  | Thrown (e : JsError).
Arguments Normal {A} a.
Arguments Thrown {A} e.

Definition Async (A : Type) : Type := AppState -> Completion A * AppState.

Definition ret {A : Type} (a : A) : Async A := fun s => (Normal a, s).

Definition bind {A B : Type} (m : Async A) (k : A -> Async B) : Async B :=
  fun s =>
    match m s with
    | (Normal a, s') => k a s'
    | (Thrown e, s') => (Thrown e, s')
    end.

Definition throw {A : Type} (e : JsError) : Async A := fun s => (Thrown e, s).

(** A state setter. *)
Definition update (f : AppState -> AppState) : Async unit := fun s => (Normal tt, f s).

(** [try { body } catch (error) { handler }]. *)
Definition tryCatch {A : Type} (body : Async A) (handler : JsError -> Async A) : Async A :=
  fun s =>
    match body s with
    | (Normal a, s') => (Normal a, s')
    | (Thrown e, s') => handler e s'
    end.

Declare Scope async_scope.
Delimit Scope async_scope with async.
Notation "x <- m ;; k" := (bind m (fun x => k))
  (at level 100, m at next level, right associativity) : async_scope.
Notation "m ;; k" := (bind m (fun _ => k))
  (at level 100, right associativity) : async_scope.
Open Scope async_scope.

Definition readState : Async AppState := fun s => (Normal s, s).

(** [currentConversationId] in a boolean position: the identifier when it
    is neither [null] nor the empty string. *)
Definition selectedConversation (s : AppState) : option string :=
  match currentConversationId s with
  | Some conversationId => if truthy conversationId then Some conversationId else None
  | None => None
  end.

(** Lines 1138-1144. *)
Definition updateConversationMessages (conversationId : string)
    (getNewMessages : list Message -> list Message) : Async unit :=
  update (setConversations
    (map (fun c =>
            if (id c =? conversationId)%string
            then mkConversation (id c) (conv_title c) (getNewMessages (messages c))
            else c))).

(** Lines 1280-1294. *)
Definition parseToolOutputs (response : Response) : list ToolOutput :=
  flat_map
    (fun call =>
       map (fun toolOutput =>
              {| code := match raw_code toolOutput with
                         | Some c => if truthy c then c else "Código não encontrado"
                         | None => "Código não encontrado"
                         end;
                 result := match raw_outputs toolOutput with
                           | Some outputs => outputs
                           | None => []
                           end |})
           call)
    (toolCalls response).

(** Lines 1319-1323 and 1348-1352: the grounding chunks with a [web] entry
    replace [sources] when the response has grounding chunks. *)
Definition groundingSources (response : Response) (current : list WebSource)
    : list WebSource :=
  match groundingChunks response with
  | Some chunks =>
      flat_map (fun chunk => match chunk_web chunk with
                             | Some w => [ mkSource (uri w) (title w) ]
                             | None => []
                             end) chunks
  | None => current
  end.

(** The classification of the [catch] block, lines 1457-1466. *)
Definition friendlyMessage (error : JsError) : string :=
  if instanceofError error then
    if includes "API key not valid" (message error) then
      "Há um problema com a configuração da API. Por favor, contate o administrador."
    else if includes "deadline" (toLowerCase (message error)) then
      "A solicitação demorou muito e expirou. Tente novamente com uma pergunta mais curta ou verifique sua conexão de rede."
    else if includes "SAFETY" (message error) then
      "A resposta foi bloqueada devido às configurações de segurança. Por favor, modifique sua pergunta e tente novamente."
    else "Desculpe, algo deu errado ao gerar a resposta."
  else "Desculpe, algo deu errado ao gerar a resposta.".

(** Lines 1468-1472. *)
Definition errorMessage (error : JsError) : Message :=
  {| role := model; parts := [ TextPart (friendlyMessage error) ];
     sources := None; msg_attachedFiles := None; isError := true;
     generationDetails := None; toolOutputs := None |}.

(** Lines 1576-1580. *)
Definition searchRefinementErrorMessage : Message :=
  {| role := model;
     parts := [ TextPart "Desculpe, houve um erro ao tentar refinar sua pesquisa. Por favor, tente novamente." ];
     sources := None; msg_attachedFiles := None; isError := true;
     generationDetails := None; toolOutputs := None |}.

(** The filter of lines 1518-1520: a text part whose text is not blank. *)
Definition keepsPart (p : Part) : bool :=
  match p with
  | TextPart t => negb (trim t =? "")%string
  | InlineData _ _ => false
  end.

Definition MAX_HISTORY_MESSAGES : nat := 10.

(** [xs.slice(-n)] for a positive [n]. *)
Definition sliceLast {A : Type} (n : nat) (xs : list A) : list A :=
  skipn (length xs - n) xs.

(** Lines 1513-1522: the history handed to the pipeline. *)
Definition historyOf (msgs : list Message) : list Content :=
  let conversationHistory := sliceLast MAX_HISTORY_MESSAGES msgs in
  filter (fun msg => 0 <? length (content_parts msg))
    (map (fun msg => mkContent (role msg) (filter keepsPart (parts msg)))
         conversationHistory).

(** The arguments of [executeGeneration]. *)
Record GenArgs := mkArgs {
  userInput : string;
  attachedFileParts : list Part;
  history : list Content;
  confirmedSearchQuery : option string
}.

(** What [JSON.parse] throws on a malformed payload. *)
Definition JSON_SyntaxError : JsError := mkError true "Unexpected token in JSON".

Section Core.

(** The remote model: the reply to the [n]-th call of the session. *)
Variable generateContent : nat -> Request -> GatewayReply.

(** The instant at which the reply to the [n]-th call of the session reaches
    the client.  It matters only among the calls of one [Promise.all], which
    are in flight together. *)
Variable arrival : nat -> nat.

(** [JSON.parse] on a payload of the search-proposal schema, followed by the
    reads of [searchQuery] and [questions]; [None] when it throws. *)
Variable parseSearchProposal : string -> option (string * list string).

(** [JSON.parse] on a payload of the string-array schema; [None] when it
    throws or the value is not an array. *)
Variable parseStringArray : string -> option (list string).

Variable cfg : Settings.

(** [await ai.models.generateContent(request)]. *)
Definition ai_generateContent (rq : Request) : Async Response :=
  fun s =>
    let rp := generateContent (length (calls s)) rq in
    match rp with
    | Resolved r => (Normal r, logCall rq rp s)
    | Rejected e => (Thrown e, logCall rq rp s)
    end.

(** The calls of a [Promise.all]: every request is issued, whatever the
    replies. *)
Fixpoint issueAll (rqs : list Request) (s : AppState) : list GatewayReply * AppState :=
  match rqs with
  | [] => ([], s)
  | rq :: rest =>
      let rp := generateContent (length (calls s)) rq in
      let '(rps, s') := issueAll rest (logCall rq rp s) in
      (rp :: rps, s')
  end.

(** The rejection that reaches a [Promise.all] first, with its instant.
    The replies are those of the calls [n], [n + 1], ... of the session; of
    two rejections at the same instant the one of the earlier request is
    taken. *)
Fixpoint firstRejection (n : nat) (rps : list GatewayReply) : option (nat * JsError) :=
  match rps with
  | [] => None
  | Resolved _ :: rest => firstRejection (S n) rest
  | Rejected e :: rest =>
      match firstRejection (S n) rest with
      | Some (t, e') => if t <? arrival n then Some (t, e') else Some (arrival n, e)
      | None => Some (arrival n, e)
      end
  end.

(** The responses of the replies that resolved, in the order of the list. *)
Definition fulfilled (rps : list GatewayReply) : list Response :=
  flat_map (fun rp => match rp with
                      | Resolved r => [ r ]
                      | Rejected _ => []
                      end) rps.

(** The join of a [Promise.all] whose first call is the [n]-th of the
    session: all the responses in the order of the requests, or the
    rejection that arrived first. *)
Definition settle (n : nat) (rps : list GatewayReply) : Completion (list Response) :=
  match firstRejection n rps with
  | Some (_, e) => Thrown e
  | None => Normal (fulfilled rps)
  end.

(** [await Promise.all(requests.map(generateContent))]. *)
Definition Promise_all (rqs : list Request) : Async (list Response) :=
  fun s => let '(rps, s') := issueAll rqs s in (settle (length (calls s)) rps, s').

(** Lines 1266-1277, without the minimum display time. *)
Definition runTask {T : Type} (taskFn : Async T) (taskIndex : nat) : Async T :=
  update (setLoadingTasks (updateTaskStatus taskIndex active)) ;;
  result <- taskFn ;;
  update (setLoadingTasks (updateTaskStatus taskIndex completed)) ;;
  ret result.

(** Lines 1146-1167. *)
Definition generateAndStoreMemory (userInput modelResponse : string) : Async unit :=
  if negb (ai cfg) then ret tt else
  tryCatch
    (let memoryPrompt :=
       ("User Query: " ++ DQUOTE ++ userInput ++ DQUOTE ++ LF ++ LF
        ++ "AI Response: " ++ DQUOTE ++ modelResponse ++ DQUOTE)%string in
     response <- ai_generateContent
       {| req_model := gemini_2_5_flash;
          contents := PromptText memoryPrompt;
          config := mkConfig (Some SUMMARIZER_SYSTEM_INSTRUCTION) (Some (2 # 10)%Q) [] None |} ;;
     update (setLongTermMemories (admitExtracted (text response))))
    (fun _ => ret tt).

(** Lines 1169-1192. *)
Definition generateProactiveSuggestions (userInput modelResponse : string) : Async unit :=
  if negb (ai cfg) then ret tt else
  tryCatch
    (let prompt :=
       ("--- User Query ---" ++ LF ++ userInput ++ LF ++ LF
        ++ "--- AI Response ---" ++ LF ++ modelResponse)%string in
     response <- ai_generateContent
       {| req_model := gemini_2_5_flash;
          contents := PromptText prompt;
          config := mkConfig (Some PROACTIVE_ASSISTANT_SYSTEM_INSTRUCTION) None []
                             (Some StringArraySchema) |} ;;
     match parseStringArray (text response) with
     | Some suggestions =>
         if 0 <? length suggestions
         then update (setProactiveSuggestions (firstn 3 suggestions))
         else ret tt
     | None => ret tt
     end)
    (fun _ => ret tt).

(** Lines 1227-1232. *)
Definition contextPrefix (memories : list string) : string :=
  if isLongTermMemoryEnabled cfg && (0 <? length memories)
  then ("--- Contexto da Memória de Longo Prazo ---" ++ LF ++ "- "
        ++ join (LF ++ "- ") memories ++ LF ++ "--- Fim do Contexto ---" ++ LF ++ LF)%string
  else "".

(** Line 1232, with the memories of the closure. *)
Definition finalInputWithContextOf (closure : AppState) (a : GenArgs) : string :=
  contextPrefix (longTermMemories closure) ++ userInput a.

(** Line 1296. *)
Definition codeInterpreterTool : list Tool :=
  if isCodeInterpreterEnabled cfg then [ codeExecution ] else [].

Definition searchesWeb : bool :=
  match researchMode cfg with
  | web | deepResearch => true
  | offline => false
  end.

(** Line 1361. *)
Definition numAgents : nat :=
  match generationDepth cfg with
  | deep => 4
  | _ => 2
  end.

(** The request of lines 1311-1315. *)
Definition fastRequest (a : GenArgs) (finalInputWithContext : string) : Request :=
  let promptWithContext :=
    mkContent user (TextPart finalInputWithContext :: attachedFileParts a) in
  let fastModeTools :=
    codeInterpreterTool ++ (if searchesWeb then [ googleSearch ] else []) in
  {| req_model := modelName cfg;
     contents := PromptContents (history a ++ [ promptWithContext ]);
     config := mkConfig None (Some (synthesizerTemp cfg)) fastModeTools None |}.

(** The request of lines 1341-1345. *)
Definition searchRequest (queryForSearch : string) : Request :=
  {| req_model := modelName cfg;
     contents := PromptText queryForSearch;
     config := mkConfig None None [ googleSearch ] None |}.

(** The request of lines 1365-1369 for agent [i]. *)
Definition initialRequest (a : GenArgs) (promptWithContext : Content) (i : nat) : Request :=
  {| req_model := modelName cfg;
     contents := PromptContents (history a ++ [ promptWithContext ]);
     config := mkConfig (Some INITIAL_SYSTEM_INSTRUCTION) (nth_error (initialTemps cfg) i)
                        [] None |}.

(** The request of lines 1377-1381 for one initial response. *)
Definition refinementRequest (a : GenArgs) (promptWithContext : Content)
    (response : Response) : Request :=
  {| req_model := modelName cfg;
     contents := PromptContents
       (history a ++
        [ mkContent user
            (content_parts promptWithContext ++
             [ TextPart (LF ++ LF ++ "--- Initial Response to Refine ---" ++ LF
                         ++ text response)%string ]) ]);
     config := mkConfig (Some REFINEMENT_SYSTEM_INSTRUCTION) (Some (refinementTemp cfg))
                        [] None |}.

(** Lines 1387-1393. *)
Definition synthesizerContent (promptWithContext : Content)
    (refinedResponses : list Response) : Content :=
  mkContent user
    (content_parts promptWithContext ++
     mapi (fun res i =>
             TextPart (LF ++ LF ++ "--- Refined Response " ++ ofNat (i + 1) ++ " ---" ++ LF
                       ++ text res)%string)
          refinedResponses).

(** Lines 1395-1399. *)
Definition synthesizerConfig : Config :=
  mkConfig (Some SYNTHESIZER_SYSTEM_INSTRUCTION) (Some (synthesizerTemp cfg))
           codeInterpreterTool None.

(** The request of lines 1401-1405, and of lines 1432-1436 with the second
    content. *)
Definition synthesizerRequest (a : GenArgs) (content : Content) : Request :=
  {| req_model := modelName cfg;
     contents := PromptContents (history a ++ [ content ]);
     config := synthesizerConfig |}.

(** The request of lines 1412-1420. *)
Definition critiqueRequest (promptWithContext : Content) (finalResponse : Response)
    : Request :=
  {| req_model := gemini_2_5_flash;
     contents := PromptContents
       [ mkContent user
           (content_parts promptWithContext ++
            [ TextPart (LF ++ LF ++ "--- Proposed Final Answer to Critique ---" ++ LF
                        ++ text finalResponse)%string ]) ];
     config := mkConfig (Some CRITIC_SYSTEM_INSTRUCTION) (Some (1 # 10)%Q) [] None |}.

(** Lines 1424-1431. *)
Definition secondSynthesizerContent (synthContent : Content) (critiqueResponse : Response)
    : Content :=
  mkContent user
    (content_parts synthContent ++
     [ TextPart (LF ++ LF ++ "--- Critique of Previous Attempt ---" ++ LF
                 ++ text critiqueResponse)%string;
       TextPart (LF ++ LF ++ "--- Your Task ---" ++ LF
                 ++ "Generate a new, superior final response that addresses the critique.")%string ]).

(** The test of line 1423, negated: the critic found nothing to correct. *)
Definition saysPerfect (critiqueText : string) : bool :=
  (toUpperCase (trim critiqueText) =? "PERFECT")%string.

(** Lines 1316-1330. *)
Definition fastMessageOf (finalResponse : Response) : Message :=
  {| role := model; parts := [ TextPart (text finalResponse) ];
     sources := Some (groundingSources finalResponse []);
     msg_attachedFiles := None; isError := false;
     generationDetails := None;
     toolOutputs := Some (parseToolOutputs finalResponse) |}.

(** The [fast] branch of the [try] block, lines 1298-1332.  The value is the
    [finalResponseText] the [finally] block reads. *)
Definition fastGeneration (a : GenArgs) (finalInputWithContext conversationId : string)
    : Async string :=
  update (setLoadingTasks (updateTaskStatus 0 active)) ;;
  finalResponse <- ai_generateContent (fastRequest a finalInputWithContext) ;;
  let modelMessage := fastMessageOf finalResponse in
  update (setLoadingTasks (updateTaskStatus 0 completed)) ;;
  updateConversationMessages conversationId (fun current => current ++ [ modelMessage ]) ;;
  ret (text finalResponse).

(** Lines 1409-1440: the critique and the one correction it may ask for.
    The value is the response that is final afterwards and the task index
    reached. *)
Definition selfCorrection (a : GenArgs) (promptWithContext synthContent : Content)
    (finalResponse : Response) (taskIndex : nat) : Async (Response * nat) :=
  if isSelfCorrectionEnabled cfg then
    let taskIndex := S taskIndex in
    critiqueResponse <-
      runTask (ai_generateContent (critiqueRequest promptWithContext finalResponse))
              taskIndex ;;
    if negb (saysPerfect (text critiqueResponse)) then
      improvedFinalResponse <-
        ai_generateContent
          (synthesizerRequest a (secondSynthesizerContent synthContent critiqueResponse)) ;;
      ret (improvedFinalResponse, taskIndex)
    else ret (finalResponse, taskIndex)
  else ret (finalResponse, taskIndex).

(** Line 1340. *)
Definition queryForSearch (a : GenArgs) (finalInputWithContext : string) : string :=
  match confirmedSearchQuery a with
  | Some q => if truthy q then q else finalInputWithContext
  | None => finalInputWithContext
  end.

(** Line 1347. *)
Definition webContextOf (searchResponse : Response) : string :=
  LF ++ LF ++ "--- Web Search Results ---" ++ LF ++ text searchResponse ++ LF
  ++ "--- End Web Search Results ---".

(** Lines 1356-1359. *)
Definition promptWithContextOf (a : GenArgs) (finalInputWithContext webContext : string)
    : Content :=
  mkContent user (TextPart (finalInputWithContext ++ webContext) :: attachedFileParts a).

(** The requests of the two fan-out stages, lines 1363-1383. *)
Definition initialRequests (a : GenArgs) (promptWithContext : Content) : list Request :=
  map (initialRequest a promptWithContext) (seq 0 numAgents).

Definition refinementRequests (a : GenArgs) (promptWithContext : Content)
    (initialResponses : list Response) : list Request :=
  map (refinementRequest a promptWithContext) initialResponses.

(** Lines 1442-1450. *)
Definition modelMessageOf (sources : list WebSource)
    (initialResponses refinedResponses : list Response) (finalResponse : Response)
    : Message :=
  {| role := model; parts := [ TextPart (text finalResponse) ];
     sources := Some sources; msg_attachedFiles := None; isError := false;
     generationDetails :=
       Some (mkDetails (map text initialResponses) (map text refinedResponses));
     toolOutputs := Some (parseToolOutputs finalResponse) |}.

(** Lines 1339-1354: the search stage.  The value is the web context, the
    sources and the task index to go on with. *)
Definition webSearchStage (a : GenArgs) (finalInputWithContext : string) (taskIndex : nat)
    : Async (string * list WebSource * nat) :=
  if searchesWeb then
    searchResponse <-
      runTask (ai_generateContent (searchRequest (queryForSearch a finalInputWithContext)))
              taskIndex ;;
    ret (webContextOf searchResponse, groundingSources searchResponse [], S taskIndex)
  else ret (""%string, [], taskIndex).

(** The [else] branch of the [try] block, lines 1334-1454. *)
Definition multiAgentGeneration (a : GenArgs) (finalInputWithContext conversationId : string)
    : Async string :=
  let taskIndex := 0 in
  runTask (ret tt) taskIndex ;;
  let taskIndex := S taskIndex in
  searched <- webSearchStage a finalInputWithContext taskIndex ;;
  let '(webContext, sources, taskIndex) := searched in
  let promptWithContext := promptWithContextOf a finalInputWithContext webContext in
  initialResponses <- runTask (Promise_all (initialRequests a promptWithContext)) taskIndex ;;
  let taskIndex := S taskIndex in
  refinedResponses <-
    runTask (Promise_all (refinementRequests a promptWithContext initialResponses))
            taskIndex ;;
  let taskIndex := S taskIndex in
  let synthContent := synthesizerContent promptWithContext refinedResponses in
  finalResponse <- runTask (ai_generateContent (synthesizerRequest a synthContent)) taskIndex ;;
  corrected <- selfCorrection a promptWithContext synthContent finalResponse taskIndex ;;
  let '(finalResponse, taskIndex) := corrected in
  let modelMessage := modelMessageOf sources initialResponses refinedResponses finalResponse in
  update (setLoadingTasks (updateTaskStatus taskIndex completed)) ;;
  updateConversationMessages conversationId (fun current => current ++ [ modelMessage ]) ;;
  ret (text finalResponse).

(** The [try] block, lines 1279-1454. *)
Definition generationPath (a : GenArgs) (finalInputWithContext conversationId : string)
    : Async string :=
  match generationDepth cfg with
  | fast => fastGeneration a finalInputWithContext conversationId
  | _ => multiAgentGeneration a finalInputWithContext conversationId
  end.

(** The [finally] block, lines 1476-1484; the two enrichments are started in
    this order and run here one after the other. *)
Definition enrichment (a : GenArgs) (finalResponseText : string) : Async unit :=
  update (setIsLoading false) ;;
  if truthy finalResponseText then
    (if isLongTermMemoryEnabled cfg
     then generateAndStoreMemory (userInput a) finalResponseText
     else ret tt) ;;
    generateProactiveSuggestions (userInput a) finalResponseText
  else ret tt.

(** Lines 1224-1485. *)
Definition executeGeneration (a : GenArgs) : Async unit :=
  closure <- readState ;;
  match ai cfg, selectedConversation closure with
  | true, Some conversationId =>
      let finalInputWithContext := finalInputWithContextOf closure a in
      update (setLoadingTasks (fun _ =>
        tasksForRun (generationDepth cfg) (researchMode cfg) (isSelfCorrectionEnabled cfg))) ;;
      finalResponseText <-
        tryCatch
          (generationPath a finalInputWithContext conversationId)
          (fun error =>
             updateConversationMessages conversationId
               (fun current => current ++ [ errorMessage error ]) ;;
             ret ""%string) ;;
      enrichment a finalResponseText
  | _, _ => ret tt
  end.

(** Lines 1218-1222. *)
Definition handleSearchCancel : Async unit :=
  update (setShowSearchConfirmation false) ;;
  update (setSearchConfirmationData None) ;;
  update (setIsLoading false).

(** Lines 1203-1216. *)
Definition handleSearchConfirmation (confirmedQuery : string) : Async unit :=
  closure <- readState ;;
  match searchConfirmationData closure with
  | None => ret tt
  | Some data =>
      update (setShowSearchConfirmation false) ;;
      executeGeneration
        {| userInput := originalUserInput data;
           attachedFileParts := pendingAttachedFileParts data;
           history := pendingHistory data;
           confirmedSearchQuery := Some confirmedQuery |} ;;
      update (setSearchConfirmationData None)
  end.

(** The request of lines 1545-1560. *)
Definition searchRefinerRequest (userInput : string) : Request :=
  {| req_model := gemini_2_5_flash;
     contents := PromptText userInput;
     config := mkConfig (Some SEARCH_REFINER_SYSTEM_INSTRUCTION) None []
                        (Some SearchProposalSchema) |}.

(** Line 1543: the condition under which the search gate is entered. *)
Definition engagesSearchGate : bool :=
  match researchMode cfg, generationDepth cfg with
  | web, fast => false
  | web, _ => true
  | _, _ => false
  end.

(** Lines 1543-1585: the search gate. *)
Definition searchGate (userInput conversationId : string) (attachedFileParts : list Part)
    (history : list Content) : Async unit :=
  tryCatch
    (response <- ai_generateContent (searchRefinerRequest userInput) ;;
     match parseSearchProposal (text response) with
     | Some (proposedQuery, proposedQuestions) =>
         update (setSearchConfirmationData
                   (Some {| originalUserInput := userInput;
                            searchQuery := proposedQuery;
                            questions := proposedQuestions;
                            pendingAttachedFileParts := attachedFileParts;
                            pendingHistory := history |})) ;;
         update (setShowSearchConfirmation true)
     | None => throw JSON_SyntaxError
     end)
    (fun _ =>
       updateConversationMessages conversationId
         (fun current => current ++ [ searchRefinementErrorMessage ]) ;;
       update (setIsLoading false)).

(** Lines 1487-1593. *)
Definition handleSubmit (overrideInput : option string) : Async unit :=
  closure <- readState ;;
  let inputToUse := match overrideInput with Some o => o | None => input closure end in
  if negb (truthy (trim inputToUse)) && (length (attachedFiles closure) =? 0) then
    update (setNotification
              (Some (mkNotification "Por favor, insira uma mensagem ou anexe um arquivo." true)))
  else
    match ai cfg, selectedConversation closure, isLoading closure with
    | true, Some conversationId, false =>
        let userInput := inputToUse in
        update (setProactiveSuggestions []) ;;
        let userMessage :=
          {| role := user;
             parts := TextPart userInput :: map content (attachedFiles closure);
             sources := None;
             msg_attachedFiles := Some (map file (attachedFiles closure));
             isError := false; generationDetails := None; toolOutputs := None |} in
        match find (fun c => (id c =? conversationId)%string) (conversations closure) with
        | None => ret tt
        | Some currentConversation =>
            let history := historyOf (messages currentConversation) in
            (if length (messages currentConversation) =? 0 then
               let ellipsis : string :=
                 if 40 <? String.length (trim userInput) then "..." else "" in
               let newTitle := (substring0 40 (trim userInput) ++ ellipsis)%string in
               update (setConversations
                 (map (fun c => if (id c =? conversationId)%string
                                then mkConversation (id c) newTitle (messages c)
                                else c)))
             else ret tt) ;;
            updateConversationMessages conversationId
              (fun current => current ++ [ userMessage ]) ;;
            let attachedFileParts := map content (attachedFiles closure) in
            update (setInput "") ;;
            update (setAttachedFiles []) ;;
            update (setIsLoading true) ;;
            if engagesSearchGate
            then searchGate userInput conversationId attachedFileParts history
            else executeGeneration
                   {| userInput := userInput;
                      attachedFileParts := attachedFileParts;
                      history := history;
                      confirmedSearchQuery := None |}
        end
    | _, _, _ => ret tt
    end.

(** Lines 1194-1196. *)
Definition handleSuggestionClick (suggestion : string) : Async unit :=
  handleSubmit (Some suggestion).

(** ** Reference definitions used by the statements *)

(** The stage list in the words of the specification: one stage for a fast
    run; otherwise history, the search stage unless the mode is offline,
    brainstorming, refinement, synthesis, and the critique when
    self-correction is enabled. *)
Definition spec_stageList (depth : GenerationDepth) (mode : ResearchMode)
    (selfCorrection : bool) : list LoadingTask :=
  match depth with
  | fast => [ FAST_TASK ]
  | _ =>
      [ HISTORY_PROCESSING_TASK ]
      ++ (match mode with offline => [] | _ => [ SEARCHING_TASK ] end)
      ++ [ BRAINSTORMING_TASK; REFINING_TASK; SYNTHESIZING_TASK ]
      ++ (if selfCorrection then [ CRITIC_TASK ] else [])
  end.

(** The status the specification gives stage [j] after [advance(i)]. *)
Definition spec_statusAfterAdvance (i j : nat) : TaskStatus :=
  if j <? i then completed else if j =? i then active else pending.

(** A part that is a text part with a non-empty text. *)
Definition isNonEmptyText (p : Part) : bool :=
  match p with
  | TextPart t => negb (t =? "")%string
  | InlineData _ _ => false
  end.

(** A part that is a text part whose text is not only white space. *)
Definition isNonBlankText (p : Part) : bool :=
  match p with
  | TextPart t => negb (trim t =? "")%string
  | InlineData _ _ => false
  end.

(** The history as C10 words it: the last ten messages, each reduced
    to its non-empty text parts, the messages left without parts dropped. *)
Definition spec_historyOf (msgs : list Message) : list Content :=
  filter (fun c => negb (length (content_parts c) =? 0))
    (map (fun m => mkContent (role m) (filter isNonEmptyText (parts m)))
         (sliceLast 10 msgs)).

(** The stage list of a fast run while its call is in flight (line 1299)
    and after it resolved (line 1331). *)
Definition fastTasksActive : list LoadingTask :=
  updateTaskStatus 0 active (tasksForRun fast offline true).
Definition fastTasksCompleted : list LoadingTask :=
  updateTaskStatus 0 completed (tasksForRun fast offline true).

(** A memory list that has reached the maximum. *)
Definition twentyMemories : list string :=
  map (fun n => ("The user owns book number " ++ ofNat n)%string) (seq 1 20).

(** A message whose only part is a text of one space. *)
Definition blankMessage : Message :=
  {| role := user; parts := [ TextPart " " ]; sources := None;
     msg_attachedFiles := None; isError := false; generationDetails := None;
     toolOutputs := None |}.

(** ** The log of a run *)

Definition Call : Type := (Request * GatewayReply)%type.

(** The calls of the core, told apart by their instruction; the two calls
    without one by the form of their contents. *)
Inductive CallKind :=
  | SearchProposalCall
  | WebSearchCall
  | DirectCall
  | InitialDraftCall
  | RefinementCall
  | SynthesisCall
  | CritiqueCall
  | MemoryCall
  | SuggestionCall.

Definition kindOf (rq : Request) : CallKind :=
  match systemInstruction (config rq) with
  | Some INITIAL_SYSTEM_INSTRUCTION => InitialDraftCall
  | Some REFINEMENT_SYSTEM_INSTRUCTION => RefinementCall
  | Some SYNTHESIZER_SYSTEM_INSTRUCTION => SynthesisCall
  | Some SUMMARIZER_SYSTEM_INSTRUCTION => MemoryCall
  | Some SEARCH_REFINER_SYSTEM_INSTRUCTION => SearchProposalCall
  | Some CRITIC_SYSTEM_INSTRUCTION => CritiqueCall
  | Some PROACTIVE_ASSISTANT_SYSTEM_INSTRUCTION => SuggestionCall
  | None =>
      match contents rq with
      | PromptText _ => WebSearchCall
      | PromptContents _ => DirectCall
      end
  end.

Definition CallKind_eqb (a b : CallKind) : bool :=
  match a, b with
  | SearchProposalCall, SearchProposalCall
  | WebSearchCall, WebSearchCall
  | DirectCall, DirectCall
  | InitialDraftCall, InitialDraftCall
  | RefinementCall, RefinementCall
  | SynthesisCall, SynthesisCall
  | CritiqueCall, CritiqueCall
  | MemoryCall, MemoryCall
  | SuggestionCall, SuggestionCall => true
  | _, _ => false
  end.

Definition callsOfKind (k : CallKind) (log : list Call) : list Call :=
  filter (fun c => CallKind_eqb (kindOf (fst c)) k) log.

Definition countKind (k : CallKind) (log : list Call) : nat :=
  length (callsOfKind k log).

Definition isEnrichmentCall (c : Call) : bool :=
  match kindOf (fst c) with
  | MemoryCall | SuggestionCall => true
  | _ => false
  end.

Definition isResolved (c : Call) : bool :=
  match snd c with
  | Resolved _ => true
  | Rejected _ => false
  end.

(** Requests that all resolved, with their responses. *)
Definition resolvedCalls (rqs : list Request) (rs : list Response) : list Call :=
  combine rqs (map Resolved rs).

(** A conversation list after [updateConversationMessages] appended [msg]
    to the conversation [conversationId]; untouched without a message. *)
Definition appendMessage (conversationId : string) (msg : option Message)
    (convs : list Conversation) : list Conversation :=
  match msg with
  | None => convs
  | Some m =>
      map (fun c =>
             if (id c =? conversationId)%string
             then mkConversation (id c) (conv_title c) (messages c ++ [ m ])
             else c) convs
  end.

(** Two states that agree outside the conversations, the stage list and the
    call log. *)
Definition sameOutsideRun (s s' : AppState) : Prop :=
  currentConversationId s' = currentConversationId s
  /\ input s' = input s
  /\ attachedFiles s' = attachedFiles s
  /\ isLoading s' = isLoading s
  /\ notification s' = notification s
  /\ longTermMemories s' = longTermMemories s
  /\ proactiveSuggestions s' = proactiveSuggestions s
  /\ showSearchConfirmation s' = showSearchConfirmation s
  /\ searchConfirmationData s' = searchConfirmationData s.

(** The state after the calls [cs] were logged. *)
Definition logCalls (cs : list Call) (s : AppState) : AppState :=
  mkState (conversations s) (currentConversationId s) (input s) (attachedFiles s)
    (isLoading s) (loadingTasks s) (notification s) (longTermMemories s)
    (proactiveSuggestions s) (showSearchConfirmation s) (searchConfirmationData s)
    (calls s ++ cs).

(** What a piece of a run did to the state: the calls it logged and the
    message it appended to the conversation [conversationId]. *)
Definition RunStep (conversationId : string) (s : AppState) (log : list Call)
    (msg : option Message) (s' : AppState) : Prop :=
  calls s' = calls s ++ log
  /\ conversations s' = appendMessage conversationId msg (conversations s)
  /\ sameOutsideRun s s'.

(** What the [finally] block did to the state: the enrichment calls it
    logged; the loading flag is down, the conversations are untouched, and
    without a call the memories and the suggestions are untouched too. *)
Definition EnrichStep (s : AppState) (elog : list Call) (s' : AppState) : Prop :=
  calls s' = calls s ++ elog
  /\ conversations s' = conversations s
  /\ isLoading s' = false
  /\ currentConversationId s' = currentConversationId s
  /\ showSearchConfirmation s' = showSearchConfirmation s
  /\ searchConfirmationData s' = searchConfirmationData s
  /\ Forall (fun c => isEnrichmentCall c = true) elog
  /\ (elog = [] ->
      longTermMemories s' = longTermMemories s
      /\ proactiveSuggestions s' = proactiveSuggestions s).

(** The responses of the calls of a log that resolved. *)
Definition responsesOf (log : list Call) : list Response :=
  flat_map (fun c => match snd c with
                     | Resolved r => [ r ]
                     | Rejected _ => []
                     end) log.

(** The calls of the generation path, as opposed to the search proposal and
    the two enrichments. *)
Definition isGenerationCall (c : Call) : bool :=
  match kindOf (fst c) with
  | WebSearchCall | DirectCall | InitialDraftCall | RefinementCall
  | SynthesisCall | CritiqueCall => true
  | SearchProposalCall | MemoryCall | SuggestionCall => false
  end.

(** The state in which the [try] block starts: the stage list is set. *)
Definition runStart (s : AppState) : AppState :=
  setLoadingTasks
    (fun _ => tasksForRun (generationDepth cfg) (researchMode cfg)
                (isSelfCorrectionEnabled cfg)) s.

(** The search stage when it did not fail: its log, the web context and the
    sources it leaves. *)
Inductive SearchStage (a : GenArgs) (fic : string)
    : list Call -> string -> list WebSource -> Prop :=
  | search_skipped :
      searchesWeb = false ->
      SearchStage a fic [] "" []
  | search_resolved (r : Response) :
      searchesWeb = true ->
      SearchStage a fic
        [ (searchRequest (queryForSearch a fic), Resolved r) ]
        (webContextOf r) (groundingSources r []).

(** The stages up to the refined drafts when none failed. *)
Inductive DraftStage (a : GenArgs) (fic : string)
    : list Call -> Content -> list WebSource -> list Response -> list Response -> Prop :=
  | drafts_done (searchLog : list Call) (webContext : string) (sources : list WebSource)
      (initials refineds : list Response) :
      SearchStage a fic searchLog webContext sources ->
      length initials = numAgents ->
      length refineds = numAgents ->
      DraftStage a fic
        (searchLog
         ++ resolvedCalls (initialRequests a (promptWithContextOf a fic webContext)) initials
         ++ resolvedCalls
              (refinementRequests a (promptWithContextOf a fic webContext) initials) refineds)
        (promptWithContextOf a fic webContext) sources initials refineds.

(** The runs of [selfCorrection] after a synthesis that gave [final]: the
    calls with their replies, and the response that is final afterwards. *)
Inductive CorrectionRun (a : GenArgs) (prompt synthContent : Content) (final : Response)
    : list Call -> Completion Response -> Prop :=
  | correction_disabled :
      isSelfCorrectionEnabled cfg = false ->
      CorrectionRun a prompt synthContent final [] (Normal final)
  | correction_critique_rejected (e : JsError) :
      isSelfCorrectionEnabled cfg = true ->
      CorrectionRun a prompt synthContent final
        [ (critiqueRequest prompt final, Rejected e) ] (Thrown e)
  | correction_perfect (critique : Response) :
      isSelfCorrectionEnabled cfg = true ->
      saysPerfect (text critique) = true ->
      CorrectionRun a prompt synthContent final
        [ (critiqueRequest prompt final, Resolved critique) ] (Normal final)
  | correction_rejected (critique : Response) (e : JsError) :
      isSelfCorrectionEnabled cfg = true ->
      saysPerfect (text critique) = false ->
      CorrectionRun a prompt synthContent final
        [ (critiqueRequest prompt final, Resolved critique);
          (synthesizerRequest a (secondSynthesizerContent synthContent critique), Rejected e) ]
        (Thrown e)
  | correction_done (critique improved : Response) :
      isSelfCorrectionEnabled cfg = true ->
      saysPerfect (text critique) = false ->
      CorrectionRun a prompt synthContent final
        [ (critiqueRequest prompt final, Resolved critique);
          (synthesizerRequest a (secondSynthesizerContent synthContent critique),
           Resolved improved) ]
        (Normal improved).

(** The runs of [multiAgentGeneration]: the calls issued with their replies,
    the completion, and the message appended to the conversation. *)
Inductive MultiAgentRun (a : GenArgs) (fic : string)
    : list Call -> Completion string -> option Message -> Prop :=
  | run_search_rejected (e : JsError) :
      searchesWeb = true ->
      MultiAgentRun a fic
        [ (searchRequest (queryForSearch a fic), Rejected e) ] (Thrown e) None
  | run_initial_rejected searchLog webContext sources (replies : list GatewayReply)
      (e : JsError) (n : nat) :
      SearchStage a fic searchLog webContext sources ->
      length replies = numAgents ->
      settle n replies = Thrown e ->
      MultiAgentRun a fic
        (searchLog
         ++ combine (initialRequests a (promptWithContextOf a fic webContext)) replies)
        (Thrown e) None
  | run_refinement_rejected searchLog webContext sources (initials : list Response)
      (replies : list GatewayReply) (e : JsError) (n : nat) :
      SearchStage a fic searchLog webContext sources ->
      length initials = numAgents ->
      length replies = numAgents ->
      settle n replies = Thrown e ->
      MultiAgentRun a fic
        (searchLog
         ++ resolvedCalls (initialRequests a (promptWithContextOf a fic webContext)) initials
         ++ combine (refinementRequests a (promptWithContextOf a fic webContext) initials)
                    replies)
        (Thrown e) None
  | run_synthesis_rejected log prompt sources initials refineds (e : JsError) :
      DraftStage a fic log prompt sources initials refineds ->
      MultiAgentRun a fic
        (log ++ [ (synthesizerRequest a (synthesizerContent prompt refineds), Rejected e) ])
        (Thrown e) None
  | run_without_critique log prompt sources initials refineds (final : Response) :
      DraftStage a fic log prompt sources initials refineds ->
      isSelfCorrectionEnabled cfg = false ->
      MultiAgentRun a fic
        (log ++ [ (synthesizerRequest a (synthesizerContent prompt refineds), Resolved final) ])
        (Normal (text final))
        (Some (modelMessageOf sources initials refineds final))
  | run_critique_rejected log prompt sources initials refineds (final : Response)
      (e : JsError) :
      DraftStage a fic log prompt sources initials refineds ->
      isSelfCorrectionEnabled cfg = true ->
      MultiAgentRun a fic
        (log ++ [ (synthesizerRequest a (synthesizerContent prompt refineds), Resolved final);
                  (critiqueRequest prompt final, Rejected e) ])
        (Thrown e) None
  | run_perfect log prompt sources initials refineds (final critique : Response) :
      DraftStage a fic log prompt sources initials refineds ->
      isSelfCorrectionEnabled cfg = true ->
      saysPerfect (text critique) = true ->
      MultiAgentRun a fic
        (log ++ [ (synthesizerRequest a (synthesizerContent prompt refineds), Resolved final);
                  (critiqueRequest prompt final, Resolved critique) ])
        (Normal (text final))
        (Some (modelMessageOf sources initials refineds final))
  | run_correction_rejected log prompt sources initials refineds
      (final critique : Response) (e : JsError) :
      DraftStage a fic log prompt sources initials refineds ->
      isSelfCorrectionEnabled cfg = true ->
      saysPerfect (text critique) = false ->
      MultiAgentRun a fic
        (log ++ [ (synthesizerRequest a (synthesizerContent prompt refineds), Resolved final);
                  (critiqueRequest prompt final, Resolved critique);
                  (synthesizerRequest a
                     (secondSynthesizerContent (synthesizerContent prompt refineds) critique),
                   Rejected e) ])
        (Thrown e) None
  | run_corrected log prompt sources initials refineds
      (final critique improved : Response) :
      DraftStage a fic log prompt sources initials refineds ->
      isSelfCorrectionEnabled cfg = true ->
      saysPerfect (text critique) = false ->
      MultiAgentRun a fic
        (log ++ [ (synthesizerRequest a (synthesizerContent prompt refineds), Resolved final);
                  (critiqueRequest prompt final, Resolved critique);
                  (synthesizerRequest a
                     (secondSynthesizerContent (synthesizerContent prompt refineds) critique),
                   Resolved improved) ])
        (Normal (text improved))
        (Some (modelMessageOf sources initials refineds improved)).

(** The runs of [fastGeneration]. *)
Inductive FastRun (a : GenArgs) (fic : string)
    : list Call -> Completion string -> option Message -> Prop :=
  | fast_rejected (e : JsError) :
      FastRun a fic [ (fastRequest a fic, Rejected e) ] (Thrown e) None
  | fast_resolved (final : Response) :
      FastRun a fic [ (fastRequest a fic, Resolved final) ]
        (Normal (text final)) (Some (fastMessageOf final)).

(** The runs of the [try] block. *)
Definition GenerationRun (a : GenArgs) (fic : string) (log : list Call)
    (out : Completion string) (msg : option Message) : Prop :=
  match generationDepth cfg with
  | fast => FastRun a fic log out msg
  | _ => MultiAgentRun a fic log out msg
  end.

(** The message the conversation receives for a completion of the [try]
    block: the one it appended, or the error message of the [catch] block. *)
Definition messageFor (out : Completion string) (msg : option Message) : option Message :=
  match out with
  | Normal _ => msg
  | Thrown e => Some (errorMessage e)
  end.

(** ** Example data *)

(** A session with one empty conversation and a question typed in. *)
Definition demoConversation : Conversation :=
  mkConversation "c1" "Nova Conversa" [].

Definition demoState : AppState :=
  {| conversations := [ demoConversation ];
     currentConversationId := Some "c1";
     input := "Plan a trip to Kyoto";
     attachedFiles := [];
     isLoading := false;
     loadingTasks := [];
     notification := None;
     longTermMemories := [];
     proactiveSuggestions := [];
     showSearchConfirmation := false;
     searchConfirmationData := None;
     calls := [] |}.

Definition demoArgs : GenArgs :=
  {| userInput := "Plan a trip to Kyoto"; attachedFileParts := []; history := [];
     confirmedSearchQuery := None |}.

(** The default settings (lines 759-778) with a mode and a depth. *)
Definition demoSettings (mode : ResearchMode) (depth : GenerationDepth) : Settings :=
  {| ai := true; researchMode := mode; generationDepth := depth;
     modelName := gemini_2_5_pro;
     initialTemps := [ (9 # 10)%Q; (9 # 10)%Q; (9 # 10)%Q; (9 # 10)%Q ];
     refinementTemp := (9 # 10)%Q; synthesizerTemp := (9 # 10)%Q;
     isSelfCorrectionEnabled := true; isCodeInterpreterEnabled := true;
     isLongTermMemoryEnabled := true |}.

Definition plainResponse (t : string) : Response :=
  {| text := t; groundingChunks := None; toolCalls := [] |}.

(** A model whose critic approves of the synthesis. *)
Definition approvingModel (n : nat) (rq : Request) : GatewayReply :=
  match kindOf rq with
  | CritiqueCall => Resolved (plainResponse " perfect ")
  | SynthesisCall => Resolved (plainResponse "Three days in Kyoto.")
  | _ => Resolved (plainResponse "A draft.")
  end.

(** A model whose critic asks for a correction; its syntheses differ by the
    position of the call. *)
Definition criticalModel (n : nat) (rq : Request) : GatewayReply :=
  match kindOf rq with
  | CritiqueCall => Resolved (plainResponse "The budget is missing.")
  | SynthesisCall =>
      Resolved (plainResponse ("Kyoto plan, version of call " ++ ofNat n)%string)
  | _ => Resolved (plainResponse "A draft.")
  end.

(** A model whose synthesis times out. *)
Definition timingOutModel (n : nat) (rq : Request) : GatewayReply :=
  match kindOf rq with
  | SynthesisCall => Rejected (mkError true "Deadline exceeded")
  | _ => Resolved (plainResponse "A draft.")
  end.

(** A model whose web search fails. *)
Definition searchFailingModel (n : nat) (rq : Request) : GatewayReply :=
  match kindOf rq with
  | WebSearchCall => Rejected (mkError true "Failed to fetch")
  | _ => Resolved (plainResponse "A draft.")
  end.

(** A model that rejects every initial draft: the first call of the session
    for a safety block, the others for a timeout. *)
Definition draftsFailingModel (n : nat) (rq : Request) : GatewayReply :=
  match kindOf rq with
  | InitialDraftCall =>
      Rejected (mkError true (if n =? 0 then "Blocked: SAFETY" else "Deadline exceeded"))
  | _ => Resolved (plainResponse "A draft.")
  end.

(** Replies that arrive in the order of the calls, and replies that arrive
    in the opposite order. *)
Definition inCallOrder (n : nat) : nat := n.
Definition latestCallFirst (n : nat) : nat := 1000 - n.

(** Parsers for models that answer in plain text only, and one that reads
    every payload as the proposal of the text itself. *)
Definition noProposal (payload : string) : option (string * list string) := None.
Definition noSuggestions (payload : string) : option (list string) := None.
Definition echoProposal (payload : string) : option (string * list string) :=
  Some (payload, [ "Which season?"; "How many days?"; "What budget?" ]).

(** A parser that reads four suggestions in every payload. *)
Definition fourSuggestions (payload : string) : option (list string) :=
  Some [ "Which season?"; "How many days?"; "What budget?"; "Which airline?" ].

(** The kinds of the calls of a log, and the error flag and parts of the
    messages of each conversation. *)
Definition kindsOf (log : list Call) : list CallKind :=
  map (fun c => kindOf (fst c)) log.

Definition texts (convs : list Conversation) : list (list (bool * list Part)) :=
  map (fun c => map (fun m => (isError m, parts m)) (messages c)) convs.

(** ** Further definitions for the statements about runs *)

(** The suggestions after the suggestion call of lines 1171-1188 was
    answered by [reply], starting from [previous]. *)
Definition suggestionsAfter (reply : GatewayReply) (previous : list string) : list string :=
  match reply with
  | Resolved response =>
      match parseStringArray (text response) with
      | Some suggestions =>
          if 0 <? length suggestions then firstn 3 suggestions else previous
      | None => previous
      end
  | Rejected _ => previous
  end.

(** The [finalResponseText] the [finally] block sees for a completion of the
    [try] block (line 1467 empties it after an error). *)
Definition finalTextOf (out : Completion string) : string :=
  match out with
  | Normal t => t
  | Thrown _ => ""
  end.

(** The user message of a submission (lines 1504-1508). *)
Definition userMessageOf (userInput : string) (attached : list AttachedFile) : Message :=
  {| role := user;
     parts := TextPart userInput :: map content attached;
     sources := None;
     msg_attachedFiles := Some (map file attached);
     isError := false; generationDetails := None; toolOutputs := None |}.

(** The title a first message gives its conversation (line 1525). *)
Definition titleOf (userInput : string) : string :=
  substring0 40 (trim userInput)
  ++ (if 40 <? String.length (trim userInput) then "..." else "").

(** The conversations once a submission is posted (lines 1524-1531): the
    selected conversation has the user message at its end, and the new title
    when it had no message. *)
Definition postedConversations (conversationId userInput : string)
    (attached : list AttachedFile) (wasEmpty : bool) (convs : list Conversation)
    : list Conversation :=
  map (fun c =>
         if (id c =? conversationId)%string
         then mkConversation (id c)
                (if wasEmpty then titleOf userInput else conv_title c)
                (messages c ++ [ userMessageOf userInput attached ])
         else c) convs.

(** [handleConfirm] of [SearchConfirmationModal] (lines 673-677) with
    [onConfirm] bound to [handleSearchConfirmation] (line 1665). *)
Definition handleConfirm (editedQuery : string) : Async unit :=
  if truthy (trim editedQuery)
  then handleSearchConfirmation (trim editedQuery)
  else ret tt.

(** The stages of a list without their statuses. *)
Definition stagesOf (tasks : list LoadingTask) : list (string * Icon) :=
  map (fun t => (name t, icon t)) tasks.


(** A tool among the tools of a request. *)
Definition usesTool (t : Tool) (rq : Request) : bool :=
  existsb (fun u => match t, u with
                    | googleSearch, googleSearch | codeExecution, codeExecution => true
                    | _, _ => false
                    end) (tools (config rq)).

(** ** The attachment bar, the memory modal and the side bar *)

(** [xs.filter((x, i) => p(x, i))]. *)
Fixpoint filteri_from {A : Type} (p : A -> nat -> bool) (i : nat) (xs : list A) : list A :=
  match xs with
  | [] => []
  | x :: rest =>
      if p x i then x :: filteri_from p (S i) rest else filteri_from p (S i) rest
  end.

Definition filteri {A : Type} (p : A -> nat -> bool) (xs : list A) : list A :=
  filteri_from p 0 xs.

(** The updater of [removeFile] (lines 1000-1002). *)
Definition removeFile (index : nat) (prev : list AttachedFile) : list AttachedFile :=
  filteri (fun _ i => negb (i =? index)) prev.

(** The updater of [onDelete] of the memory modal (line 1655). *)
Definition onDelete (index : nat) (prev : list string) : list string :=
  filteri (fun _ i => negb (i =? index)) prev.

(** [s.startsWith(p)]. *)
Definition startsWith (p s : string) : bool := prefix p s.

(** [xs.includes(s)] on an array of strings. *)
Definition arrayIncludes (xs : list string) (s : string) : bool :=
  existsb (fun x => (x =? s)%string) xs.

(** The icons [getFileTypeIcon] chooses from. *)
Inductive FileIcon := IconImage | IconFileText | IconCode2 | IconFile.

(** Lines 202-208. *)
Definition getFileTypeIcon (mimeType : string) : FileIcon :=
  if startsWith "image/" mimeType then IconImage
  else if startsWith "text/" mimeType then IconFileText
  else if arrayIncludes
            [ "application/pdf"; "application/msword";
              "application/vnd.openxmlformats-officedocument.wordprocessingml.document" ]
            mimeType
  then IconFileText
  else if arrayIncludes
            [ "application/javascript"; "application/json"; "text/css"; "text/html";
              "text/x-python"; "application/x-sh" ]
            mimeType
  then IconCode2
  else IconFile.

(** [s.padStart(targetLength, fill)] for a fill of one code unit. *)
Definition padStart (targetLength : nat) (fill : ascii) (s : string) : string :=
  string_of_list_ascii (repeat fill (targetLength - String.length s)) ++ s.

(** Lines 253-258, for the elapsed time the timer counts up from zero: a
    whole number of milliseconds that is not negative. *)
Definition formatTimer (milliseconds : Z) : string :=
  let totalSeconds := (milliseconds / 1000)%Z in
  let minutes := padStart 2 "0" (ofNat (Z.to_nat (totalSeconds / 60))) in
  let seconds := padStart 2 "0" (ofNat (Z.to_nat (Z.rem totalSeconds 60))) in
  minutes ++ ":" ++ seconds.

(** The decimal digit of a number below ten. *)
Definition digit (n : Z) : ascii := ascii_of_nat (48 + Z.to_nat n).

(** The state the side bar adds to the application state: the conversation
    whose title is being edited, [None] for [null]. *)
Record SideBar := mkSideBar {
  appState : AppState;
  editingConversationId : option string
}.

(** Lines 1062-1072. *)
Definition handleRenameConversation (conversationId newTitle : string) (ui : SideBar)
    : SideBar :=
  let trimmedTitle := trim newTitle in
  if negb (truthy trimmedTitle)
  then mkSideBar (appState ui) None
  else
    mkSideBar
      (setConversations
         (map (fun c => if (id c =? conversationId)%string
                        then mkConversation (id c) trimmedTitle (messages c)
                        else c))
         (appState ui))
      None.

(** The sentence pushed for each file that could not be read (line 977). *)
Definition READ_ERROR : string :=
  "Não foi possível ler um arquivo. Pode estar corrompido ou em um formato não suportado.".

(** [[...new Set(xs)]]: the first occurrence of each string, in order. *)
Fixpoint unique (xs : list string) : list string :=
  match xs with
  | [] => []
  | x :: rest => x :: filter (fun y => negb (y =? x)%string) (unique rest)
  end.

(** Lines 960-990.  [fileToGenerativePart] (lines 941-958) reads a file
    through the browser; here it is the outcome of that read: the inline
    part when the promise is fulfilled, [None] when it is rejected.
    [files = None] is the [null] file list. *)
Definition addFiles (fileToGenerativePart : File -> option Part)
    (files : option (list File)) : Async unit :=
  match files with
  | None | Some [] => ret tt
  | Some files =>
      let results :=
        map (fun file => option_map (mkAttached file) (fileToGenerativePart file)) files in
      let newFiles :=
        flat_map (fun result => match result with Some v => [ v ] | None => [] end)
                 results in
      let errors :=
        flat_map (fun result => match result with Some _ => [] | None => [ READ_ERROR ] end)
                 results in
      (if 0 <? length newFiles then
         update (fun s => setAttachedFiles (attachedFiles s ++ newFiles) s) ;;
         update (setNotification
                   (Some (mkNotification
                            (ofNat (length newFiles) ++ " arquivo(s) anexado(s) com sucesso.")
                            false)))
       else ret tt) ;;
      (if 0 <? length errors then
         update (setNotification (Some (mkNotification (join " " (unique errors)) true)))
       else ret tt)
  end.

(** The files of a list that were read, each with its part, in order. *)
Definition readFiles (fileToGenerativePart : File -> option Part) (files : list File)
    : list AttachedFile :=
  flat_map (fun file => match fileToGenerativePart file with
                        | Some part => [ mkAttached file part ]
                        | None => []
                        end) files.

Definition setCurrentConversationId (v : option string) (s : AppState) :=
  mkState (conversations s) v (input s) (attachedFiles s)
    (isLoading s) (loadingTasks s) (notification s) (longTermMemories s)
    (proactiveSuggestions s) (showSearchConfirmation s) (searchConfirmationData s) (calls s).

(** Lines 1039-1052.  [now] is [Date.now().toString()]; the settings and
    refine panels, which are closed here, are not part of the state. *)
Definition handleNewChat (now : string) : Async unit :=
  let newConversation := mkConversation now "Nova Conversa" [] in
  update (setConversations (fun prev => newConversation :: prev)) ;;
  update (setCurrentConversationId (Some (id newConversation))) ;;
  update (setInput "") ;;
  update (setAttachedFiles []) ;;
  update (setProactiveSuggestions []).

(** The settings with self-correction, the code tool and long-term memory
    switched off. *)
Definition plainSettings (mode : ResearchMode) (depth : GenerationDepth) : Settings :=
  {| ai := true; researchMode := mode; generationDepth := depth;
     modelName := gemini_2_5_pro;
     initialTemps := [ (9 # 10)%Q; (9 # 10)%Q; (9 # 10)%Q; (9 # 10)%Q ];
     refinementTemp := (9 # 10)%Q; synthesizerTemp := (9 # 10)%Q;
     isSelfCorrectionEnabled := false; isCodeInterpreterEnabled := false;
     isLongTermMemoryEnabled := false |}.
(** ** Stage tracker *)

Lemma nth_error_mapi_from {A B : Type} (f : A -> nat -> B) (xs : list A) :
  forall k j, nth_error (mapi_from f k xs) j = option_map (fun x => f x (k + j)) (nth_error xs j).
Proof.
  induction xs as [| x rest IH]; intros k j.
  - destruct j; reflexivity.
  - destruct j as [| j]; simpl.
    + now rewrite Nat.add_0_r.
    + rewrite IH. now rewrite Nat.add_succ_r.
Qed.

Lemma length_mapi_from {A B : Type} (f : A -> nat -> B) (xs : list A) :
  forall k, length (mapi_from f k xs) = length xs.
Proof.
  induction xs as [| x rest IH]; intros k; simpl; [reflexivity | now rewrite IH].
Qed.

Lemma mapi_from_twice {A : Type} (f : A -> nat -> A) (xs : list A) :
  (forall x i, f (f x i) i = f x i) ->
  forall k, mapi_from f k (mapi_from f k xs) = mapi_from f k xs.
Proof.
  intros Hf. induction xs as [| x rest IH]; intros k; simpl.
  - reflexivity.
  - now rewrite Hf, IH.
Qed.

Lemma nth_error_updateTaskStatus (index : nat) (st : TaskStatus) (tasks : list LoadingTask) (j : nat) :
  nth_error (updateTaskStatus index st tasks) j =
  option_map (fun task =>
                withStatus (if j <? index then completed
                            else if j =? index then st else pending) task)
             (nth_error tasks j).
Proof.
  unfold updateTaskStatus, mapi. rewrite nth_error_mapi_from. simpl.
  destruct (nth_error tasks j); simpl; [| reflexivity].
  destruct (j <? index); [reflexivity |]. now destruct (j =? index).
Qed.

(** Membership of a stage in a concrete stage list against a condition on
    the settings. *)
Ltac in_stage_list :=
  cbn; split; intros H;
  first [ discriminate
        | exfalso; now apply H
        | repeat (destruct H as [H | H]; [discriminate H |]); contradiction
        | reflexivity
        | repeat first [ left; reflexivity | right ] ].

(** C6. For every research mode, depth and self-correction flag the stage
    list built for a run is the one the specification describes: the single
    stage when the depth is fast, whatever the other settings; otherwise the
    template of the mode in its fixed order (no search stage offline, a
    search stage after the history stage for web and deep), without the
    critique stage exactly when self-correction is disabled; every stage
    starts pending. *)
Theorem tasksForRun_matches_spec :
  forall (depth : GenerationDepth) (mode : ResearchMode) (selfCorrection : bool),
    tasksForRun depth mode selfCorrection = spec_stageList depth mode selfCorrection
    /\ (depth = fast -> tasksForRun depth mode selfCorrection = [ FAST_TASK ])
    /\ (depth <> fast ->
        In SEARCHING_TASK (tasksForRun depth mode selfCorrection) <-> mode <> offline)
    /\ (depth <> fast ->
        In CRITIC_TASK (tasksForRun depth mode selfCorrection) <-> selfCorrection = true)
    /\ Forall (fun t => status t = pending) (tasksForRun depth mode selfCorrection).
Proof.
  intros depth mode selfCorrection.
  split; [destruct depth, mode, selfCorrection; reflexivity |].
  split; [intros ->; reflexivity |].
  split; [intros Hd; destruct depth, mode, selfCorrection;
          try (now contradiction Hd); in_stage_list |].
  split; [intros Hd; destruct depth, mode, selfCorrection;
          try (now contradiction Hd); in_stage_list |].
  destruct depth, mode, selfCorrection; repeat constructor.
Qed.

(** C7. For an index [i] within the stage list, advancing to [i] keeps the
    stages (same length, names and icons), marks every stage before [i]
    completed, stage [i] active and every stage after it pending; advancing
    to [i] a second time changes nothing. *)
Theorem advance_statuses_idempotent :
  forall (tasks : list LoadingTask) (i : nat),
    i < length tasks ->
    length (advance i tasks) = length tasks
    /\ (forall j task, nth_error tasks j = Some task ->
          nth_error (advance i tasks) j
          = Some (withStatus (spec_statusAfterAdvance i j) task))
    /\ (forall j task, nth_error (advance i tasks) j = Some task ->
          (j < i -> status task = completed)
          /\ (j = i -> status task = active)
          /\ (i < j -> status task = pending))
    /\ (exists task, nth_error (advance i tasks) i = Some task /\ status task = active)
    /\ advance i (advance i tasks) = advance i tasks.
Proof.
  intros tasks i Hi. unfold advance.
  split; [unfold updateTaskStatus, mapi; apply length_mapi_from |].
  split.
  { intros j task Hj. rewrite nth_error_updateTaskStatus, Hj. reflexivity. }
  split.
  { intros j task Hj. rewrite nth_error_updateTaskStatus in Hj.
    destruct (nth_error tasks j) as [t0 |]; [| discriminate].
    simpl in Hj. injection Hj as <-. simpl.
    repeat split; intros H.
    - apply Nat.ltb_lt in H. now rewrite H.
    - subst j. now rewrite Nat.ltb_irrefl, Nat.eqb_refl.
    - assert (Hlt : (j <? i) = false) by (apply Nat.ltb_ge; lia).
      assert (Heq : (j =? i) = false) by (apply Nat.eqb_neq; lia).
      now rewrite Hlt, Heq. }
  split.
  { destruct (nth_error tasks i) as [t0 |] eqn:Ht.
    - exists (withStatus active t0). rewrite nth_error_updateTaskStatus, Ht. simpl.
      now rewrite Nat.ltb_irrefl, Nat.eqb_refl.
    - apply nth_error_None in Ht. lia. }
  unfold updateTaskStatus, mapi. apply mapi_from_twice.
  intros x k. destruct (k <? i); [reflexivity |]. destruct (k =? i); reflexivity.
Qed.

Lemma progressPercentage_single (t : LoadingTask) :
  progressPercentage [ t ]
  = match status t with completed => PosInfinity | _ => NaN end.
Proof. unfold progressPercentage, completedCount. simpl. now destruct (status t). Qed.

Lemma progressPercentage_empty : progressPercentage [] = Finite 0.
Proof. reflexivity. Qed.

Lemma progressPercentage_two_or_more (tasks : list LoadingTask) :
  2 <= length tasks ->
  progressPercentage tasks = js_scale (spec_progressRatio tasks) 100.
Proof.
  intros Hlen. unfold progressPercentage, spec_progressRatio, js_div.
  assert (H0 : (0 <? length tasks) = true) by (apply Nat.ltb_lt; lia).
  assert (H1 : (length tasks <=? 1) = false) by (apply Nat.leb_gt; lia).
  rewrite H0, H1.
  destruct (length tasks - 1) as [| k] eqn:Hk; [lia | reflexivity].
Qed.

(** C5. On the single stage of a fast run the progress computed by
    [LoadingIndicator] is not the zero the specification defines: the guard
    tests for an empty list only, so the division is by zero, giving NaN
    while the stage is pending or active and Infinity once it is completed.
    With two stages or more the computed value is the specified ratio (as a
    percentage), and with none it is zero. *)
Theorem progress_single_stage_divides_by_zero :
  progressPercentage fastTasksActive = NaN
  /\ progressPercentage fastTasksCompleted = PosInfinity
  /\ spec_progressRatio fastTasksActive = Finite 0
  /\ spec_progressRatio fastTasksCompleted = Finite 0
  /\ (forall t, progressPercentage [ t ] <> js_scale (spec_progressRatio [ t ]) 100).
Proof.
  repeat split; try reflexivity.
  intros t. rewrite progressPercentage_single. cbn.
  destruct (status t); discriminate.
Qed.

(** ** Long-term memory *)

Lemma storeMemory_length (newMemory : string) (prev : list string) :
  length (storeMemory newMemory prev) <= MAX_MEMORIES.
Proof. unfold storeMemory. apply firstn_le_length. Qed.

Lemma In_firstn {A : Type} (x : A) (n : nat) (xs : list A) :
  In x (firstn n xs) -> In x xs.
Proof.
  revert xs. induction n as [| n IH]; intros xs H; [contradiction |].
  destruct xs as [| y rest]; [contradiction |].
  destruct H as [H | H]; [now left | right; now apply IH].
Qed.

Lemma storeMemory_front (newMemory : string) (prev : list string) :
  exists rest, storeMemory newMemory prev = newMemory :: rest
               /\ ~ In newMemory rest
               /\ (forall m, In m rest -> In m prev).
Proof.
  unfold storeMemory, MAX_MEMORIES. cbn [firstn].
  exists (firstn 19 (filter (fun m => negb (m =? newMemory)%string) prev)).
  split; [reflexivity |]. split.
  - intros Hin. apply In_firstn in Hin. apply filter_In in Hin.
    destruct Hin as [_ Hneq]. now rewrite String.eqb_refl in Hneq.
  - intros m Hin. apply In_firstn in Hin. now apply filter_In in Hin.
Qed.

Lemma admitExtracted_short (responseText : string) (prev : list string) :
  String.length (trim responseText) <= 10 ->
  admitExtracted responseText prev = prev.
Proof.
  intros Hlen. unfold admitExtracted.
  assert (H : (10 <? String.length (trim responseText)) = false)
    by (apply Nat.ltb_ge; exact Hlen).
  rewrite H. now rewrite andb_false_r.
Qed.

Lemma admitExtracted_long (responseText : string) (prev : list string) :
  10 < String.length (trim responseText) ->
  admitExtracted responseText prev = storeMemory (trim responseText) prev.
Proof.
  intros Hlen. unfold admitExtracted.
  assert (H : (10 <? String.length (trim responseText)) = true)
    by (apply Nat.ltb_lt; exact Hlen).
  rewrite H.
  destruct (trim responseText); [simpl in Hlen; lia | reflexivity].
Qed.

Lemma handleAdd_length (typed : string) (prev : list string) :
  truthy (trim typed) = true ->
  length (handleAdd typed prev) = S (length prev).
Proof. intros H. unfold handleAdd, onAdd. now rewrite H. Qed.

(** C8. Memory extraction trims its candidate, keeps the list unchanged
    when the trimmed text has at most 10 characters, and otherwise stores it
    in front, once, within the maximum of 20.  The memory modal does not
    apply the maximum: adding one entry by hand to a list of 20 leaves 21
    entries, and an entry that is already stored is stored a second time. *)
Theorem manual_add_exceeds_MAX_MEMORIES :
  length twentyMemories = MAX_MEMORIES
  /\ handleAdd " The user prefers metric units. " twentyMemories
     = "The user prefers metric units." :: twentyMemories
  /\ length (handleAdd " The user prefers metric units. " twentyMemories) = 21
  /\ MAX_MEMORIES < length (handleAdd " The user prefers metric units. " twentyMemories)
  /\ length (admitExtracted " The user prefers metric units. " twentyMemories) = MAX_MEMORIES
  /\ count_occ string_dec
       (handleAdd "The user owns book number 1" twentyMemories)
       "The user owns book number 1" = 2.
Proof.
  repeat split; try reflexivity.
  change (20 < 21). lia.
Qed.

(** ** History window *)

Lemma sliceLast_suffix {A : Type} (n : nat) (xs : list A) :
  xs = firstn (length xs - n) xs ++ sliceLast n xs.
Proof. unfold sliceLast. now rewrite firstn_skipn. Qed.

Lemma sliceLast_length {A : Type} (n : nat) (xs : list A) :
  length (sliceLast n xs) = Nat.min n (length xs).
Proof. unfold sliceLast. rewrite length_skipn. lia. Qed.

Lemma keepsPart_spec (p : Part) :
  keepsPart p = true ->
  exists t, p = TextPart t /\ trim t <> ""%string /\ t <> ""%string.
Proof.
  destruct p as [t | m d]; simpl; [| discriminate].
  intros H. exists t. split; [reflexivity |].
  apply negb_true_iff in H. apply String.eqb_neq in H.
  split; [exact H |]. intros ->. now apply H.
Qed.

(** C10, as amended. The history handed to the pipeline is built from the
    last 10 messages of the conversation (all of them when there are fewer),
    in their order: every message is reduced to its text parts whose text is
    not empty after trimming white space, so attachments, empty texts and
    texts of white space only are removed, and a message left with no part
    is dropped. *)
Theorem historyOf_last_ten_nonblank :
  forall msgs : list Message,
    length (historyOf msgs) <= 10
    /\ (exists older, msgs = older ++ sliceLast 10 msgs)
    /\ length (sliceLast 10 msgs) = Nat.min 10 (length msgs)
    /\ historyOf msgs
       = filter (fun c => negb (length (content_parts c) =? 0))
           (map (fun m => mkContent (role m) (filter isNonBlankText (parts m)))
                (sliceLast 10 msgs))
    /\ (forall c, In c (historyOf msgs) ->
          content_parts c <> []
          /\ Forall (fun p => exists t, p = TextPart t /\ trim t <> ""%string /\ t <> ""%string)
                    (content_parts c)
          /\ exists m, In m (sliceLast 10 msgs)
                       /\ content_role c = role m
                       /\ content_parts c = filter isNonBlankText (parts m))
    /\ (forall m, In m (sliceLast 10 msgs) ->
          filter isNonBlankText (parts m) <> [] ->
          In (mkContent (role m) (filter isNonBlankText (parts m))) (historyOf msgs)).
Proof.
  intros msgs.
  assert (Hsame : forall (f g : Content -> bool) (xs : list Content),
             (forall x, f x = g x) -> filter f xs = filter g xs).
  { intros f g xs Hfg. induction xs as [| x rest IH]; simpl; [reflexivity |].
    now rewrite Hfg, IH. }
  split.
  { unfold historyOf, MAX_HISTORY_MESSAGES.
    etransitivity; [apply filter_length_le |].
    rewrite length_map, sliceLast_length. lia. }
  split; [eexists; apply sliceLast_suffix |].
  split; [apply sliceLast_length |].
  split.
  { unfold historyOf, MAX_HISTORY_MESSAGES. apply Hsame.
    intros x. now destruct (length (content_parts x)). }
  split.
  - intros c Hin. unfold historyOf, MAX_HISTORY_MESSAGES in Hin.
    apply filter_In in Hin. destruct Hin as [Hin Hlen].
    apply in_map_iff in Hin. destruct Hin as [m [<- Hm]]. cbn [content_parts content_role] in *.
    split; [intros Heq; rewrite Heq in Hlen; discriminate |].
    split.
    + apply Forall_forall. intros p Hp. apply filter_In in Hp.
      apply keepsPart_spec. apply Hp.
    + exists m. repeat split; assumption.
  - intros m Hm Hne. unfold historyOf, MAX_HISTORY_MESSAGES.
    apply filter_In. split.
    + apply in_map_iff. exists m. split; [reflexivity | exact Hm].
    + cbn [content_parts]. change keepsPart with isNonBlankText.
      destruct (filter isNonBlankText (parts m)); [contradiction | reflexivity].
Qed.

(** ** The monad and the gateway *)

Lemma bind_Normal {A B : Type} (m : Async A) (k : A -> Async B) (s s1 : AppState) (x : A) :
  m s = (Normal x, s1) -> bind m k s = k x s1.
Proof. intros H. unfold bind. now rewrite H. Qed.

Lemma bind_Thrown {A B : Type} (m : Async A) (k : A -> Async B) (s s1 : AppState)
    (e : JsError) :
  m s = (Thrown e, s1) -> bind m k s = (Thrown e, s1).
Proof. intros H. unfold bind. now rewrite H. Qed.

Lemma runTask_Normal {T : Type} (taskFn : Async T) (taskIndex : nat) (s s1 : AppState) (x : T) :
  taskFn (setLoadingTasks (updateTaskStatus taskIndex active) s) = (Normal x, s1) ->
  runTask taskFn taskIndex s
  = (Normal x, setLoadingTasks (updateTaskStatus taskIndex completed) s1).
Proof. intros H. unfold runTask, bind, update, ret. now rewrite H. Qed.

Lemma runTask_Thrown {T : Type} (taskFn : Async T) (taskIndex : nat) (s s1 : AppState)
    (e : JsError) :
  taskFn (setLoadingTasks (updateTaskStatus taskIndex active) s) = (Thrown e, s1) ->
  runTask taskFn taskIndex s = (Thrown e, s1).
Proof. intros H. unfold runTask, bind, update, ret. now rewrite H. Qed.

Lemma sameOutsideRun_refl (s : AppState) : sameOutsideRun s s.
Proof. repeat split. Qed.

Lemma sameOutsideRun_trans (s s1 s2 : AppState) :
  sameOutsideRun s s1 -> sameOutsideRun s1 s2 -> sameOutsideRun s s2.
Proof.
  unfold sameOutsideRun. intros H1 H2.
  repeat match goal with H : _ /\ _ |- _ => destruct H end.
  repeat split; congruence.
Qed.

Lemma RunStep_refl (cid : string) (s : AppState) : RunStep cid s [] None s.
Proof.
  split; [now rewrite app_nil_r |]. split; [reflexivity | apply sameOutsideRun_refl].
Qed.

Lemma RunStep_trans (cid : string) (s s1 s2 : AppState) (l1 l2 : list Call)
    (msg : option Message) :
  RunStep cid s l1 None s1 -> RunStep cid s1 l2 msg s2 -> RunStep cid s (l1 ++ l2) msg s2.
Proof.
  intros [Hc1 [Hv1 Hf1]] [Hc2 [Hv2 Hf2]]. split; [| split].
  - rewrite Hc2, Hc1. now rewrite app_assoc.
  - rewrite Hv2, Hv1. reflexivity.
  - eapply sameOutsideRun_trans; eassumption.
Qed.

Lemma RunStep_tasks (cid : string) (f : list LoadingTask -> list LoadingTask) (s : AppState) :
  RunStep cid s [] None (setLoadingTasks f s).
Proof.
  split; [cbn; now rewrite app_nil_r |]. split; [reflexivity | repeat split].
Qed.

Lemma RunStep_logCalls (cid : string) (cs : list Call) (s : AppState) :
  RunStep cid s cs None (logCalls cs s).
Proof. split; [reflexivity |]. split; [reflexivity | repeat split]. Qed.

Lemma RunStep_appended (cid : string) (m : Message) (s : AppState) :
  RunStep cid s [] (Some m)
    (setConversations
       (map (fun c => if (id c =? cid)%string
                      then mkConversation (id c) (conv_title c) (messages c ++ [ m ])
                      else c)) s).
Proof.
  split; [cbn; now rewrite app_nil_r |]. split; [reflexivity | repeat split].
Qed.

(** A task wrapped in [runTask] logs what the task logs. *)
Lemma RunStep_runTask (cid : string) (idx : nat) (s s1 : AppState) (log : list Call) :
  RunStep cid (setLoadingTasks (updateTaskStatus idx active) s) log None s1 ->
  RunStep cid s log None (setLoadingTasks (updateTaskStatus idx completed) s1).
Proof.
  intros H.
  change log with ([] ++ log). eapply RunStep_trans; [apply RunStep_tasks |].
  rewrite <- (app_nil_r log). eapply RunStep_trans; [exact H | apply RunStep_tasks].
Qed.

Lemma RunStep_runTask_thrown (cid : string) (idx : nat) (s s1 : AppState) (log : list Call) :
  RunStep cid (setLoadingTasks (updateTaskStatus idx active) s) log None s1 ->
  RunStep cid s log None s1.
Proof.
  intros H. change log with ([] ++ log).
  eapply RunStep_trans; [apply RunStep_tasks | exact H].
Qed.

Lemma ai_generateContent_run (rq : Request) (s : AppState) :
  (exists r, ai_generateContent rq s = (Normal r, logCalls [ (rq, Resolved r) ] s))
  \/ (exists e, ai_generateContent rq s = (Thrown e, logCalls [ (rq, Rejected e) ] s)).
Proof.
  unfold ai_generateContent.
  destruct (generateContent (length (calls s)) rq) as [r | e];
    [left; exists r | right; exists e]; reflexivity.
Qed.

Lemma issueAll_log (rqs : list Request) :
  forall s, exists rps,
    issueAll rqs s = (rps, logCalls (combine rqs rps) s) /\ length rps = length rqs.
Proof.
  induction rqs as [| rq rest IH]; intros s.
  - exists []. split; [| reflexivity]. destruct s; unfold logCalls; cbn. now rewrite app_nil_r.
  - cbn [issueAll].
    destruct (IH (logCall rq (generateContent (length (calls s)) rq) s)) as [rps [Heq Hlen]].
    rewrite Heq. exists (generateContent (length (calls s)) rq :: rps).
    split; [| simpl; now rewrite Hlen].
    f_equal. unfold logCalls, logCall. cbn. now rewrite <- app_assoc.
Qed.

Lemma firstRejection_None (rps : list GatewayReply) :
  forall n, firstRejection n rps = None -> rps = map Resolved (fulfilled rps).
Proof.
  induction rps as [| rp rest IH]; intros n H; [reflexivity |].
  destruct rp as [r | e]; cbn [firstRejection] in H.
  - cbn [fulfilled flat_map app map]. f_equal. exact (IH (S n) H).
  - destruct (firstRejection (S n) rest) as [[t e'] |]; [| discriminate].
    destruct (t <? arrival n); discriminate.
Qed.

(** The rejection taken is one of the rejections, and none arrived before
    it. *)
Lemma firstRejection_Some (rps : list GatewayReply) :
  forall n t e,
    firstRejection n rps = Some (t, e) ->
    exists i,
      nth_error rps i = Some (Rejected e)
      /\ t = arrival (n + i)
      /\ forall j e', nth_error rps j = Some (Rejected e') -> t <= arrival (n + j).
Proof.
  induction rps as [| rp rest IH]; intros n t e H; [discriminate |].
  destruct rp as [r | e0]; cbn [firstRejection] in H.
  - destruct (IH (S n) t e H) as [i [Hi [Ht Hmin]]].
    exists (S i). split; [exact Hi |]. split; [rewrite Ht; f_equal; lia |].
    intros [| j] e' Hj; [discriminate |].
    specialize (Hmin j e' Hj). replace (n + S j) with (S n + j) by lia. exact Hmin.
  - destruct (firstRejection (S n) rest) as [[t1 e1] |] eqn:Hrest.
    + destruct (IH (S n) t1 e1 Hrest) as [i [Hi [Ht Hmin]]].
      destruct (Nat.ltb_spec t1 (arrival n)) as [Hlt | Hge].
      * injection H as <- <-. exists (S i). split; [exact Hi |].
        split; [rewrite Ht; f_equal; lia |].
        intros [| j] e' Hj.
        -- rewrite Nat.add_0_r. lia.
        -- specialize (Hmin j e' Hj). replace (n + S j) with (S n + j) by lia. exact Hmin.
      * injection H as <- <-. exists 0. split; [reflexivity |].
        split; [now rewrite Nat.add_0_r |].
        intros [| j] e' Hj.
        -- rewrite Nat.add_0_r. lia.
        -- specialize (Hmin j e' Hj). replace (n + S j) with (S n + j) by lia. lia.
    + injection H as <- <-. exists 0. split; [reflexivity |].
      split; [now rewrite Nat.add_0_r |].
      intros [| j] e' Hj.
      * rewrite Nat.add_0_r. lia.
      * exfalso. clear IH. revert j Hj Hrest. generalize (S n).
        induction rest as [| rp rest IHr]; intros m j Hj Hnone; [now destruct j |].
        destruct rp as [r | e1]; cbn [firstRejection] in Hnone.
        -- destruct j as [| j]; [discriminate |]. exact (IHr (S m) j Hj Hnone).
        -- destruct (firstRejection (S m) rest) as [[t2 e2] |]; [| discriminate].
           destruct (t2 <? arrival m); discriminate.
Qed.

Lemma settle_Normal (n : nat) (rps : list GatewayReply) :
  forall rs, settle n rps = Normal rs -> rps = map Resolved rs.
Proof.
  intros rs H. unfold settle in H.
  destruct (firstRejection n rps) as [[t e] |] eqn:Hf; [discriminate |].
  injection H as <-. exact (firstRejection_None rps n Hf).
Qed.

Lemma settle_Thrown (n : nat) (rps : list GatewayReply) (e : JsError) :
  settle n rps = Thrown e -> In (Rejected e) rps.
Proof.
  intros H. unfold settle in H.
  destruct (firstRejection n rps) as [[t e0] |] eqn:Hf; [| discriminate].
  injection H as ->. destruct (firstRejection_Some rps n t e Hf) as [i [Hi _]].
  eapply nth_error_In. exact Hi.
Qed.

(** The error a [Promise.all] throws is the rejection that arrived first. *)
Lemma settle_Thrown_first (n : nat) (rps : list GatewayReply) (e : JsError) :
  settle n rps = Thrown e ->
  exists i,
    nth_error rps i = Some (Rejected e)
    /\ forall j e', nth_error rps j = Some (Rejected e') ->
                    arrival (n + i) <= arrival (n + j).
Proof.
  intros H. unfold settle in H.
  destruct (firstRejection n rps) as [[t e0] |] eqn:Hf; [| discriminate].
  injection H as ->. destruct (firstRejection_Some rps n t e Hf) as [i [Hi [Ht Hmin]]].
  exists i. split; [exact Hi |]. intros j e' Hj. rewrite <- Ht. now apply (Hmin j e').
Qed.

Lemma Promise_all_run (rqs : list Request) (s : AppState) :
  (exists rs, Promise_all rqs s = (Normal rs, logCalls (resolvedCalls rqs rs) s)
              /\ length rs = length rqs)
  \/ (exists rps e, Promise_all rqs s = (Thrown e, logCalls (combine rqs rps) s)
                    /\ length rps = length rqs
                    /\ settle (length (calls s)) rps = Thrown e).
Proof.
  unfold Promise_all. destruct (issueAll_log rqs s) as [rps [Heq Hlen]]. rewrite Heq.
  destruct (settle (length (calls s)) rps) as [rs | e] eqn:Hs.
  - left. exists rs. apply settle_Normal in Hs. subst rps. rewrite length_map in Hlen.
    split; [reflexivity | exact Hlen].
  - right. exists rps, e. repeat split; assumption.
Qed.

(** ** The shape of a run *)

Lemma webSearchStage_run (a : GenArgs) (fic cid : string) (idx : nat) (s : AppState) :
  (exists e s',
      webSearchStage a fic idx s = (Thrown e, s')
      /\ searchesWeb = true
      /\ RunStep cid s [ (searchRequest (queryForSearch a fic), Rejected e) ] None s')
  \/ (exists log webContext sources idx' s',
         webSearchStage a fic idx s = (Normal (webContext, sources, idx'), s')
         /\ SearchStage a fic log webContext sources
         /\ RunStep cid s log None s').
Proof.
  unfold webSearchStage. destruct searchesWeb eqn:Hweb.
  - destruct (ai_generateContent_run (searchRequest (queryForSearch a fic))
                (setLoadingTasks (updateTaskStatus idx active) s)) as [[r Hr] | [e He]].
    + right. exists [ (searchRequest (queryForSearch a fic), Resolved r) ],
        (webContextOf r), (groundingSources r []), (S idx).
      eexists. split; [| split].
      * erewrite bind_Normal; [reflexivity |].
        apply runTask_Normal. exact Hr.
      * now constructor.
      * apply RunStep_runTask. apply RunStep_logCalls.
    + left. exists e. eexists. split; [| split].
      * apply bind_Thrown. apply runTask_Thrown. exact He.
      * reflexivity.
      * eapply RunStep_runTask_thrown. apply RunStep_logCalls.
  - right. exists [], ""%string, [], idx, s. split; [reflexivity |].
    split; [now constructor | apply RunStep_refl].
Qed.

Lemma selfCorrection_run (a : GenArgs) (cid : string) (prompt synthContent : Content)
    (final : Response) (idx : nat) (s : AppState) :
  exists log out s',
    CorrectionRun a prompt synthContent final log out
    /\ RunStep cid s log None s'
    /\ ((exists r idx', out = Normal r
                        /\ selfCorrection a prompt synthContent final idx s
                           = (Normal (r, idx'), s'))
        \/ (exists e, out = Thrown e
                      /\ selfCorrection a prompt synthContent final idx s = (Thrown e, s'))).
Proof.
  unfold selfCorrection. destruct (isSelfCorrectionEnabled cfg) eqn:Hsc.
  2:{ exists [], (Normal final), s. split; [now constructor |].
      split; [apply RunStep_refl |]. left. now exists final, idx. }
  destruct (ai_generateContent_run (critiqueRequest prompt final)
              (setLoadingTasks (updateTaskStatus (S idx) active) s)) as [[c Hc] | [e He]].
  2:{ exists [ (critiqueRequest prompt final, Rejected e) ], (Thrown e). eexists.
      split; [now constructor |].
      split; [eapply RunStep_runTask_thrown; apply RunStep_logCalls |].
      right. exists e. split; [reflexivity |].
      apply bind_Thrown. apply runTask_Thrown. exact He. }
  apply (runTask_Normal _ (S idx)) in Hc.
  destruct (saysPerfect (text c)) eqn:Hp.
  { exists [ (critiqueRequest prompt final, Resolved c) ], (Normal final). eexists.
    split; [now constructor |].
    split; [apply RunStep_runTask; apply RunStep_logCalls |].
    left. exists final, (S idx). split; [reflexivity |].
    erewrite bind_Normal by exact Hc. now rewrite Hp. }
  match type of Hc with _ = (_, ?st) => set (s1 := st) in * end.
  destruct (ai_generateContent_run
              (synthesizerRequest a (secondSynthesizerContent synthContent c)) s1)
    as [[r Hr] | [e He]].
  - exists [ (critiqueRequest prompt final, Resolved c);
             (synthesizerRequest a (secondSynthesizerContent synthContent c), Resolved r) ],
      (Normal r). eexists.
    split; [now constructor |].
    split.
    + change [ (critiqueRequest prompt final, Resolved c);
               (synthesizerRequest a (secondSynthesizerContent synthContent c), Resolved r) ]
        with ([ (critiqueRequest prompt final, Resolved c) ]
              ++ [ (synthesizerRequest a (secondSynthesizerContent synthContent c),
                    Resolved r) ]).
      eapply RunStep_trans; [apply RunStep_runTask; apply RunStep_logCalls |].
      apply RunStep_logCalls.
    + left. exists r, (S idx). split; [reflexivity |].
      erewrite bind_Normal by exact Hc. rewrite Hp. cbn [negb].
      erewrite bind_Normal by exact Hr. reflexivity.
  - exists [ (critiqueRequest prompt final, Resolved c);
             (synthesizerRequest a (secondSynthesizerContent synthContent c), Rejected e) ],
      (Thrown e). eexists.
    split; [now constructor |].
    split.
    + change [ (critiqueRequest prompt final, Resolved c);
               (synthesizerRequest a (secondSynthesizerContent synthContent c), Rejected e) ]
        with ([ (critiqueRequest prompt final, Resolved c) ]
              ++ [ (synthesizerRequest a (secondSynthesizerContent synthContent c),
                    Rejected e) ]).
      eapply RunStep_trans; [apply RunStep_runTask; apply RunStep_logCalls |].
      apply RunStep_logCalls.
    + right. exists e. split; [reflexivity |].
      erewrite bind_Normal by exact Hc. rewrite Hp. cbn [negb].
      apply bind_Thrown. exact He.
Qed.

Lemma multiAgentGeneration_run (a : GenArgs) (fic cid : string) (s : AppState) :
  exists log out msg s',
    multiAgentGeneration a fic cid s = (out, s')
    /\ MultiAgentRun a fic log out msg
    /\ RunStep cid s log msg s'.
Proof.
  unfold multiAgentGeneration. cbv zeta.
  assert (H0 : runTask (ret tt) 0 s
               = (Normal tt, setLoadingTasks (updateTaskStatus 0 completed)
                               (setLoadingTasks (updateTaskStatus 0 active) s)))
    by reflexivity.
  erewrite bind_Normal by exact H0.
  assert (R0 : RunStep cid s [] None
                 (setLoadingTasks (updateTaskStatus 0 completed)
                    (setLoadingTasks (updateTaskStatus 0 active) s)))
    by (apply RunStep_runTask; apply RunStep_refl).
  clear H0. revert R0.
  generalize (setLoadingTasks (updateTaskStatus 0 completed)
                (setLoadingTasks (updateTaskStatus 0 active) s)).
  intros s0 R0.
  destruct (webSearchStage_run a fic cid 1 s0)
    as [[e [s1 [He [Hweb R1]]]] | [slog [wc [src [idx [s1 [Hs [Hstage R1]]]]]]]].
  { exists [ (searchRequest (queryForSearch a fic), Rejected e) ], (Thrown e), None, s1.
    split; [apply bind_Thrown; exact He |].
    split; [now constructor |].
    change [ (searchRequest (queryForSearch a fic), Rejected e) ]
      with ([] ++ [ (searchRequest (queryForSearch a fic), Rejected e) ]).
    eapply RunStep_trans; eassumption. }
  erewrite bind_Normal by exact Hs. cbv beta iota.
  assert (R01 : RunStep cid s slog None s1)
    by (change slog with ([] ++ slog); eapply RunStep_trans; eassumption).
  clear R0 R1 Hs s0.
  set (prompt := promptWithContextOf a fic wc).
  (* initial drafts *)
  destruct (Promise_all_run (initialRequests a prompt)
              (setLoadingTasks (updateTaskStatus idx active) s1))
    as [[inits [Hi Hilen]] | [rps [e [Hi [Hlen Hset]]]]].
  2:{ exists (slog ++ combine (initialRequests a prompt) rps), (Thrown e), None. eexists.
      split; [apply bind_Thrown; apply runTask_Thrown; exact Hi |].
      split.
      - eapply run_initial_rejected; [eassumption | | eassumption].
        rewrite Hlen. unfold initialRequests. now rewrite length_map, length_seq.
      - eapply RunStep_trans; [exact R01 |].
        eapply RunStep_runTask_thrown. apply RunStep_logCalls. }
  assert (Hn1 : length inits = numAgents)
    by (rewrite Hilen; unfold initialRequests; now rewrite length_map, length_seq).
  apply (runTask_Normal _ idx) in Hi.
  erewrite bind_Normal by exact Hi.
  assert (R2 : RunStep cid s (slog ++ resolvedCalls (initialRequests a prompt) inits) None
                 (setLoadingTasks (updateTaskStatus idx completed)
                    (logCalls (resolvedCalls (initialRequests a prompt) inits)
                       (setLoadingTasks (updateTaskStatus idx active) s1))))
    by (eapply RunStep_trans; [exact R01 |];
        apply RunStep_runTask; apply RunStep_logCalls).
  clear Hi R01. revert R2.
  generalize (setLoadingTasks (updateTaskStatus idx completed)
                (logCalls (resolvedCalls (initialRequests a prompt) inits)
                   (setLoadingTasks (updateTaskStatus idx active) s1))).
  intros s2 R2.
  (* refinement *)
  destruct (Promise_all_run (refinementRequests a prompt inits)
              (setLoadingTasks (updateTaskStatus (S idx) active) s2))
    as [[refs [Hr Hrlen]] | [rps [e [Hr [Hlen Hset]]]]].
  2:{ exists (slog ++ resolvedCalls (initialRequests a prompt) inits
                   ++ combine (refinementRequests a prompt inits) rps), (Thrown e), None.
      eexists.
      split; [apply bind_Thrown; apply runTask_Thrown; exact Hr |].
      split.
      - eapply run_refinement_rejected; try eassumption.
        rewrite Hlen. unfold refinementRequests. now rewrite length_map.
      - rewrite app_assoc. eapply RunStep_trans; [exact R2 |].
        eapply RunStep_runTask_thrown. apply RunStep_logCalls. }
  assert (Hn2 : length refs = numAgents)
    by (rewrite Hrlen; unfold refinementRequests; now rewrite length_map).
  apply (runTask_Normal _ (S idx)) in Hr.
  erewrite bind_Normal by exact Hr.
  set (dlog := slog ++ resolvedCalls (initialRequests a prompt) inits
                    ++ resolvedCalls (refinementRequests a prompt inits) refs).
  assert (Hdraft : DraftStage a fic dlog prompt src inits refs)
    by (now constructor).
  assert (R3 : RunStep cid s dlog None
                 (setLoadingTasks (updateTaskStatus (S idx) completed)
                    (logCalls (resolvedCalls (refinementRequests a prompt inits) refs)
                       (setLoadingTasks (updateTaskStatus (S idx) active) s2)))).
  { unfold dlog. rewrite app_assoc. eapply RunStep_trans; [exact R2 |].
    apply RunStep_runTask. apply RunStep_logCalls. }
  clear Hr R2. revert R3.
  generalize (setLoadingTasks (updateTaskStatus (S idx) completed)
                (logCalls (resolvedCalls (refinementRequests a prompt inits) refs)
                   (setLoadingTasks (updateTaskStatus (S idx) active) s2))).
  intros s3 R3. clearbody dlog.
  (* synthesis *)
  set (synthContent := synthesizerContent prompt refs).
  destruct (ai_generateContent_run (synthesizerRequest a synthContent)
              (setLoadingTasks (updateTaskStatus (S (S idx)) active) s3))
    as [[final Hf] | [e Hf]].
  2:{ exists (dlog ++ [ (synthesizerRequest a synthContent, Rejected e) ]), (Thrown e), None.
      eexists.
      split; [apply bind_Thrown; apply runTask_Thrown; exact Hf |].
      split; [eapply run_synthesis_rejected; eassumption |].
      eapply RunStep_trans; [exact R3 |].
      eapply RunStep_runTask_thrown. apply RunStep_logCalls. }
  apply (runTask_Normal _ (S (S idx))) in Hf.
  erewrite bind_Normal by exact Hf.
  assert (R4 : RunStep cid s (dlog ++ [ (synthesizerRequest a synthContent, Resolved final) ])
                 None
                 (setLoadingTasks (updateTaskStatus (S (S idx)) completed)
                    (logCalls [ (synthesizerRequest a synthContent, Resolved final) ]
                       (setLoadingTasks (updateTaskStatus (S (S idx)) active) s3))))
    by (eapply RunStep_trans; [exact R3 |];
        apply RunStep_runTask; apply RunStep_logCalls).
  clear Hf R3. revert R4.
  generalize (setLoadingTasks (updateTaskStatus (S (S idx)) completed)
                (logCalls [ (synthesizerRequest a synthContent, Resolved final) ]
                   (setLoadingTasks (updateTaskStatus (S (S idx)) active) s3))).
  intros s4 R4.
  (* self-correction *)
  destruct (selfCorrection_run a cid prompt synthContent final (S (S idx)) s4)
    as [clog [cout [s5 [Hrun [R5 Hout]]]]].
  assert (R45 : RunStep cid s
                  ((dlog ++ [ (synthesizerRequest a synthContent, Resolved final) ]) ++ clog)
                  None s5)
    by (eapply RunStep_trans; eassumption).
  rewrite <- app_assoc in R45. cbn [app] in R45.
  destruct Hout as [[r [idx' [-> Heq]]] | [e [-> Heq]]].
  - erewrite bind_Normal by exact Heq. cbv beta iota.
    assert (Hfin : forall log,
               RunStep cid s log None s5 ->
               RunStep cid s log (Some (modelMessageOf src inits refs r))
                 (setConversations
                    (map (fun c => if (id c =? cid)%string
                                   then mkConversation (id c) (conv_title c)
                                          (messages c ++ [ modelMessageOf src inits refs r ])
                                   else c))
                    (setLoadingTasks (updateTaskStatus idx' completed) s5))).
    { intros log R. rewrite <- (app_nil_r log). eapply RunStep_trans; [exact R |].
      change (@nil Call) with (@nil Call ++ []).
      eapply RunStep_trans; [apply RunStep_tasks | apply RunStep_appended]. }
    inversion Hrun; subst.
    + eexists _, _, _, _. split; [reflexivity |].
      split; [eapply run_without_critique; eassumption | apply Hfin; exact R45].
    + eexists _, _, _, _. split; [reflexivity |].
      split; [eapply run_perfect; eassumption | apply Hfin; exact R45].
    + eexists _, _, _, _. split; [reflexivity |].
      split; [eapply run_corrected; eassumption | apply Hfin; exact R45].
  - inversion Hrun; subst.
    + eexists _, _, _, _. split; [apply bind_Thrown; exact Heq |].
      split; [eapply run_critique_rejected; eassumption | exact R45].
    + eexists _, _, _, _. split; [apply bind_Thrown; exact Heq |].
      split; [eapply run_correction_rejected; eassumption | exact R45].
Qed.

Lemma fastGeneration_run (a : GenArgs) (fic cid : string) (s : AppState) :
  exists log out msg s',
    fastGeneration a fic cid s = (out, s')
    /\ FastRun a fic log out msg
    /\ RunStep cid s log msg s'.
Proof.
  unfold fastGeneration.
  assert (H0 : update (setLoadingTasks (updateTaskStatus 0 active)) s
               = (Normal tt, setLoadingTasks (updateTaskStatus 0 active) s))
    by reflexivity.
  erewrite bind_Normal by exact H0. clear H0.
  destruct (ai_generateContent_run (fastRequest a fic)
              (setLoadingTasks (updateTaskStatus 0 active) s)) as [[r Hr] | [e He]].
  - erewrite bind_Normal by exact Hr. cbv zeta.
    eexists _, _, _, _. split; [reflexivity |].
    split; [apply fast_resolved |].
    change [ (fastRequest a fic, Resolved r) ]
      with ([] ++ [ (fastRequest a fic, Resolved r) ] ++ [] ++ []).
    eapply RunStep_trans; [apply RunStep_tasks |].
    eapply RunStep_trans; [apply RunStep_logCalls |].
    eapply RunStep_trans; [apply RunStep_tasks | apply RunStep_appended].
  - eexists _, _, _, _. split; [apply bind_Thrown; exact He |].
    split; [apply fast_rejected |].
    change [ (fastRequest a fic, Rejected e) ]
      with ([] ++ [ (fastRequest a fic, Rejected e) ]).
    eapply RunStep_trans; [apply RunStep_tasks | apply RunStep_logCalls].
Qed.

Lemma generationPath_run (a : GenArgs) (fic cid : string) (s : AppState) :
  exists log out msg s',
    generationPath a fic cid s = (out, s')
    /\ GenerationRun a fic log out msg
    /\ RunStep cid s log msg s'.
Proof.
  unfold generationPath, GenerationRun.
  destruct (generationDepth cfg);
    [apply fastGeneration_run | apply multiAgentGeneration_run ..].
Qed.

Lemma generateAndStoreMemory_run (u r : string) (s : AppState) :
  exists elog s',
    generateAndStoreMemory u r s = (Normal tt, s')
    /\ calls s' = calls s ++ elog
    /\ conversations s' = conversations s
    /\ isLoading s' = isLoading s
    /\ currentConversationId s' = currentConversationId s
    /\ showSearchConfirmation s' = showSearchConfirmation s
    /\ searchConfirmationData s' = searchConfirmationData s
    /\ proactiveSuggestions s' = proactiveSuggestions s
    /\ Forall (fun c => isEnrichmentCall c = true) elog
    /\ (elog = [] -> longTermMemories s' = longTermMemories s).
Proof.
  unfold generateAndStoreMemory. destruct (ai cfg).
  2:{ exists [], s. cbn. rewrite app_nil_r. repeat split. constructor. }
  cbn [negb]. cbv zeta. unfold tryCatch, bind, ai_generateContent, update, ret.
  match goal with
  | |- context [generateContent ?n ?rq] => destruct (generateContent n rq) as [x | e] eqn:Hg
  end; eexists [ _ ], _; (split; [reflexivity |]); cbn;
    repeat split; try (repeat constructor); discriminate.
Qed.

Lemma generateProactiveSuggestions_run (u r : string) (s : AppState) :
  exists elog s',
    generateProactiveSuggestions u r s = (Normal tt, s')
    /\ calls s' = calls s ++ elog
    /\ conversations s' = conversations s
    /\ isLoading s' = isLoading s
    /\ currentConversationId s' = currentConversationId s
    /\ showSearchConfirmation s' = showSearchConfirmation s
    /\ searchConfirmationData s' = searchConfirmationData s
    /\ longTermMemories s' = longTermMemories s
    /\ Forall (fun c => isEnrichmentCall c = true) elog
    /\ (elog = [] -> proactiveSuggestions s' = proactiveSuggestions s).
Proof.
  unfold generateProactiveSuggestions. destruct (ai cfg).
  2:{ exists [], s. cbn. rewrite app_nil_r. repeat split. constructor. }
  cbn [negb]. cbv zeta. unfold tryCatch, bind, ai_generateContent, update, ret.
  match goal with
  | |- context [generateContent ?n ?rq] => destruct (generateContent n rq) as [x | e] eqn:Hg
  end.
  - destruct (parseStringArray (text x)) as [sugg |];
      [destruct (0 <? length sugg) |];
      eexists [ _ ], _; (split; [reflexivity |]); cbn;
      repeat split; try (repeat constructor); discriminate.
  - eexists [ _ ], _; (split; [reflexivity |]); cbn;
      repeat split; try (repeat constructor); discriminate.
Qed.

Lemma enrichment_run (a : GenArgs) (finalResponseText : string) (s : AppState) :
  exists elog s',
    enrichment a finalResponseText s = (Normal tt, s')
    /\ EnrichStep s elog s'
    /\ (finalResponseText = ""%string -> elog = []).
Proof.
  unfold enrichment.
  assert (H0 : update (setIsLoading false) s = (Normal tt, setIsLoading false s))
    by reflexivity.
  erewrite bind_Normal by exact H0. clear H0.
  destruct finalResponseText as [| c rest]; cbn [truthy].
  { exists [], (setIsLoading false s). split; [reflexivity |].
    split; [| reflexivity].
    unfold EnrichStep. cbn. rewrite app_nil_r. repeat split. constructor. }
  set (txt := String c rest).
  assert (Hmem : exists elog s1,
             (if isLongTermMemoryEnabled cfg
              then generateAndStoreMemory (userInput a) txt
              else ret tt) (setIsLoading false s) = (Normal tt, s1)
             /\ calls s1 = calls s ++ elog
             /\ conversations s1 = conversations s
             /\ isLoading s1 = false
             /\ currentConversationId s1 = currentConversationId s
             /\ showSearchConfirmation s1 = showSearchConfirmation s
             /\ searchConfirmationData s1 = searchConfirmationData s
             /\ proactiveSuggestions s1 = proactiveSuggestions s
             /\ Forall (fun c => isEnrichmentCall c = true) elog
             /\ (elog = [] -> longTermMemories s1 = longTermMemories s)).
  { destruct (isLongTermMemoryEnabled cfg).
    - destruct (generateAndStoreMemory_run (userInput a) txt (setIsLoading false s))
        as [elog [s1 H]]. exists elog, s1. exact H.
    - exists [], (setIsLoading false s). cbn. rewrite app_nil_r.
      repeat split. constructor. }
  destruct Hmem as [elog1 [s1 [Hm [Hc1 [Hv1 [Hl1 [Hi1 [Hs1 [Hd1 [Hp1 [Hk1 Hm1]]]]]]]]]]].
  erewrite bind_Normal by exact Hm.
  destruct (generateProactiveSuggestions_run (userInput a) txt s1)
    as [elog2 [s2 [Hg [Hc2 [Hv2 [Hl2 [Hi2 [Hs2 [Hd2 [Hp2 [Hk2 Hm2]]]]]]]]]]].
  exists (elog1 ++ elog2), s2. split; [exact Hg |].
  split; [| discriminate].
  unfold EnrichStep. repeat split; try congruence.
  - rewrite Hc2, Hc1. now rewrite app_assoc.
  - apply Forall_app. split; assumption.
  - apply app_eq_nil in H. destruct H as [-> ->]. rewrite Hp2. now apply Hm1.
  - apply app_eq_nil in H. destruct H as [-> ->]. rewrite Hm2 by reflexivity. exact Hp1.
Qed.

(** Every run of [executeGeneration] that passes its guard: the calls of the
    [try] block followed by the enrichment calls, one message appended (the
    model message or the error message), and nothing else after an error. *)
Lemma executeGeneration_run (a : GenArgs) (cid : string) (s : AppState) :
  ai cfg = true ->
  selectedConversation s = Some cid ->
  exists log out msg elog s',
    executeGeneration a s = (Normal tt, s')
    /\ fst (generationPath a (finalInputWithContextOf s a) cid (runStart s)) = out
    /\ GenerationRun a (finalInputWithContextOf s a) log out msg
    /\ calls s' = calls s ++ log ++ elog
    /\ conversations s' = appendMessage cid (messageFor out msg) (conversations s)
    /\ isLoading s' = false
    /\ showSearchConfirmation s' = showSearchConfirmation s
    /\ searchConfirmationData s' = searchConfirmationData s
    /\ Forall (fun c => isEnrichmentCall c = true) elog
    /\ (forall e, out = Thrown e ->
          msg = None /\ elog = []
          /\ longTermMemories s' = longTermMemories s
          /\ proactiveSuggestions s' = proactiveSuggestions s).
Proof.
  intros Hai Hcid. unfold executeGeneration.
  assert (H0 : readState s = (Normal s, s)) by reflexivity.
  erewrite bind_Normal by exact H0. clear H0. rewrite Hai, Hcid. cbv zeta.
  set (fic := finalInputWithContextOf s a).
  set (s0 := setLoadingTasks
               (fun _ => tasksForRun (generationDepth cfg) (researchMode cfg)
                           (isSelfCorrectionEnabled cfg)) s).
  assert (H0 : update (setLoadingTasks
                 (fun _ => tasksForRun (generationDepth cfg) (researchMode cfg)
                             (isSelfCorrectionEnabled cfg))) s = (Normal tt, s0))
    by reflexivity.
  erewrite bind_Normal by exact H0. clear H0.
  assert (R0 : RunStep cid s [] None s0) by apply RunStep_tasks.
  destruct (generationPath_run a fic cid s0) as [log [out [msg [s1 [Hp [Hrun R1]]]]]].
  assert (R01 : RunStep cid s log msg s1)
    by (change log with ([] ++ log); eapply RunStep_trans; eassumption).
  clear R0 R1.
  destruct out as [txt | e].
  - assert (Ht : tryCatch (generationPath a fic cid)
                   (fun error =>
                      updateConversationMessages cid
                        (fun current => current ++ [ errorMessage error ]) ;;
                      ret ""%string) s0 = (Normal txt, s1))
      by (unfold tryCatch; now rewrite Hp).
    erewrite bind_Normal by exact Ht.
    destruct (enrichment_run a txt s1) as [elog [s2 [He [Hstep _]]]].
    destruct R01 as [Hc [Hv Hsame]].
    destruct Hstep as [Hc2 [Hv2 [Hl2 [Hi2 [Hs2 [Hd2 [Hk2 Hm2]]]]]]].
    unfold sameOutsideRun in Hsame.
    repeat match goal with H : _ /\ _ |- _ => destruct H end.
    exists log, (Normal txt), msg, elog, s2. split; [exact He |].
    split; [unfold runStart; fold s0; fold fic; now rewrite Hp |].
    split; [exact Hrun |].
    split; [rewrite Hc2, Hc; now rewrite app_assoc |].
    split; [cbn [messageFor]; congruence |].
    repeat split; try congruence. all: discriminate.
  - assert (Hnone : msg = None).
    { unfold GenerationRun in Hrun.
      destruct (generationDepth cfg); inversion Hrun; reflexivity. }
    subst msg.
    set (s1e := setConversations
                  (map (fun c => if (id c =? cid)%string
                                 then mkConversation (id c) (conv_title c)
                                        (messages c ++ [ errorMessage e ])
                                 else c)) s1).
    assert (Ht : tryCatch (generationPath a fic cid)
                   (fun error =>
                      updateConversationMessages cid
                        (fun current => current ++ [ errorMessage error ]) ;;
                      ret ""%string) s0 = (Normal ""%string, s1e))
      by (unfold tryCatch; rewrite Hp; reflexivity).
    erewrite bind_Normal by exact Ht.
    destruct (enrichment_run a ""%string s1e) as [elog [s2 [He [Hstep Hnil]]]].
    specialize (Hnil eq_refl). subst elog.
    destruct R01 as [Hc [Hv Hsame]].
    destruct Hstep as [Hc2 [Hv2 [Hl2 [Hi2 [Hs2 [Hd2 [Hk2 Hm2]]]]]]].
    destruct (Hm2 eq_refl) as [Hmem Hsug].
    unfold sameOutsideRun in Hsame.
    repeat match goal with H : _ /\ _ |- _ => destruct H end.
    cbn [appendMessage] in Hv.
    exists log, (Thrown e), None, [], s2. split; [exact He |].
    split; [unfold runStart; fold s0; fold fic; now rewrite Hp |].
    split; [exact Hrun |].
    split; [rewrite Hc2; subst s1e; cbn [calls setConversations]; rewrite Hc;
            now rewrite !app_nil_r |].
    split; [rewrite Hv2; subst s1e; cbn [conversations setConversations messageFor appendMessage];
            now rewrite Hv |].
    split; [exact Hl2 |].
    split; [subst s1e; cbn in Hs2; congruence |].
    split; [subst s1e; cbn in Hd2; congruence |].
    split; [constructor |].
    intros e0 _. split; [reflexivity |]. split; [reflexivity |].
    subst s1e. cbn in Hmem, Hsug. split; congruence.
Qed.

(** ** Counting the calls of a run *)

Lemma callsOfKind_app (k : CallKind) (l1 l2 : list Call) :
  callsOfKind k (l1 ++ l2) = callsOfKind k l1 ++ callsOfKind k l2.
Proof. unfold callsOfKind. apply filter_app. Qed.

Lemma CallKind_eqb_eq (a b : CallKind) : CallKind_eqb a b = true <-> a = b.
Proof. destruct a, b; cbn; split; intros H; congruence. Qed.

Lemma callsOfKind_none (k : CallKind) (l : list Call) :
  Forall (fun c => kindOf (fst c) <> k) l -> callsOfKind k l = [].
Proof.
  induction 1 as [| c rest Hc _ IH]; [reflexivity |].
  unfold callsOfKind in *. cbn [filter].
  destruct (CallKind_eqb (kindOf (fst c)) k) eqn:E; [| exact IH].
  apply CallKind_eqb_eq in E. contradiction.
Qed.

Lemma callsOfKind_all (k : CallKind) (l : list Call) :
  Forall (fun c => kindOf (fst c) = k) l -> callsOfKind k l = l.
Proof.
  induction 1 as [| c rest Hc _ IH]; [reflexivity |].
  unfold callsOfKind in *. cbn [filter].
  apply CallKind_eqb_eq in Hc. rewrite Hc. now rewrite IH.
Qed.

Lemma callsOfKind_In (k : CallKind) (l : list Call) (c : Call) :
  In c l -> kindOf (fst c) = k -> In c (callsOfKind k l).
Proof.
  intros Hin Hk. unfold callsOfKind. apply filter_In. split; [exact Hin |].
  now apply CallKind_eqb_eq.
Qed.

Lemma Forall_combine_fst (P : Request -> Prop) (rqs : list Request) :
  Forall P rqs -> forall rps : list GatewayReply,
  Forall (fun c : Call => P (fst c)) (combine rqs rps).
Proof.
  induction 1 as [| rq rest Hrq _ IH]; intros rps; [constructor |].
  destruct rps as [| rp rps]; [constructor |].
  cbn [combine]. constructor; [exact Hrq | apply IH].
Qed.

Lemma initialRequests_kind (a : GenArgs) (prompt : Content) :
  Forall (fun rq => kindOf rq = InitialDraftCall) (initialRequests a prompt).
Proof. unfold initialRequests. apply Forall_map. apply Forall_forall. reflexivity. Qed.

Lemma refinementRequests_kind (a : GenArgs) (prompt : Content) (inits : list Response) :
  Forall (fun rq => kindOf rq = RefinementCall) (refinementRequests a prompt inits).
Proof. unfold refinementRequests. apply Forall_map. apply Forall_forall. reflexivity. Qed.

Lemma Forall_kind_other (k k' : CallKind) (l : list Call) :
  k' <> k ->
  Forall (fun c => kindOf (fst c) = k') l -> Forall (fun c => kindOf (fst c) <> k) l.
Proof.
  intros Hneq H. eapply Forall_impl; [| exact H]. cbv beta. intros c Hc. congruence.
Qed.

Lemma SearchStage_kind (a : GenArgs) (fic : string) (slog : list Call) (wc : string)
    (src : list WebSource) :
  SearchStage a fic slog wc src ->
  Forall (fun c => kindOf (fst c) = WebSearchCall) slog.
Proof. intros H. destruct H; repeat constructor. Qed.

Lemma SearchStage_resolved (a : GenArgs) (fic : string) (slog : list Call) (wc : string)
    (src : list WebSource) :
  SearchStage a fic slog wc src -> forallb isResolved slog = true.
Proof. intros H. destruct H; reflexivity. Qed.

Lemma forallb_isResolved_resolvedCalls (rqs : list Request) (rs : list Response) :
  forallb isResolved (resolvedCalls rqs rs) = true.
Proof.
  unfold resolvedCalls. revert rs.
  induction rqs as [| rq rest IH]; intros rs; [reflexivity |].
  destruct rs as [| r rs]; [reflexivity |]. cbn. apply IH.
Qed.

Lemma responsesOf_resolvedCalls (rqs : list Request) (rs : list Response) :
  length rs = length rqs -> responsesOf (resolvedCalls rqs rs) = rs.
Proof.
  unfold resolvedCalls, responsesOf. revert rs.
  induction rqs as [| rq rest IH]; intros rs Hlen; destruct rs as [| r rs];
    try discriminate; [reflexivity |].
  cbn. f_equal. apply IH. now injection Hlen.
Qed.

Lemma map_fst_resolvedCalls (rqs : list Request) (rs : list Response) :
  length rs = length rqs -> map fst (resolvedCalls rqs rs) = rqs.
Proof.
  unfold resolvedCalls. revert rs.
  induction rqs as [| rq rest IH]; intros rs Hlen; destruct rs as [| r rs];
    try discriminate; [reflexivity |].
  cbn. f_equal. apply IH. now injection Hlen.
Qed.

Lemma length_resolvedCalls (rqs : list Request) (rs : list Response) :
  length rs = length rqs -> length (resolvedCalls rqs rs) = length rqs.
Proof.
  intros H. unfold resolvedCalls.
  etransitivity; [apply length_combine |]. rewrite length_map. lia.
Qed.

Lemma settle_Thrown_not_resolved (n : nat) (rqs : list Request) (rps : list GatewayReply)
    (e : JsError) :
  length rps = length rqs -> settle n rps = Thrown e ->
  forallb isResolved (combine rqs rps) = false
  /\ exists rq, In (rq, Rejected e) (combine rqs rps).
Proof.
  intros Hlen Hs. apply settle_Thrown in Hs. clear n.
  revert rps Hlen Hs. induction rqs as [| rq rest IH]; intros rps Hlen Hin;
    destruct rps as [| rp rps]; try discriminate; [contradiction |].
  injection Hlen as Hlen. destruct Hin as [-> | Hin].
  - split; [reflexivity | exists rq; now left].
  - destruct (IH rps Hlen Hin) as [Hf [rq' Hin']].
    split; [| exists rq'; now right].
    cbn [combine forallb]. rewrite Hf. apply andb_false_r.
Qed.

(** The calls of the stages up to the refined drafts, kind by kind. *)
Lemma DraftStage_kinds (a : GenArgs) (fic : string) (dlog : list Call) (prompt : Content)
    (src : list WebSource) (inits refs : list Response) :
  DraftStage a fic dlog prompt src inits refs ->
  callsOfKind InitialDraftCall dlog = resolvedCalls (initialRequests a prompt) inits
  /\ callsOfKind RefinementCall dlog
     = resolvedCalls (refinementRequests a prompt inits) refs
  /\ callsOfKind SynthesisCall dlog = []
  /\ callsOfKind CritiqueCall dlog = []
  /\ Forall (fun c => isGenerationCall c = true) dlog
  /\ forallb isResolved dlog = true.
Proof.
  intros H. destruct H as [slog wc src inits refs Hs Hi Hr].
  pose proof (SearchStage_kind _ _ _ _ _ Hs) as Hk.
  pose proof (Forall_combine_fst _ _ (initialRequests_kind a (promptWithContextOf a fic wc))
                (map Resolved inits)) as Hik.
  pose proof (Forall_combine_fst _ _
                (refinementRequests_kind a (promptWithContextOf a fic wc) inits)
                (map Resolved refs)) as Hrk.
  cbv beta in Hik, Hrk.
  fold (resolvedCalls (initialRequests a (promptWithContextOf a fic wc)) inits) in Hik.
  fold (resolvedCalls (refinementRequests a (promptWithContextOf a fic wc) inits) refs) in Hrk.
  rewrite !callsOfKind_app.
  repeat split.
  - rewrite (callsOfKind_none InitialDraftCall slog)
      by (eapply Forall_kind_other; [| exact Hk]; discriminate).
    rewrite (callsOfKind_all _ _ Hik).
    rewrite (callsOfKind_none InitialDraftCall (resolvedCalls (refinementRequests _ _ _) _))
      by (eapply Forall_kind_other; [| exact Hrk]; discriminate).
    now rewrite app_nil_r.
  - rewrite (callsOfKind_none RefinementCall slog)
      by (eapply Forall_kind_other; [| exact Hk]; discriminate).
    rewrite (callsOfKind_none RefinementCall (resolvedCalls (initialRequests _ _) _))
      by (eapply Forall_kind_other; [| exact Hik]; discriminate).
    now rewrite (callsOfKind_all _ _ Hrk).
  - rewrite !callsOfKind_none; [reflexivity | ..];
      (eapply Forall_kind_other; [| eassumption]; discriminate).
  - rewrite !callsOfKind_none; [reflexivity | ..];
      (eapply Forall_kind_other; [| eassumption]; discriminate).
  - repeat (apply Forall_app; split);
      (eapply Forall_impl; [| eassumption]); cbv beta; intros c Hc;
      unfold isGenerationCall; now rewrite Hc.
  - rewrite !forallb_app, !forallb_isResolved_resolvedCalls.
    now rewrite (SearchStage_resolved _ _ _ _ _ Hs).
Qed.

Lemma enrichment_calls_kind (k : CallKind) (elog : list Call) :
  Forall (fun c => isEnrichmentCall c = true) elog ->
  k <> MemoryCall -> k <> SuggestionCall ->
  callsOfKind k elog = [].
Proof.
  intros H Hm Hs. apply callsOfKind_none. eapply Forall_impl; [| exact H].
  cbv beta. unfold isEnrichmentCall. intros c Hc Hk. rewrite Hk in Hc.
  destruct k; congruence.
Qed.

Lemma generation_calls_kind (k : CallKind) (log : list Call) :
  Forall (fun c => isGenerationCall c = true) log ->
  (k = SearchProposalCall \/ k = MemoryCall \/ k = SuggestionCall) ->
  callsOfKind k log = [].
Proof.
  intros H Hk. apply callsOfKind_none. eapply Forall_impl; [| exact H].
  cbv beta. unfold isGenerationCall. intros c Hc Heq. rewrite Heq in Hc.
  destruct Hk as [-> | [-> | ->]]; discriminate.
Qed.

Lemma early_stage_calls (k : CallKind) (a : GenArgs) (fic : string) (slog : list Call)
    (wc : string) (src : list WebSource) (prompt : Content) (inits : list Response)
    (rps1 rps2 : list GatewayReply) :
  k = SynthesisCall \/ k = CritiqueCall ->
  SearchStage a fic slog wc src ->
  callsOfKind k slog = []
  /\ callsOfKind k (combine (initialRequests a prompt) rps1) = []
  /\ callsOfKind k (resolvedCalls (initialRequests a prompt) inits) = []
  /\ callsOfKind k (combine (refinementRequests a prompt inits) rps2) = [].
Proof.
  intros Hk Hs.
  pose proof (SearchStage_kind _ _ _ _ _ Hs) as Hsk.
  pose proof (initialRequests_kind a prompt) as Hi.
  pose proof (refinementRequests_kind a prompt inits) as Hr.
  repeat split; apply callsOfKind_none.
  - eapply Forall_kind_other; [| exact Hsk]. destruct Hk as [-> | ->]; discriminate.
  - eapply Forall_kind_other;
      [| exact (Forall_combine_fst _ _ Hi rps1)]. destruct Hk as [-> | ->]; discriminate.
  - eapply Forall_kind_other;
      [| exact (Forall_combine_fst _ _ Hi (map Resolved inits))].
    destruct Hk as [-> | ->]; discriminate.
  - eapply Forall_kind_other;
      [| exact (Forall_combine_fst _ _ Hr rps2)]. destruct Hk as [-> | ->]; discriminate.
Qed.

Lemma callsOfKind_single (k : CallKind) (c : Call) :
  callsOfKind k [ c ] = if CallKind_eqb (kindOf (fst c)) k then [ c ] else [].
Proof. unfold callsOfKind. cbn [filter]. now destruct (CallKind_eqb _ _). Qed.

Lemma callsOfKind_cons (k : CallKind) (c : Call) (l : list Call) :
  callsOfKind k (c :: l)
  = if CallKind_eqb (kindOf (fst c)) k then c :: callsOfKind k l else callsOfKind k l.
Proof. reflexivity. Qed.

Lemma callsOfKind_nil (k : CallKind) : callsOfKind k [] = [].
Proof. reflexivity. Qed.

(** The synthesis and critique calls of a multi-agent run with
    self-correction, with the requests they carry and what the run leaves in
    the conversation. *)
Lemma MultiAgentRun_correction (a : GenArgs) (fic : string) (log : list Call)
    (out : Completion string) (msg : option Message) :
  MultiAgentRun a fic log out msg ->
  isSelfCorrectionEnabled cfg = true ->
  (callsOfKind SynthesisCall log = [] -> callsOfKind CritiqueCall log = [])
  /\ forall synthRq reply rest,
       callsOfKind SynthesisCall log = (synthRq, reply) :: rest ->
       match reply with
       | Rejected e =>
           rest = [] /\ callsOfKind CritiqueCall log = []
           /\ messageFor out msg = Some (errorMessage e)
       | Resolved first =>
           exists prompt refineds critiqueReply,
             synthRq = synthesizerRequest a (synthesizerContent prompt refineds)
             /\ callsOfKind CritiqueCall log
                = [ (critiqueRequest prompt first, critiqueReply) ]
             /\ match critiqueReply with
                | Rejected e => rest = [] /\ messageFor out msg = Some (errorMessage e)
                | Resolved critique =>
                    if saysPerfect (text critique)
                    then rest = []
                         /\ exists m, messageFor out msg = Some m /\ isError m = false
                                      /\ parts m = [ TextPart (text first) ]
                    else exists reply2,
                           rest = [ (synthesizerRequest a
                                       (secondSynthesizerContent
                                          (synthesizerContent prompt refineds) critique),
                                     reply2) ]
                           /\ match reply2 with
                              | Rejected e => messageFor out msg = Some (errorMessage e)
                              | Resolved improved =>
                                  exists m, messageFor out msg = Some m
                                            /\ isError m = false
                                            /\ parts m = [ TextPart (text improved) ]
                              end
                end
       end.
Proof.
  intros Hrun Hon.
  assert (Hsk : SynthesisCall = SynthesisCall \/ SynthesisCall = CritiqueCall) by now left.
  assert (Hck : CritiqueCall = SynthesisCall \/ CritiqueCall = CritiqueCall) by now right.
  destruct Hrun as
    [ e Hweb
    | slog wc src rps e n0 Hs Hlen Hset
    | slog wc src inits rps e n0 Hs Hi Hlen Hset
    | dlog prompt src inits refs e Hd
    | dlog prompt src inits refs final Hd Hoff
    | dlog prompt src inits refs final e Hd Hon'
    | dlog prompt src inits refs final critique Hd Hon' Hp
    | dlog prompt src inits refs final critique e Hd Hon' Hp
    | dlog prompt src inits refs final critique improved Hd Hon' Hp ].
  - split; [reflexivity | intros ? ? ? H; discriminate H].
  - destruct (early_stage_calls _ a fic slog wc src (promptWithContextOf a fic wc) [] rps []
                Hck Hs) as [K1 [K2 _]].
    destruct (early_stage_calls _ a fic slog wc src (promptWithContextOf a fic wc) [] rps []
                Hsk Hs) as [K3 [K4 _]].
    rewrite !callsOfKind_app, K1, K2, K3, K4.
    split; [reflexivity | intros ? ? ? H; discriminate H].
  - destruct (early_stage_calls _ a fic slog wc src (promptWithContextOf a fic wc) inits
                [] rps Hck Hs) as [K1 [_ [K2 K2']]].
    destruct (early_stage_calls _ a fic slog wc src (promptWithContextOf a fic wc) inits
                [] rps Hsk Hs) as [K3 [_ [K4 K4']]].
    rewrite !callsOfKind_app, K1, K2, K2', K3, K4, K4'.
    split; [reflexivity | intros ? ? ? H; discriminate H].
  - destruct (DraftStage_kinds _ _ _ _ _ _ _ Hd) as [_ [_ [Ks [Kc _]]]].
    rewrite !callsOfKind_app, Ks, Kc. cbn [callsOfKind filter app].
    split; [reflexivity |]. intros synthRq reply rest H.
    injection H as <- <- <-. repeat split.
  - congruence.
  - destruct (DraftStage_kinds _ _ _ _ _ _ _ Hd) as [_ [_ [Ks [Kc _]]]].
    rewrite !callsOfKind_app, Ks, Kc. cbn [callsOfKind filter app].
    split; [discriminate |]. intros synthRq reply rest H.
    injection H as <- <- <-.
    exists prompt, refs, (Rejected e). repeat split.
  - destruct (DraftStage_kinds _ _ _ _ _ _ _ Hd) as [_ [_ [Ks [Kc _]]]].
    rewrite !callsOfKind_app, Ks, Kc. cbn [callsOfKind filter app].
    split; [discriminate |]. intros synthRq reply rest H.
    injection H as <- <- <-.
    exists prompt, refs, (Resolved critique).
    split; [reflexivity |]. split; [reflexivity |]. rewrite Hp.
    split; [reflexivity |]. eexists. repeat split.
  - destruct (DraftStage_kinds _ _ _ _ _ _ _ Hd) as [_ [_ [Ks [Kc _]]]].
    rewrite !callsOfKind_app, Ks, Kc. cbn [callsOfKind filter app].
    split; [discriminate |]. intros synthRq reply rest H.
    injection H as <- <- <-.
    exists prompt, refs, (Resolved critique).
    split; [reflexivity |]. split; [reflexivity |]. rewrite Hp.
    exists (Rejected e). split; reflexivity.
  - destruct (DraftStage_kinds _ _ _ _ _ _ _ Hd) as [_ [_ [Ks [Kc _]]]].
    rewrite !callsOfKind_app, Ks, Kc. cbn [callsOfKind filter app].
    split; [discriminate |]. intros synthRq reply rest H.
    injection H as <- <- <-.
    exists prompt, refs, (Resolved critique).
    split; [reflexivity |]. split; [reflexivity |]. rewrite Hp.
    exists (Resolved improved). split; [reflexivity |]. eexists. repeat split.
Qed.

(** C1. A balanced or deep run with self-correction enabled.  Once the first
    synthesis has resolved, the run issues the critique call on its text,
    exactly once.  If the critique resolves with a text that, trimmed and in
    upper case, is PERFECT, no further synthesis call is made and the
    message appended carries the text of the first synthesis.  For any
    other critique text exactly one more synthesis call is made, on the
    synthesis content followed by the critique, and when it resolves the
    message appended carries its text.  There is never a second critique
    call, and none at all while no synthesis has resolved; a rejected call
    leaves the error message instead. *)
Theorem self_correction_single_pass (a : GenArgs) (cid : string) (s : AppState) :
  ai cfg = true ->
  selectedConversation s = Some cid ->
  generationDepth cfg <> fast ->
  isSelfCorrectionEnabled cfg = true ->
  exists (new : list Call) (appended : option Message),
    calls (snd (executeGeneration a s)) = calls s ++ new
    /\ conversations (snd (executeGeneration a s))
       = appendMessage cid appended (conversations s)
    /\ countKind CritiqueCall new <= 1
    /\ (callsOfKind SynthesisCall new = [] -> callsOfKind CritiqueCall new = [])
    /\ forall synthRq reply rest,
         callsOfKind SynthesisCall new = (synthRq, reply) :: rest ->
         match reply with
         | Rejected e =>
             rest = [] /\ callsOfKind CritiqueCall new = []
             /\ appended = Some (errorMessage e)
         | Resolved first =>
             exists prompt refineds critiqueReply,
               synthRq = synthesizerRequest a (synthesizerContent prompt refineds)
               /\ callsOfKind CritiqueCall new
                  = [ (critiqueRequest prompt first, critiqueReply) ]
               /\ match critiqueReply with
                  | Rejected e => rest = [] /\ appended = Some (errorMessage e)
                  | Resolved critique =>
                      if saysPerfect (text critique)
                      then rest = []
                           /\ exists m, appended = Some m /\ isError m = false
                                        /\ parts m = [ TextPart (text first) ]
                      else exists reply2,
                             rest = [ (synthesizerRequest a
                                         (secondSynthesizerContent
                                          (synthesizerContent prompt refineds) critique),
                                       reply2) ]
                             /\ match reply2 with
                                | Rejected e => appended = Some (errorMessage e)
                                | Resolved improved =>
                                    exists m, appended = Some m /\ isError m = false
                                              /\ parts m = [ TextPart (text improved) ]
                                end
                  end
         end.
Proof.
  intros Hai Hcid Hdepth Hon.
  destruct (executeGeneration_run a cid s Hai Hcid)
    as [log [out [msg [elog [s' [Heq [_ [Hrun [Hc [Hv [_ [_ [_ [Hk Herr]]]]]]]]]]]]]].
  rewrite Heq. cbn [snd].
  exists (log ++ elog), (messageFor out msg).
  split; [exact Hc |]. split; [exact Hv |].
  assert (Hmulti : MultiAgentRun a (finalInputWithContextOf s a) log out msg).
  { unfold GenerationRun in Hrun. destruct (generationDepth cfg);
      [now contradiction Hdepth | exact Hrun ..]. }
  assert (Ke : forall k, k = SynthesisCall \/ k = CritiqueCall ->
                         callsOfKind k (log ++ elog) = callsOfKind k log).
  { intros k Hkk. rewrite callsOfKind_app, (enrichment_calls_kind k elog Hk).
    - apply app_nil_r.
    - destruct Hkk as [-> | ->]; discriminate.
    - destruct Hkk as [-> | ->]; discriminate. }
  unfold countKind.
  rewrite (Ke CritiqueCall) by now right. rewrite (Ke SynthesisCall) by now left.
  destruct (MultiAgentRun_correction _ _ _ _ _ Hmulti Hon) as [Hnone Hcases].
  split; [| split; [exact Hnone | exact Hcases]].
  destruct (callsOfKind SynthesisCall log) as [| [synthRq reply] rest] eqn:Ks.
  - rewrite (Hnone eq_refl). cbn. lia.
  - specialize (Hcases synthRq reply rest eq_refl). destruct reply as [first | e].
    + destruct Hcases as [prompt [refineds [critiqueReply [_ [Kc _]]]]].
      rewrite Kc. cbn. lia.
    + destruct Hcases as [_ [Kc _]]. rewrite Kc. cbn. lia.
Qed.

Lemma numAgents_cases :
  (generationDepth cfg = deep /\ numAgents = 4)
  \/ (generationDepth cfg <> deep /\ numAgents = 2).
Proof. unfold numAgents. destruct (generationDepth cfg); [right | right | left]; now split. Qed.

Lemma length_initialRequests (a : GenArgs) (prompt : Content) :
  length (initialRequests a prompt) = numAgents.
Proof. unfold initialRequests. now rewrite length_map, length_seq. Qed.

Lemma length_refinementRequests (a : GenArgs) (prompt : Content) (inits : list Response) :
  length (refinementRequests a prompt inits) = length inits.
Proof. unfold refinementRequests. now rewrite length_map. Qed.

Lemma map_fst_combine_requests (rqs : list Request) (rps : list GatewayReply) :
  length rps = length rqs -> map fst (combine rqs rps) = rqs.
Proof.
  revert rps. induction rqs as [| rq rest IH]; intros rps Hlen; destruct rps as [| rp rps];
    try discriminate; [reflexivity |].
  cbn. f_equal. apply IH. now injection Hlen.
Qed.

(** The common part of the cases in which the drafts were all produced. *)
Ltac after_drafts Hd :=
  right; right;
  let Ki := fresh "Ki" in
  let Kr := fresh "Kr" in
  destruct (DraftStage_kinds _ _ _ _ _ _ _ Hd) as [Ki [Kr _]];
  rewrite !(callsOfKind_app _ _ (_ :: _)), Ki, Kr;
  cbn [callsOfKind filter app]; rewrite !app_nil_r;
  let Hs := fresh "Hs" in
  let Hi := fresh "Hi" in
  let Hr := fresh "Hr" in
  destruct Hd as [? ? src inits refs Hs Hi Hr];
  eexists _, inits;
  split; [reflexivity |]; split; [exact Hi |];
  split; [rewrite length_resolvedCalls; rewrite length_refinementRequests; congruence |];
  split; [apply map_fst_resolvedCalls; rewrite length_refinementRequests; congruence |];
  right; exists refs, src; split; [reflexivity |]; split; [exact Hr |].

(** The initial-draft and refinement calls of a multi-agent run. *)
Lemma MultiAgentRun_draft_calls (a : GenArgs) (fic : string) (log : list Call)
    (out : Completion string) (msg : option Message) :
  MultiAgentRun a fic log out msg ->
  (callsOfKind InitialDraftCall log = [] /\ callsOfKind RefinementCall log = []
   /\ msg = None
   /\ exists rq e, In (rq, Rejected e) (callsOfKind WebSearchCall log))
  \/ (exists prompt,
         length (callsOfKind InitialDraftCall log) = numAgents
         /\ forallb isResolved (callsOfKind InitialDraftCall log) = false
         /\ callsOfKind RefinementCall log = [] /\ msg = None
         /\ map fst (callsOfKind InitialDraftCall log) = initialRequests a prompt)
  \/ (exists prompt inits,
         callsOfKind InitialDraftCall log = resolvedCalls (initialRequests a prompt) inits
         /\ length inits = numAgents
         /\ length (callsOfKind RefinementCall log) = numAgents
         /\ map fst (callsOfKind RefinementCall log) = refinementRequests a prompt inits
         /\ ((forallb isResolved (callsOfKind RefinementCall log) = false /\ msg = None)
             \/ (exists refs src,
                    callsOfKind RefinementCall log
                    = resolvedCalls (refinementRequests a prompt inits) refs
                    /\ length refs = numAgents
                    /\ (msg = None
                        \/ exists final, msg = Some (modelMessageOf src inits refs final))))).
Proof.
  intros Hrun.
  destruct Hrun as
    [ e Hweb
    | slog wc src rps e n0 Hs Hlen Hset
    | slog wc src inits rps e n0 Hs Hi Hlen Hset
    | dlog prompt src inits refs e Hd
    | dlog prompt src inits refs final Hd Hoff
    | dlog prompt src inits refs final e Hd Hon
    | dlog prompt src inits refs final critique Hd Hon Hp
    | dlog prompt src inits refs final critique e Hd Hon Hp
    | dlog prompt src inits refs final critique improved Hd Hon Hp ].
  - left. repeat split; try reflexivity. eexists _, e. left. reflexivity.
  - right. left. exists (promptWithContextOf a fic wc).
    pose proof (SearchStage_kind _ _ _ _ _ Hs) as Hsk.
    pose proof (Forall_combine_fst _ _
                  (initialRequests_kind a (promptWithContextOf a fic wc)) rps) as Hik.
    cbv beta in Hik.
    assert (Hlen' : length rps = length (initialRequests a (promptWithContextOf a fic wc)))
      by (now rewrite length_initialRequests).
    rewrite !callsOfKind_app.
    rewrite (callsOfKind_none InitialDraftCall slog)
      by (eapply Forall_kind_other; [| exact Hsk]; discriminate).
    rewrite (callsOfKind_none RefinementCall slog)
      by (eapply Forall_kind_other; [| exact Hsk]; discriminate).
    rewrite (callsOfKind_all _ _ Hik).
    rewrite (callsOfKind_none RefinementCall (combine _ rps))
      by (eapply Forall_kind_other; [| exact Hik]; discriminate).
    cbn [app]. repeat split.
    + etransitivity; [apply length_combine |]. rewrite length_initialRequests. lia.
    + apply (settle_Thrown_not_resolved _ _ _ _ Hlen' Hset).
    + now apply map_fst_combine_requests.
  - right. right. exists (promptWithContextOf a fic wc), inits.
    set (prompt := promptWithContextOf a fic wc).
    pose proof (SearchStage_kind _ _ _ _ _ Hs) as Hsk.
    pose proof (Forall_combine_fst _ _ (initialRequests_kind a prompt)
                  (map Resolved inits)) as Hik.
    pose proof (Forall_combine_fst _ _ (refinementRequests_kind a prompt inits) rps) as Hrk.
    cbv beta in Hik, Hrk. fold (resolvedCalls (initialRequests a prompt) inits) in Hik.
    assert (Hlen' : length rps = length (refinementRequests a prompt inits))
      by (rewrite length_refinementRequests; congruence).
    rewrite !callsOfKind_app.
    rewrite (callsOfKind_none InitialDraftCall slog)
      by (eapply Forall_kind_other; [| exact Hsk]; discriminate).
    rewrite (callsOfKind_none RefinementCall slog)
      by (eapply Forall_kind_other; [| exact Hsk]; discriminate).
    rewrite (callsOfKind_all _ _ Hik), (callsOfKind_all _ _ Hrk).
    rewrite (callsOfKind_none RefinementCall (resolvedCalls _ inits))
      by (eapply Forall_kind_other; [| exact Hik]; discriminate).
    rewrite (callsOfKind_none InitialDraftCall (combine _ rps))
      by (eapply Forall_kind_other; [| exact Hrk]; discriminate).
    cbn [app]. rewrite app_nil_r. repeat split.
    + exact Hi.
    + etransitivity; [apply length_combine |]. rewrite length_refinementRequests. lia.
    + now apply map_fst_combine_requests.
    + left. split; [| reflexivity]. apply (settle_Thrown_not_resolved _ _ _ _ Hlen' Hset).
  - after_drafts Hd. now left.
  - after_drafts Hd.
    right. now exists final.
  - after_drafts Hd. now left.
  - after_drafts Hd.
    right. now exists final.
  - after_drafts Hd. now left.
  - after_drafts Hd.
    right. now exists improved.
Qed.

(** A multi-agent run whose web-search call was rejected issued no
    initial-draft call. *)
Lemma MultiAgentRun_search_rejected (a : GenArgs) (fic : string) (log : list Call)
    (out : Completion string) (msg : option Message) :
  MultiAgentRun a fic log out msg ->
  forall rq e, In (rq, Rejected e) (callsOfKind WebSearchCall log) ->
  callsOfKind InitialDraftCall log = [].
Proof.
  intros Hrun rq e Hin.
  assert (Hsearch : forall slog wc src, SearchStage a fic slog wc src ->
            ~ In (rq, Rejected e) (callsOfKind WebSearchCall slog)).
  { intros slog wc src Hs H. destruct Hs as [? | ? response]; cbn in H; [exact H |].
    destruct H as [H | []]. discriminate. }
  assert (Hother : forall k rqs rps, k <> WebSearchCall ->
            Forall (fun r => kindOf r = k) rqs ->
            callsOfKind WebSearchCall (combine rqs rps) = []).
  { intros k rqs rps Hk H. apply callsOfKind_none.
    eapply Forall_kind_other; [exact Hk |]. exact (Forall_combine_fst _ _ H rps). }
  destruct Hrun as
    [ e0 Hweb
    | slog wc src rps e0 n0 Hs Hlen Hset
    | slog wc src inits rps e0 n0 Hs Hi Hlen Hset
    | dlog prompt src inits refs e0 Hd
    | dlog prompt src inits refs final Hd Hoff
    | dlog prompt src inits refs final e0 Hd Hon
    | dlog prompt src inits refs final critique Hd Hon Hp
    | dlog prompt src inits refs final critique e0 Hd Hon Hp
    | dlog prompt src inits refs final critique improved Hd Hon Hp ];
    [ reflexivity | exfalso .. ];
    try (destruct Hd as [slog wc src inits refs Hs Hi Hr]);
    rewrite ?callsOfKind_app in Hin;
    unfold resolvedCalls in Hin;
    rewrite ?(Hother InitialDraftCall) in Hin
      by (try discriminate; apply initialRequests_kind);
    rewrite ?(Hother RefinementCall) in Hin
      by (try discriminate; apply refinementRequests_kind);
    cbn [callsOfKind filter app] in Hin; rewrite ?app_nil_r in Hin;
    exact (Hsearch _ _ _ Hs Hin).
Qed.

(** C2. In a balanced run the fan-out is of 2 agents and in a deep run of
    4.  Unless the search stage failed, exactly that many initial-draft
    calls are issued, all of them whatever their replies; a run whose
    web-search call was rejected issues none.  Refinement calls
    are issued if and only if all the initial calls resolved, and then there
    is exactly one per initial draft, in order, each built from its draft.
    A model message appended by the run carries generation details whose
    initial and refined lists are the texts of the resolved drafts, both of
    the length of the fan-out. *)
Theorem fan_out_join (a : GenArgs) (cid : string) (s : AppState) :
  ai cfg = true ->
  selectedConversation s = Some cid ->
  generationDepth cfg <> fast ->
  exists (new : list Call) (appended : option Message) (prompt : Content),
    calls (snd (executeGeneration a s)) = calls s ++ new
    /\ conversations (snd (executeGeneration a s))
       = appendMessage cid appended (conversations s)
    /\ (generationDepth cfg = balanced -> numAgents = 2)
    /\ (generationDepth cfg = deep -> numAgents = 4)
    /\ (length (callsOfKind InitialDraftCall new) = numAgents
        \/ (callsOfKind InitialDraftCall new = []
            /\ exists rq e, In (rq, Rejected e) (callsOfKind WebSearchCall new)))
    /\ (callsOfKind RefinementCall new <> []
        <-> length (callsOfKind InitialDraftCall new) = numAgents
            /\ forallb isResolved (callsOfKind InitialDraftCall new) = true)
    /\ (callsOfKind RefinementCall new <> [] ->
        length (callsOfKind RefinementCall new) = numAgents
        /\ map fst (callsOfKind RefinementCall new)
           = map (refinementRequest a prompt)
                 (responsesOf (callsOfKind InitialDraftCall new)))
    /\ (forall m, appended = Some m -> isError m = false ->
        exists d, generationDetails m = Some d
                  /\ initial d = map text (responsesOf (callsOfKind InitialDraftCall new))
                  /\ refined d = map text (responsesOf (callsOfKind RefinementCall new))
                  /\ length (initial d) = numAgents
                  /\ length (refined d) = numAgents)
    /\ (forall rq e, In (rq, Rejected e) (callsOfKind WebSearchCall new) ->
        callsOfKind InitialDraftCall new = []).
Proof.
  intros Hai Hcid Hdepth.
  destruct (executeGeneration_run a cid s Hai Hcid)
    as [log [out [msg [elog [s' [Heq [_ [Hrun [Hc [Hv [_ [_ [_ [Hk Herr]]]]]]]]]]]]]].
  rewrite Heq. cbn [snd].
  assert (Hmulti : MultiAgentRun a (finalInputWithContextOf s a) log out msg).
  { unfold GenerationRun in Hrun. destruct (generationDepth cfg);
      [now contradiction Hdepth | exact Hrun ..]. }
  pose proof (MultiAgentRun_search_rejected _ _ _ _ _ Hmulti) as Hsr.
  assert (Ke : forall k, k <> MemoryCall -> k <> SuggestionCall ->
                         callsOfKind k (log ++ elog) = callsOfKind k log).
  { intros k H1 H2. rewrite callsOfKind_app, (enrichment_calls_kind k elog Hk H1 H2).
    apply app_nil_r. }
  assert (Hn : 2 <= numAgents)
    by (destruct numAgents_cases as [[_ ->] | [_ ->]]; lia).
  assert (Hmsg : forall m, messageFor out msg = Some m -> isError m = false -> msg = Some m).
  { intros m Hm Hne. destruct out as [t | e]; [exact Hm |].
    cbn in Hm. injection Hm as <-. discriminate. }
  destruct (MultiAgentRun_draft_calls _ _ _ _ _ Hmulti)
    as [[Ki [Kr [Hnone Hrej]]]
       | [[prompt [Hil [Hnr [Kr [Hnone Hrq]]]]]
         | [prompt [inits [Ki [Hil [Hrl [Hrq Hrest]]]]]]]].
  - exists (log ++ elog), (messageFor out msg), (mkContent user []).
    rewrite !Ke by discriminate. rewrite Ki, Kr.
    split; [exact Hc |]. split; [exact Hv |].
    split; [intros Hb; unfold numAgents; now rewrite Hb |].
    split; [intros Hb; unfold numAgents; now rewrite Hb |].
    split; [right; split; [reflexivity | exact Hrej] |].
    split; [split; [intros H; now contradiction H | intros [H _]; cbn in H; lia] |].
    split; [intros H; now contradiction H |].
    split; [| intros rq e _; reflexivity].
    intros m Hm Hne. rewrite (Hmsg m Hm Hne) in Hnone. discriminate.
  - exists (log ++ elog), (messageFor out msg), prompt.
    rewrite !Ke by discriminate. rewrite Kr.
    split; [exact Hc |]. split; [exact Hv |].
    split; [intros Hb; unfold numAgents; now rewrite Hb |].
    split; [intros Hb; unfold numAgents; now rewrite Hb |].
    split; [left; exact Hil |].
    split; [split; [intros H; now contradiction H | intros [_ H]; congruence] |].
    split; [intros H; now contradiction H |].
    split; [| exact Hsr].
    intros m Hm Hne. rewrite (Hmsg m Hm Hne) in Hnone. discriminate.
  - exists (log ++ elog), (messageFor out msg), prompt.
    rewrite !Ke by discriminate. rewrite Ki.
    assert (Hlen : length inits = length (initialRequests a prompt))
      by (now rewrite length_initialRequests).
    rewrite (responsesOf_resolvedCalls _ _ Hlen).
    split; [exact Hc |]. split; [exact Hv |].
    split; [intros Hb; unfold numAgents; now rewrite Hb |].
    split; [intros Hb; unfold numAgents; now rewrite Hb |].
    split; [left; rewrite (length_resolvedCalls _ _ Hlen); apply length_initialRequests |].
    split.
    { split; [| intros _ Hnil; rewrite Hnil in Hrl; cbn in Hrl; lia].
      intros _. split; [rewrite (length_resolvedCalls _ _ Hlen); apply length_initialRequests |].
      apply forallb_isResolved_resolvedCalls. }
    split; [intros _; split; [exact Hrl | exact Hrq] |].
    split; [| rewrite <- Ki; exact Hsr].
    intros m Hm Hne. pose proof (Hmsg m Hm Hne) as Hmm.
    destruct Hrest as [[_ Hnone] | [refs [src [Kr [Hrefs [Hnone | [final Hfinal]]]]]]];
      try congruence.
    rewrite Hfinal in Hmm. injection Hmm as <-.
    eexists. split; [reflexivity |]. cbn [initial refined].
    rewrite Kr, responsesOf_resolvedCalls
      by (rewrite length_refinementRequests; congruence).
    rewrite !length_map. repeat split; congruence.
Qed.

Lemma Forall_generation_combine (rqs : list Request) (rps : list GatewayReply) (k : CallKind) :
  Forall (fun rq => kindOf rq = k) rqs ->
  (k = WebSearchCall \/ k = InitialDraftCall \/ k = RefinementCall) ->
  Forall (fun c : Call => isGenerationCall c = true) (combine rqs rps).
Proof.
  intros H Hk. eapply Forall_impl; [| exact (Forall_combine_fst _ _ H rps)].
  cbv beta. intros c Hc. unfold isGenerationCall. rewrite Hc.
  destruct Hk as [-> | [-> | ->]]; reflexivity.
Qed.

Lemma MultiAgentRun_generation_calls (a : GenArgs) (fic : string) (log : list Call)
    (out : Completion string) (msg : option Message) :
  MultiAgentRun a fic log out msg ->
  Forall (fun c => isGenerationCall c = true) log.
Proof.
  intros Hrun.
  assert (Hsearch : forall slog wc src, SearchStage a fic slog wc src ->
                      Forall (fun c => isGenerationCall c = true) slog).
  { intros slog wc src Hs. destruct Hs; repeat constructor. }
  destruct Hrun;
    repeat match goal with
           | Hd : DraftStage _ _ _ _ _ _ _ |- _ =>
               apply DraftStage_kinds in Hd;
               destruct Hd as [_ [_ [_ [_ [Hd _]]]]]
           end;
    repeat (apply Forall_app; split);
    try (repeat constructor; assumption);
    try (eapply Hsearch; eassumption);
    try assumption.
  - eapply Forall_generation_combine;
      [apply initialRequests_kind | right; left; reflexivity].
  - eapply Forall_generation_combine;
      [apply initialRequests_kind | right; left; reflexivity].
  - eapply Forall_generation_combine;
      [apply refinementRequests_kind | right; right; reflexivity].
Qed.

Lemma In_combine_reply (rqs : list Request) (rps : list GatewayReply) (rp : GatewayReply) :
  length rps = length rqs -> In rp rps -> exists rq, In (rq, rp) (combine rqs rps).
Proof.
  revert rps. induction rqs as [| rq rest IH]; intros rps Hlen Hin;
    destruct rps as [| rp0 rps]; try discriminate; [contradiction |].
  injection Hlen as Hlen. destruct Hin as [-> | Hin].
  - exists rq. now left.
  - destruct (IH rps Hlen Hin) as [rq' H]. exists rq'. now right.
Qed.

Lemma MultiAgentRun_thrown (a : GenArgs) (fic : string) (log : list Call) (e : JsError)
    (msg : option Message) :
  MultiAgentRun a fic log (Thrown e) msg ->
  msg = None /\ exists rq, In (rq, Rejected e) log.
Proof.
  intros Hrun. inversion Hrun; subst; (split; [reflexivity |]).
  - eexists. left. reflexivity.
  - match goal with
    | Hs : settle _ ?rps = Thrown e, Hl : length ?rps = numAgents |- _ =>
        apply settle_Thrown in Hs;
        destruct (In_combine_reply
                    (initialRequests a (promptWithContextOf a fic webContext)) rps _
                    ltac:(now rewrite length_initialRequests) Hs) as [rq Hin]
    end.
    exists rq. apply in_or_app. now right.
  - match goal with
    | Hs : settle _ ?rps = Thrown e, Hl : length ?rps = numAgents |- _ =>
        apply settle_Thrown in Hs;
        destruct (In_combine_reply
                    (refinementRequests a (promptWithContextOf a fic webContext) initials)
                    rps _
                    ltac:(rewrite length_refinementRequests; congruence) Hs) as [rq Hin]
    end.
    exists rq. apply in_or_app. right. apply in_or_app. now right.
  - eexists. apply in_or_app. right. left. reflexivity.
  - eexists. apply in_or_app. right. right. left. reflexivity.
  - eexists. apply in_or_app. right. right. right. left. reflexivity.
Qed.

Lemma GenerationRun_thrown (a : GenArgs) (fic : string) (log : list Call) (e : JsError)
    (msg : option Message) :
  GenerationRun a fic log (Thrown e) msg ->
  msg = None
  /\ (exists rq, In (rq, Rejected e) log)
  /\ Forall (fun c => isGenerationCall c = true) log.
Proof.
  unfold GenerationRun. intros Hrun.
  destruct (generationDepth cfg).
  - inversion Hrun; subst. split; [reflexivity |].
    split; [eexists; left; reflexivity | repeat constructor].
  - destruct (MultiAgentRun_thrown _ _ _ _ _ Hrun) as [H1 H2].
    split; [exact H1 |]. split; [exact H2 |].
    eapply MultiAgentRun_generation_calls; eassumption.
  - destruct (MultiAgentRun_thrown _ _ _ _ _ Hrun) as [H1 H2].
    split; [exact H1 |]. split; [exact H2 |].
    eapply MultiAgentRun_generation_calls; eassumption.
Qed.

Lemma GenerationRun_Normal (a : GenArgs) (fic : string) (log : list Call) (t : string)
    (msg : option Message) :
  GenerationRun a fic log (Normal t) msg ->
  exists m, msg = Some m /\ role m = model /\ isError m = false
            /\ parts m = [ TextPart t ]
            /\ forallb isResolved log = true.
Proof.
  unfold GenerationRun. intros Hrun.
  assert (Hmulti : MultiAgentRun a fic log (Normal t) msg ->
            exists m, msg = Some m /\ role m = model /\ isError m = false
                      /\ parts m = [ TextPart t ]
                      /\ forallb isResolved log = true).
  { intros H. inversion H; subst;
      match goal with
      | Hd : DraftStage _ _ _ _ _ _ _ |- _ =>
          destruct (DraftStage_kinds _ _ _ _ _ _ _ Hd) as [_ [_ [_ [_ [_ Hres]]]]]
      end;
      eexists; (split; [reflexivity |]); repeat (split; [reflexivity |]);
      rewrite forallb_app, Hres; reflexivity. }
  destruct (generationDepth cfg); [| now apply Hmulti ..].
  inversion Hrun; subst. eexists. repeat split.
Qed.

(** C4. A run past its guards never throws, and ends with the loading flag
    down.  Its generation path throws as soon as one of its calls is
    rejected, and an error thrown by the generation path, at any depth, is
    the rejection of one of the calls issued.  The conversation then
    receives exactly one message, the error message and no model message:
    role model, error flag set, no generation details, and as its only part
    the text chosen by the classification of the error (an invalid API key
    first, then a deadline in any letter case, then a safety block, else the
    generic text; the generic text too for a thrown value that is not an
    Error).  The run issues no memory call and no suggestion call and leaves
    the memories and the suggestions as they were. *)
Theorem generation_error_aborts_run (a : GenArgs) (cid : string) (s : AppState) :
  ai cfg = true ->
  selectedConversation s = Some cid ->
  exists new : list Call,
    fst (executeGeneration a s) = Normal tt
    /\ calls (snd (executeGeneration a s)) = calls s ++ new
    /\ isLoading (snd (executeGeneration a s)) = false
    /\ (forall rq e0,
          In (rq, Rejected e0) new -> isGenerationCall (rq, Rejected e0) = true ->
          exists e,
            fst (generationPath a (finalInputWithContextOf s a) cid (runStart s))
            = Thrown e)
    /\ forall e,
         fst (generationPath a (finalInputWithContextOf s a) cid (runStart s)) = Thrown e ->
         (exists rq, In (rq, Rejected e) new /\ isGenerationCall (rq, Rejected e) = true)
         /\ conversations (snd (executeGeneration a s))
            = appendMessage cid (Some (errorMessage e)) (conversations s)
         /\ role (errorMessage e) = model
         /\ isError (errorMessage e) = true
         /\ generationDetails (errorMessage e) = None
         /\ (instanceofError e = true ->
             includes "API key not valid" (message e) = true ->
             parts (errorMessage e)
             = [ TextPart "Há um problema com a configuração da API. Por favor, contate o administrador." ])
         /\ (instanceofError e = true ->
             includes "API key not valid" (message e) = false ->
             includes "deadline" (toLowerCase (message e)) = true ->
             parts (errorMessage e)
             = [ TextPart "A solicitação demorou muito e expirou. Tente novamente com uma pergunta mais curta ou verifique sua conexão de rede." ])
         /\ (instanceofError e = true ->
             includes "API key not valid" (message e) = false ->
             includes "deadline" (toLowerCase (message e)) = false ->
             includes "SAFETY" (message e) = true ->
             parts (errorMessage e)
             = [ TextPart "A resposta foi bloqueada devido às configurações de segurança. Por favor, modifique sua pergunta e tente novamente." ])
         /\ (instanceofError e = false
             \/ (includes "API key not valid" (message e) = false
                 /\ includes "deadline" (toLowerCase (message e)) = false
                 /\ includes "SAFETY" (message e) = false) ->
             parts (errorMessage e)
             = [ TextPart "Desculpe, algo deu errado ao gerar a resposta." ])
         /\ countKind MemoryCall new = 0
         /\ countKind SuggestionCall new = 0
         /\ longTermMemories (snd (executeGeneration a s)) = longTermMemories s
         /\ proactiveSuggestions (snd (executeGeneration a s)) = proactiveSuggestions s.
Proof.
  intros Hai Hcid.
  destruct (executeGeneration_run a cid s Hai Hcid)
    as [log [out [msg [elog [s' [Heq [Hpath [Hrun [Hc [Hv [Hl [_ [_ [Hk Herr]]]]]]]]]]]]]].
  rewrite Heq. cbn [fst snd]. exists (log ++ elog).
  split; [reflexivity |]. split; [exact Hc |]. split; [exact Hl |]. split.
  - intros rq e0 Hin Hgen. destruct out as [t | e]; [| now exists e].
    exfalso. apply in_app_or in Hin. destruct Hin as [Hin | Hin].
    + destruct (GenerationRun_Normal _ _ _ _ _ Hrun) as [m [_ [_ [_ [_ Hres]]]]].
      rewrite forallb_forall in Hres. specialize (Hres _ Hin). discriminate Hres.
    + rewrite Forall_forall in Hk. specialize (Hk _ Hin).
      unfold isEnrichmentCall in Hk. unfold isGenerationCall in Hgen.
      destruct (kindOf (fst (rq, Rejected e0))); discriminate.
  - intros e Hthrown. rewrite Hthrown in Hpath. subst out.
    destruct (Herr e eq_refl) as [Hnone [Hnil [Hmem Hsug]]]. subst msg elog.
    destruct (GenerationRun_thrown _ _ _ _ _ Hrun) as [_ [[rq Hrej] Hgen]].
    rewrite app_nil_r in *. cbn [messageFor] in Hv.
    unfold countKind.
    rewrite (generation_calls_kind MemoryCall log Hgen) by (right; left; reflexivity).
    rewrite (generation_calls_kind SuggestionCall log Hgen) by (right; right; reflexivity).
    split.
    { exists rq. split; [exact Hrej |]. rewrite Forall_forall in Hgen. exact (Hgen _ Hrej). }
    split; [exact Hv |]. split; [reflexivity |]. split; [reflexivity |].
    split; [reflexivity |].
    unfold errorMessage, friendlyMessage. cbn [parts].
    split; [intros -> ->; reflexivity |].
    split; [intros -> -> ->; reflexivity |].
    split; [intros -> -> -> ->; reflexivity |].
    split.
    { intros [-> | [-> [-> ->]]]; [reflexivity |].
      now destruct (instanceofError e). }
    repeat split; assumption.
Qed.

Lemma handleSubmit_passes_guards (overrideInput : option string) (cid : string)
    (conv : Conversation) (s : AppState) :
  (truthy (trim (match overrideInput with Some o => o | None => input s end)) = true
   \/ attachedFiles s <> []) ->
  ai cfg = true ->
  selectedConversation s = Some cid ->
  isLoading s = false ->
  find (fun c => (id c =? cid)%string) (conversations s) = Some conv ->
  exists mid,
    handleSubmit overrideInput s
    = (if engagesSearchGate
       then searchGate (match overrideInput with Some o => o | None => input s end) cid
              (map content (attachedFiles s)) (historyOf (messages conv))
       else executeGeneration
              {| userInput := match overrideInput with Some o => o | None => input s end;
                 attachedFileParts := map content (attachedFiles s);
                 history := historyOf (messages conv);
                 confirmedSearchQuery := None |}) mid
    /\ calls mid = calls s
    /\ selectedConversation mid = Some cid
    /\ longTermMemories mid = longTermMemories s
    /\ showSearchConfirmation mid = showSearchConfirmation s
    /\ searchConfirmationData mid = searchConfirmationData s.
Proof.
  intros Hinput Hai Hcid Hload Hfind.
  unfold handleSubmit.
  assert (H0 : readState s = (Normal s, s)) by reflexivity.
  erewrite bind_Normal by exact H0. clear H0. cbv zeta.
  assert (Hguard : negb (truthy (trim (match overrideInput with
                                        | Some o => o | None => input s end)))
                   && (length (attachedFiles s) =? 0) = false).
  { destruct Hinput as [Ht | Hatt]; [now rewrite Ht |].
    destruct (attachedFiles s); [now contradiction Hatt | apply andb_false_r]. }
  rewrite Hguard, Hai, Hcid, Hload.
  unfold bind at 1. cbn [update]. unfold update at 1. cbv beta iota.
  rewrite Hfind.
  destruct (length (messages conv) =? 0);
    (eexists; split;
     [ unfold bind, update, ret, updateConversationMessages; reflexivity
     | cbn; repeat split; assumption ]).
Qed.

Lemma searchGate_run (userInput cid : string) (attachedFileParts : list Part)
    (history : list Content) (s : AppState) :
  exists reply s',
    searchGate userInput cid attachedFileParts history s = (Normal tt, s')
    /\ calls s' = calls s ++ [ (searchRefinerRequest userInput, reply) ]
    /\ (forall r q qs,
          reply = Resolved r -> parseSearchProposal (text r) = Some (q, qs) ->
          showSearchConfirmation s' = true
          /\ searchConfirmationData s'
             = Some {| originalUserInput := userInput;
                       searchQuery := q;
                       questions := qs;
                       pendingAttachedFileParts := attachedFileParts;
                       pendingHistory := history |}
          /\ conversations s' = conversations s
          /\ isLoading s' = isLoading s)
    /\ ((forall r, reply = Resolved r -> parseSearchProposal (text r) = None)
        -> showSearchConfirmation s' = showSearchConfirmation s
           /\ searchConfirmationData s' = searchConfirmationData s
           /\ conversations s'
              = appendMessage cid (Some searchRefinementErrorMessage) (conversations s)
           /\ isLoading s' = false).
Proof.
  unfold searchGate, tryCatch, bind, ai_generateContent.
  destruct (generateContent (length (calls s)) (searchRefinerRequest userInput))
    as [r | e] eqn:Hg.
  - destruct (parseSearchProposal (text r)) as [[q qs] |] eqn:Hparse.
    + eexists (Resolved r), _. split; [reflexivity |]. split; [reflexivity |].
      split.
      * intros r0 q0 qs0 Hr Hp. injection Hr as <-.
        rewrite Hparse in Hp. injection Hp as <- <-. cbn. repeat split.
      * intros Hnone. rewrite (Hnone r eq_refl) in Hparse. discriminate.
    + eexists (Resolved r), _. split; [reflexivity |]. split; [reflexivity |].
      split.
      * intros r0 q0 qs0 Hr Hp. injection Hr as <-. rewrite Hparse in Hp. discriminate.
      * intros _. cbn. repeat split.
  - eexists (Rejected e), _. split; [reflexivity |]. split; [reflexivity |].
    split.
    + intros r0 q0 qs0 Hr. discriminate.
    + intros _. cbn. repeat split.
Qed.

Lemma engagesSearchGate_iff :
  engagesSearchGate = true <-> researchMode cfg = web /\ generationDepth cfg <> fast.
Proof.
  unfold engagesSearchGate.
  destruct (researchMode cfg), (generationDepth cfg); split; intros H;
    try discriminate H;
    try (exfalso; first [discriminate (proj1 H) | now apply (proj2 H)]);
    try reflexivity;
    (split; [reflexivity | discriminate]).
Qed.

Lemma MultiAgentRun_starts_with_search (a : GenArgs) (fic : string) (log : list Call)
    (out : Completion string) (msg : option Message) :
  searchesWeb = true ->
  MultiAgentRun a fic log out msg ->
  exists reply rest, log = (searchRequest (queryForSearch a fic), reply) :: rest.
Proof.
  intros Hweb Hrun.
  assert (Hsearch : forall slog wc src, SearchStage a fic slog wc src ->
            exists reply, slog = [ (searchRequest (queryForSearch a fic), reply) ]).
  { intros slog wc src Hs. destruct Hs; [congruence | eexists; reflexivity]. }
  destruct Hrun;
    repeat match goal with
           | Hd : DraftStage _ _ _ _ _ _ _ |- _ => destruct Hd
           end;
    try match goal with
        | Hs : SearchStage _ _ _ _ _ |- _ =>
            destruct (Hsearch _ _ _ Hs) as [reply ->]
        end;
    cbn [app]; eexists _, _; reflexivity.
Qed.

Lemma GenerationRun_generation_calls (a : GenArgs) (fic : string) (log : list Call)
    (out : Completion string) (msg : option Message) :
  GenerationRun a fic log out msg ->
  Forall (fun c => isGenerationCall c = true) log.
Proof.
  unfold GenerationRun. intros Hrun. destruct (generationDepth cfg).
  - destruct Hrun; repeat constructor.
  - eapply MultiAgentRun_generation_calls; eassumption.
  - eapply MultiAgentRun_generation_calls; eassumption.
Qed.

(** C3. For a submission that passes the guards of [handleSubmit], the
    search proposal call is issued, once, if and only if the research mode
    is web and the depth is not fast.  In that case it is the only call of
    the submission, and a proposal that resolved and parsed is put up for
    confirmation with the pending input, attachments and history.  In every
    other case the confirmation state is left as it was.  In deep research
    mode the run goes straight to the generation: with a depth other than
    fast its first call is the web search on the input with its memory
    context, and with the fast depth its first call is the direct call with
    the search tool attached. *)
Theorem search_gate_only_for_web (overrideInput : option string) (cid : string)
    (conv : Conversation) (s : AppState) :
  (truthy (trim (match overrideInput with Some o => o | None => input s end)) = true
   \/ attachedFiles s <> []) ->
  ai cfg = true ->
  selectedConversation s = Some cid ->
  isLoading s = false ->
  find (fun c => (id c =? cid)%string) (conversations s) = Some conv ->
  exists new : list Call,
    calls (snd (handleSubmit overrideInput s)) = calls s ++ new
    /\ (countKind SearchProposalCall new = 1
        <-> researchMode cfg = web /\ generationDepth cfg <> fast)
    /\ (countKind SearchProposalCall new = 0 \/ countKind SearchProposalCall new = 1)
    /\ (researchMode cfg = web -> generationDepth cfg <> fast ->
        exists reply,
          new = [ (searchRefinerRequest
                     (match overrideInput with Some o => o | None => input s end), reply) ]
          /\ forall r q qs,
               reply = Resolved r -> parseSearchProposal (text r) = Some (q, qs) ->
               showSearchConfirmation (snd (handleSubmit overrideInput s)) = true
               /\ searchConfirmationData (snd (handleSubmit overrideInput s))
                  = Some {| originalUserInput :=
                              match overrideInput with Some o => o | None => input s end;
                            searchQuery := q;
                            questions := qs;
                            pendingAttachedFileParts := map content (attachedFiles s);
                            pendingHistory := historyOf (messages conv) |})
    /\ (~ (researchMode cfg = web /\ generationDepth cfg <> fast) ->
        showSearchConfirmation (snd (handleSubmit overrideInput s))
        = showSearchConfirmation s
        /\ searchConfirmationData (snd (handleSubmit overrideInput s))
           = searchConfirmationData s)
    /\ (researchMode cfg = deepResearch ->
        (generationDepth cfg <> fast ->
         exists reply rest,
           new = (searchRequest
                    (contextPrefix (longTermMemories s)
                     ++ match overrideInput with Some o => o | None => input s end)%string,
                  reply) :: rest)
        /\ (generationDepth cfg = fast ->
            exists rq reply rest,
              new = (rq, reply) :: rest
              /\ kindOf rq = DirectCall
              /\ In googleSearch (tools (config rq)))).
Proof.
  intros Hinput Hai Hcid Hload Hfind.
  destruct (handleSubmit_passes_guards overrideInput cid conv s Hinput Hai Hcid Hload Hfind)
    as [mid [Heq [Hcalls [Hmcid [Hmem [Hssc Hscd]]]]]].
  rewrite Heq. clear Heq.
  set (inputToUse := match overrideInput with Some o => o | None => input s end) in *.
  destruct engagesSearchGate eqn:Hgate.
  - pose proof (proj1 engagesSearchGate_iff Hgate) as [Hweb Hdepth].
    destruct (searchGate_run inputToUse cid (map content (attachedFiles s))
                (historyOf (messages conv)) mid) as [reply [s' [Hrun [Hc [Hok _]]]]].
    rewrite Hrun. cbn [snd].
    exists [ (searchRefinerRequest inputToUse, reply) ].
    split; [rewrite Hc; now rewrite Hcalls |].
    split; [split; [intros _; now split | intros _; reflexivity] |].
    split; [now right |].
    split.
    { intros _ _. exists reply. split; [reflexivity |].
      intros r q qs Hr Hp. destruct (Hok r q qs Hr Hp) as [H1 [H2 _]]. now split. }
    split; [intros Hnot; contradiction Hnot; now split |].
    intros Hdeep. congruence.
  - assert (Hnot : ~ (researchMode cfg = web /\ generationDepth cfg <> fast)).
    { intros H. apply engagesSearchGate_iff in H. congruence. }
    set (args := {| userInput := inputToUse;
                    attachedFileParts := map content (attachedFiles s);
                    history := historyOf (messages conv);
                    confirmedSearchQuery := None |}).
    destruct (executeGeneration_run args cid mid Hai Hmcid)
      as [log [out [msg [elog [s' [Hrun [_ [Hgen [Hc [_ [_ [Hs1 [Hs2 [Hk _]]]]]]]]]]]]]].
    rewrite Hrun. cbn [snd].
    exists (log ++ elog).
    assert (Hzero : countKind SearchProposalCall (log ++ elog) = 0).
    { unfold countKind. rewrite callsOfKind_app.
      rewrite (generation_calls_kind SearchProposalCall log
                 (GenerationRun_generation_calls _ _ _ _ _ Hgen)) by (left; reflexivity).
      now rewrite (enrichment_calls_kind SearchProposalCall elog Hk) by discriminate. }
    split; [rewrite Hc; now rewrite Hcalls |].
    split; [rewrite Hzero; split; [discriminate | intros H; now contradiction Hnot] |].
    split; [now left |].
    split; [intros Hweb Hdepth; contradiction Hnot; now split |].
    split; [intros _; split; congruence |].
    intros Hdeep.
    assert (Hsearches : searchesWeb = true) by (unfold searchesWeb; now rewrite Hdeep).
    assert (Hfic : finalInputWithContextOf mid args
                   = (contextPrefix (longTermMemories s) ++ inputToUse)%string)
      by (unfold finalInputWithContextOf; now rewrite Hmem).
    unfold GenerationRun in Hgen. split.
    + intros Hdepth.
      assert (Hmulti : MultiAgentRun args (finalInputWithContextOf mid args) log out msg)
        by (destruct (generationDepth cfg); [now contradiction Hdepth | exact Hgen ..]).
      destruct (MultiAgentRun_starts_with_search _ _ _ _ _ Hsearches Hmulti)
        as [reply [rest Hlog]].
      exists reply, (rest ++ elog). rewrite Hlog.
      unfold queryForSearch. cbn [confirmedSearchQuery args]. now rewrite Hfic.
    + intros Hfast. rewrite Hfast in Hgen.
      destruct Hgen as [e | final]; eexists _, _, elog;
        (split; [reflexivity |]); (split; [reflexivity |]);
        cbn [fastRequest config tools]; rewrite Hsearches;
        apply in_or_app; right; now left.
Qed.

(** C9. Cancelling the search confirmation appends no message to any
    conversation, issues no call to the model, clears the confirmation and
    its data, and ends with the loading flag down; nothing else changes and
    no error is raised. *)
Theorem handleSearchCancel_is_silent (s : AppState) :
  fst (handleSearchCancel s) = Normal tt
  /\ conversations (snd (handleSearchCancel s)) = conversations s
  /\ calls (snd (handleSearchCancel s)) = calls s
  /\ isLoading (snd (handleSearchCancel s)) = false
  /\ showSearchConfirmation (snd (handleSearchCancel s)) = false
  /\ searchConfirmationData (snd (handleSearchCancel s)) = None
  /\ longTermMemories (snd (handleSearchCancel s)) = longTermMemories s
  /\ proactiveSuggestions (snd (handleSearchCancel s)) = proactiveSuggestions s
  /\ loadingTasks (snd (handleSearchCancel s)) = loadingTasks s
  /\ currentConversationId (snd (handleSearchCancel s)) = currentConversationId s
  /\ input (snd (handleSearchCancel s)) = input s
  /\ attachedFiles (snd (handleSearchCancel s)) = attachedFiles s
  /\ notification (snd (handleSearchCancel s)) = notification s.
Proof. repeat split. Qed.

(** ** Further properties of the run *)

(** [executeGeneration] past its guard: the [try] block, then the [catch]
    block when it threw, then the [finally] block. *)
Lemma executeGeneration_unfold (a : GenArgs) (cid : string) (s : AppState) :
  ai cfg = true ->
  selectedConversation s = Some cid ->
  executeGeneration a s
  = match generationPath a (finalInputWithContextOf s a) cid (runStart s) with
    | (Normal finalResponseText, s1) => enrichment a finalResponseText s1
    | (Thrown error, s1) =>
        enrichment a ""
          (setConversations
             (map (fun c => if (id c =? cid)%string
                            then mkConversation (id c) (conv_title c)
                                   (messages c ++ [ errorMessage error ])
                            else c)) s1)
    end.
Proof.
  intros Hai Hcid. unfold executeGeneration.
  assert (H0 : readState s = (Normal s, s)) by reflexivity.
  erewrite bind_Normal by exact H0. clear H0. rewrite Hai, Hcid. cbv zeta.
  unfold runStart, bind at 1, update at 1. cbv beta iota.
  unfold bind at 1, tryCatch.
  destruct (generationPath a (finalInputWithContextOf s a) cid _) as [[t | e] s1];
    reflexivity.
Qed.

(** The [finally] block: the calls it issues by kind, what it may store, and
    everything it leaves alone. *)
Lemma enrichment_effect (a : GenArgs) (finalResponseText : string) (s : AppState) :
  exists elog s',
    enrichment a finalResponseText s = (Normal tt, s')
    /\ calls s' = calls s ++ elog
    /\ kindsOf elog
       = (if truthy finalResponseText && ai cfg
          then (if isLongTermMemoryEnabled cfg then [ MemoryCall ] else [])
               ++ [ SuggestionCall ]
          else [])
    /\ conversations s' = conversations s
    /\ isLoading s' = false
    /\ loadingTasks s' = loadingTasks s
    /\ input s' = input s
    /\ attachedFiles s' = attachedFiles s
    /\ notification s' = notification s
    /\ currentConversationId s' = currentConversationId s
    /\ showSearchConfirmation s' = showSearchConfirmation s
    /\ searchConfirmationData s' = searchConfirmationData s
    /\ (longTermMemories s' = longTermMemories s
        \/ exists rq r, In (rq, Resolved r) elog /\ kindOf rq = MemoryCall
                        /\ isLongTermMemoryEnabled cfg = true
                        /\ longTermMemories s'
                           = admitExtracted (text r) (longTermMemories s))
    /\ (proactiveSuggestions s' = proactiveSuggestions s
        \/ exists rq r suggestions,
             In (rq, Resolved r) elog /\ kindOf rq = SuggestionCall
             /\ parseStringArray (text r) = Some suggestions
             /\ suggestions <> []
             /\ proactiveSuggestions s' = firstn 3 suggestions).
Proof.
  unfold enrichment, generateAndStoreMemory, generateProactiveSuggestions.
  destruct finalResponseText as [| c rest]; cbn [truthy andb].
  { exists [], (setIsLoading false s). cbn. rewrite app_nil_r.
    repeat split; now left. }
  destruct (ai cfg); cbn [negb].
  2:{ exists [], (setIsLoading false s).
      destruct (isLongTermMemoryEnabled cfg); cbn; rewrite app_nil_r;
        repeat split; now left. }
  cbv zeta.
  unfold tryCatch, bind, ai_generateContent, update, ret.
  destruct (isLongTermMemoryEnabled cfg) eqn:Hltm.
  - match goal with
    | |- context [generateContent ?n ?rq] =>
        destruct (generateContent n rq) as [r1 | e1] eqn:Hg1
    end; cbn [calls setIsLoading setLongTermMemories logCall length];
    match goal with
    | |- context [generateContent ?n ?rq] =>
        destruct (generateContent n rq) as [r2 | e2] eqn:Hg2
    end;
    try (destruct (parseStringArray (text r2)) as [sugg |] eqn:Hparse;
         [destruct sugg as [| x sugg'] |]);
    cbn [Nat.ltb Nat.leb length];
    eexists [ _; _ ], _; (split; [reflexivity |]);
    cbn; rewrite <- ?app_assoc; cbn;
    (split; [reflexivity |]); (split; [reflexivity |]);
    repeat (split; [reflexivity |]);
    (split;
     [ first [ right; eexists _, _; split; [left; reflexivity |];
               repeat split; reflexivity
             | now left ]
     | first [ right; eexists _, _, _; split; [right; left; reflexivity |];
               split; [reflexivity |]; split; [eassumption |];
               split; [discriminate | reflexivity]
             | now left ] ]).
  - match goal with
    | |- context [generateContent ?n ?rq] =>
        destruct (generateContent n rq) as [r2 | e2] eqn:Hg2
    end;
    try (destruct (parseStringArray (text r2)) as [sugg |] eqn:Hparse;
         [destruct sugg as [| x sugg'] |]);
    cbn [Nat.ltb Nat.leb length];
    eexists [ _ ], _; (split; [reflexivity |]);
    cbn;
    (split; [reflexivity |]); (split; [reflexivity |]);
    repeat (split; [reflexivity |]);
    (split;
     [ now left
     | first [ right; eexists _, _, _; split; [left; reflexivity |];
               split; [reflexivity |]; split; [eassumption |];
               split; [discriminate | reflexivity]
             | now left ] ]).
Qed.

(** Every run of [executeGeneration] past its guard, with all that it
    changes and all that it leaves alone. *)
Lemma executeGeneration_effect (a : GenArgs) (cid : string) (s : AppState) :
  ai cfg = true ->
  selectedConversation s = Some cid ->
  exists log out msg elog s',
    executeGeneration a s = (Normal tt, s')
    /\ (fst (generationPath a (finalInputWithContextOf s a) cid (runStart s)) = out
        /\ GenerationRun a (finalInputWithContextOf s a) log out msg)
    /\ calls s' = calls s ++ log ++ elog
    /\ kindsOf elog
       = (if truthy (finalTextOf out)
          then (if isLongTermMemoryEnabled cfg then [ MemoryCall ] else [])
               ++ [ SuggestionCall ]
          else [])
    /\ conversations s' = appendMessage cid (messageFor out msg) (conversations s)
    /\ isLoading s' = false
    /\ input s' = input s
    /\ attachedFiles s' = attachedFiles s
    /\ notification s' = notification s
    /\ currentConversationId s' = currentConversationId s
    /\ showSearchConfirmation s' = showSearchConfirmation s
    /\ searchConfirmationData s' = searchConfirmationData s
    /\ (longTermMemories s' = longTermMemories s
        \/ exists rq r, In (rq, Resolved r) elog /\ kindOf rq = MemoryCall
                        /\ isLongTermMemoryEnabled cfg = true
                        /\ longTermMemories s'
                           = admitExtracted (text r) (longTermMemories s))
    /\ (proactiveSuggestions s' = proactiveSuggestions s
        \/ exists rq r suggestions,
             In (rq, Resolved r) elog /\ kindOf rq = SuggestionCall
             /\ parseStringArray (text r) = Some suggestions
             /\ suggestions <> []
             /\ proactiveSuggestions s' = firstn 3 suggestions).
Proof.
  intros Hai Hcid. rewrite (executeGeneration_unfold a cid s Hai Hcid).
  destruct (generationPath_run a (finalInputWithContextOf s a) cid (runStart s))
    as [log [out [msg [s1 [Hp [Hrun [Hc [Hv Hsame]]]]]]]].
  rewrite Hp. cbn [fst]. unfold sameOutsideRun in Hsame.
  destruct Hsame as [F1 [F2 [F3 [F4 [F5 [F6 [F7 [F8 F9]]]]]]]].
  cbn [runStart calls conversations setLoadingTasks currentConversationId input
       attachedFiles isLoading notification longTermMemories proactiveSuggestions
       showSearchConfirmation searchConfirmationData] in *.
  unfold runStart in *. cbn in Hc, Hv, F1, F2, F3, F4, F5, F6, F7, F8, F9.
  destruct out as [t | e].
  - destruct (enrichment_effect a t s1)
      as [elog [s' [He [E1 [E2 [E3 [E4 [E5 [E6 [E7 [E8 [E9 [E10 [E11 [E12 E13]]]]]]]]]]]]]]].
    exists log, (Normal t), msg, elog, s'. rewrite Hai, andb_true_r in E2.
    split; [exact He |]. split; [split; [reflexivity | exact Hrun] |].
    split; [rewrite E1, Hc; now rewrite app_assoc |].
    split; [exact E2 |].
    split; [cbn [messageFor]; congruence |].
    repeat (split; [congruence |]).
    split.
    + destruct E12 as [E12 | [rq [r [H1 [H2 [H3 H4]]]]]]; [left; congruence |].
      right. exists rq, r. repeat split; try assumption. congruence.
    + destruct E13 as [E13 | [rq [r [l [H1 [H2 [H3 [H4 H5]]]]]]]]; [left; congruence |].
      right. exists rq, r, l. repeat split; assumption.
  - destruct (GenerationRun_thrown _ _ _ _ _ Hrun) as [Hnone _]. subst msg.
    match goal with
    | |- context [enrichment a "" ?st] =>
        destruct (enrichment_effect a "" st)
          as [elog [s' [He [E1 [E2 [E3 [E4 [E5 [E6 [E7 [E8 [E9 [E10 [E11 [E12 E13]]]]]]]]]]]]]]]
    end.
    cbn [truthy andb] in E2. cbn in E1, E3, E5, E6, E7, E8, E9, E10, E11, E12, E13.
    exists log, (Thrown e), None, elog, s'.
    split; [exact He |]. split; [split; [reflexivity | exact Hrun] |].
    split; [rewrite E1, Hc; now rewrite app_assoc |].
    split; [exact E2 |].
    split; [cbn [messageFor appendMessage] in *; congruence |].
    repeat (split; [congruence |]).
    split.
    + destruct E12 as [E12 | [rq [r [H1 _]]]]; [left; congruence |].
      destruct elog; [contradiction | discriminate].
    + destruct E13 as [E13 | [rq [r [l [H1 _]]]]]; [left; congruence |].
      destruct elog; [contradiction | discriminate].
Qed.

Lemma countKind_kindsOf (k : CallKind) (log : list Call) :
  countKind k log = length (filter (fun k' => CallKind_eqb k' k) (kindsOf log)).
Proof.
  unfold countKind, callsOfKind, kindsOf.
  induction log as [| c rest IH]; [reflexivity |].
  cbn [filter map]. destruct (CallKind_eqb (kindOf (fst c)) k); cbn [length]; now rewrite IH.
Qed.

Lemma kindsOf_app (l1 l2 : list Call) : kindsOf (l1 ++ l2) = kindsOf l1 ++ kindsOf l2.
Proof. unfold kindsOf. apply map_app. Qed.

Lemma kindsOf_combine_same (k : CallKind) (rqs : list Request) (rps : list GatewayReply) :
  Forall (fun rq => kindOf rq = k) rqs ->
  length rps = length rqs ->
  kindsOf (combine rqs rps) = repeat k (length rqs).
Proof.
  intros H. revert rps. induction H as [| rq rest Hk _ IH]; intros rps Hlen;
    destruct rps as [| rp rps]; try discriminate; [reflexivity |].
  cbn. rewrite Hk. f_equal. apply IH. now injection Hlen.
Qed.

(** A run with a client and a selected conversation returns normally and
    appends one message of role model. *)
Lemma executeGeneration_appends (a : GenArgs) (cid : string) (s : AppState) :
  ai cfg = true -> selectedConversation s = Some cid ->
  fst (executeGeneration a s) = Normal tt
  /\ exists m,
       conversations (snd (executeGeneration a s))
       = appendMessage cid (Some m) (conversations s)
       /\ role m = model
       /\ isLoading (snd (executeGeneration a s)) = false
       /\ input (snd (executeGeneration a s)) = input s
       /\ attachedFiles (snd (executeGeneration a s)) = attachedFiles s
       /\ showSearchConfirmation (snd (executeGeneration a s))
          = showSearchConfirmation s
       /\ searchConfirmationData (snd (executeGeneration a s))
          = searchConfirmationData s.
Proof.
  intros Hai Hcid.
  destruct (executeGeneration_effect a cid s Hai Hcid)
    as (log & out & msg & elog & s' & Heq & [_ Hgen] & _ & _ & Hv & Hl & Hi & Ha & _ & _
        & Hs & Hd & _).
  rewrite Heq. cbn [fst snd]. split; [reflexivity |].
  destruct out as [t | e].
  - destruct (GenerationRun_Normal _ _ _ _ _ Hgen) as [m [-> [Hr _]]].
    exists m. repeat split; assumption.
  - exists (errorMessage e). repeat split; assumption.
Qed.

(** X1. [executeGeneration] never throws.  Without a client or a selected
    conversation it changes nothing; otherwise it appends exactly one
    message of role model to the selected conversation (the answer or the
    error message), leaves every other conversation, the input, the
    attachments and the confirmation state as they were, and ends with the
    loading flag down. *)
Theorem executeGeneration_always_one_message (a : GenArgs) (s : AppState) :
  fst (executeGeneration a s) = Normal tt
  /\ ((ai cfg = false \/ selectedConversation s = None) ->
      snd (executeGeneration a s) = s)
  /\ (forall cid, ai cfg = true -> selectedConversation s = Some cid ->
      exists m,
        conversations (snd (executeGeneration a s))
        = appendMessage cid (Some m) (conversations s)
        /\ role m = model
        /\ isLoading (snd (executeGeneration a s)) = false
        /\ input (snd (executeGeneration a s)) = input s
        /\ attachedFiles (snd (executeGeneration a s)) = attachedFiles s
        /\ showSearchConfirmation (snd (executeGeneration a s)) = showSearchConfirmation s
        /\ searchConfirmationData (snd (executeGeneration a s)) = searchConfirmationData s).
Proof.
  destruct (ai cfg) eqn:Hai.
  - destruct (selectedConversation s) as [cid |] eqn:Hcid.
    + destruct (executeGeneration_appends a cid s Hai Hcid) as [H1 H2].
      split; [exact H1 |]. split.
      * intros [H | H]; discriminate.
      * intros cid' _ Hc. injection Hc as <-. exact H2.
    + assert (Hnoop : executeGeneration a s = (Normal tt, s)).
      { unfold executeGeneration, bind, readState. cbv beta iota.
        now rewrite Hai, Hcid. }
      rewrite Hnoop. repeat split. intros cid _ H. discriminate.
  - assert (Hnoop : executeGeneration a s = (Normal tt, s)).
    { unfold executeGeneration, bind, readState. cbv beta iota. now rewrite Hai. }
    rewrite Hnoop. repeat split. intros cid H. discriminate.
Qed.

Lemma kindsOf_resolvedCalls (k : CallKind) (rqs : list Request) (rs : list Response) :
  Forall (fun rq => kindOf rq = k) rqs ->
  length rs = length rqs ->
  kindsOf (resolvedCalls rqs rs) = repeat k (length rqs).
Proof.
  intros H Hlen. unfold resolvedCalls. apply kindsOf_combine_same; [exact H |].
  now rewrite length_map.
Qed.

Lemma DraftStage_order (a : GenArgs) (fic : string) (dlog : list Call) (prompt : Content)
    (src : list WebSource) (inits refs : list Response) :
  DraftStage a fic dlog prompt src inits refs ->
  kindsOf dlog
  = (if searchesWeb then [ WebSearchCall ] else [])
    ++ repeat InitialDraftCall numAgents ++ repeat RefinementCall numAgents.
Proof.
  intros H. destruct H as [slog wc src inits refs Hs Hi Hr].
  rewrite !kindsOf_app.
  rewrite (kindsOf_resolvedCalls InitialDraftCall)
    by (first [apply initialRequests_kind | now rewrite length_initialRequests]).
  rewrite (kindsOf_resolvedCalls RefinementCall)
    by (first [apply refinementRequests_kind
              | rewrite length_refinementRequests; congruence]).
  rewrite length_initialRequests, length_refinementRequests, Hi.
  destruct Hs as [Hweb | r Hweb]; rewrite Hweb; reflexivity.
Qed.

Lemma MultiAgentRun_order (a : GenArgs) (fic : string) (log : list Call) (t : string)
    (msg : option Message) :
  MultiAgentRun a fic log (Normal t) msg ->
  exists tail,
    kindsOf log
    = (if searchesWeb then [ WebSearchCall ] else [])
      ++ repeat InitialDraftCall numAgents ++ repeat RefinementCall numAgents
      ++ [ SynthesisCall ] ++ tail
    /\ (isSelfCorrectionEnabled cfg = false -> tail = [])
    /\ (isSelfCorrectionEnabled cfg = true ->
        tail = [ CritiqueCall ] \/ tail = [ CritiqueCall; SynthesisCall ]).
Proof.
  intros H. inversion H; subst;
    match goal with
    | Hd : DraftStage _ _ _ _ _ _ _ |- _ => pose proof (DraftStage_order _ _ _ _ _ _ _ Hd) as Ho
    end;
    rewrite kindsOf_app, Ho, <- !app_assoc.
  - exists []. split; [reflexivity |]. split; [reflexivity | congruence].
  - exists [ CritiqueCall ]. split; [reflexivity |]. split; [congruence | now left].
  - exists [ CritiqueCall; SynthesisCall ]. split; [reflexivity |].
    split; [congruence | now right].
Qed.

(** X2. The calls of a balanced or deep run in which nothing fails, in the
    order they are issued: the web search when the mode is web or deep, the
    initial drafts, as many refinements, the synthesis, then with
    self-correction the critique and possibly one more synthesis, and last
    the enrichment calls (the memory call when long-term memory is enabled,
    then the suggestion call) unless the answer is empty. *)
Theorem successful_run_call_order (a : GenArgs) (cid : string) (s : AppState) (t : string) :
  ai cfg = true ->
  selectedConversation s = Some cid ->
  generationDepth cfg <> fast ->
  fst (generationPath a (finalInputWithContextOf s a) cid (runStart s)) = Normal t ->
  exists new tail,
    calls (snd (executeGeneration a s)) = calls s ++ new
    /\ kindsOf new
       = (if searchesWeb then [ WebSearchCall ] else [])
         ++ repeat InitialDraftCall numAgents ++ repeat RefinementCall numAgents
         ++ [ SynthesisCall ] ++ tail
         ++ (if truthy t
             then (if isLongTermMemoryEnabled cfg then [ MemoryCall ] else [])
                  ++ [ SuggestionCall ]
             else [])
    /\ (isSelfCorrectionEnabled cfg = false -> tail = [])
    /\ (isSelfCorrectionEnabled cfg = true ->
        tail = [ CritiqueCall ] \/ tail = [ CritiqueCall; SynthesisCall ]).
Proof.
  intros Hai Hcid Hdepth Hnormal.
  destruct (executeGeneration_effect a cid s Hai Hcid)
    as (log & out & msg & elog & s' & Heq & [Hpath Hgen] & Hc & Hk & _).
  rewrite Hnormal in Hpath. subst out. rewrite Heq. cbn [snd finalTextOf] in *.
  assert (Hmulti : MultiAgentRun a (finalInputWithContextOf s a) log (Normal t) msg).
  { unfold GenerationRun in Hgen. destruct (generationDepth cfg);
      [now contradiction Hdepth | exact Hgen ..]. }
  destruct (MultiAgentRun_order _ _ _ _ _ Hmulti) as [tail [Ho [Hoff Hon]]].
  exists (log ++ elog), tail. split; [exact Hc |].
  split; [| split; assumption].
  rewrite kindsOf_app, Ho, Hk. now rewrite <- !app_assoc.
Qed.

(** X3. A fast run issues exactly one call on its generation path, whatever
    the research mode and the self-correction setting: the direct call on
    the history followed by the prompt, with the code tool when it is
    enabled and then the search tool when the mode is web or deep.  When it
    resolves, the answer appended has no generation details and the run goes
    on with the enrichment calls; when it is rejected, nothing follows. *)
Theorem fast_run_single_call (a : GenArgs) (cid : string) (s : AppState) :
  ai cfg = true ->
  selectedConversation s = Some cid ->
  generationDepth cfg = fast ->
  exists reply elog,
    calls (snd (executeGeneration a s))
    = calls s ++ (fastRequest a (finalInputWithContextOf s a), reply) :: elog
    /\ kindOf (fastRequest a (finalInputWithContextOf s a)) = DirectCall
    /\ tools (config (fastRequest a (finalInputWithContextOf s a)))
       = (if isCodeInterpreterEnabled cfg then [ codeExecution ] else [])
         ++ (match researchMode cfg with offline => [] | _ => [ googleSearch ] end)
    /\ (forall r, reply = Resolved r ->
        conversations (snd (executeGeneration a s))
        = appendMessage cid (Some (fastMessageOf r)) (conversations s)
        /\ generationDetails (fastMessageOf r) = None
        /\ parts (fastMessageOf r) = [ TextPart (text r) ]
        /\ kindsOf elog
           = (if truthy (text r)
              then (if isLongTermMemoryEnabled cfg then [ MemoryCall ] else [])
                   ++ [ SuggestionCall ]
              else []))
    /\ (forall e, reply = Rejected e ->
        elog = []
        /\ conversations (snd (executeGeneration a s))
           = appendMessage cid (Some (errorMessage e)) (conversations s)).
Proof.
  intros Hai Hcid Hfast.
  destruct (executeGeneration_effect a cid s Hai Hcid)
    as (log & out & msg & elog & s' & Heq & [_ Hgen] & Hc & Hk & Hv & _).
  rewrite Heq. cbn [snd]. unfold GenerationRun in Hgen. rewrite Hfast in Hgen.
  assert (Htools : tools (config (fastRequest a (finalInputWithContextOf s a)))
                   = (if isCodeInterpreterEnabled cfg then [ codeExecution ] else [])
                     ++ (match researchMode cfg with
                         | offline => [] | _ => [ googleSearch ] end)).
  { cbn [fastRequest config tools]. unfold codeInterpreterTool, searchesWeb.
    now destruct (researchMode cfg). }
  destruct Hgen as [e | final].
  - exists (Rejected e), elog. cbn [finalTextOf truthy] in Hk.
    destruct elog; [| discriminate].
    split; [exact Hc |]. split; [reflexivity |]. split; [exact Htools |].
    split; [intros r Hr; discriminate |].
    intros e0 He0. injection He0 as <-. split; [reflexivity | exact Hv].
  - exists (Resolved final), elog.
    split; [exact Hc |]. split; [reflexivity |]. split; [exact Htools |].
    split; [| intros e0 He0; discriminate].
    intros r Hr. injection Hr as <-. repeat split; assumption.
Qed.

(** X4. With long-term memory disabled a run issues no memory call, leaves
    the stored memories as they were, and builds its prompts from the user
    input alone, without a memory context, whatever memories are stored. *)
Theorem memory_disabled_is_inert (a : GenArgs) (cid : string) (s : AppState) :
  ai cfg = true ->
  selectedConversation s = Some cid ->
  isLongTermMemoryEnabled cfg = false ->
  exists new,
    calls (snd (executeGeneration a s)) = calls s ++ new
    /\ countKind MemoryCall new = 0
    /\ longTermMemories (snd (executeGeneration a s)) = longTermMemories s
    /\ finalInputWithContextOf s a = userInput a.
Proof.
  intros Hai Hcid Hoff.
  destruct (executeGeneration_effect a cid s Hai Hcid)
    as (log & out & msg & elog & s' & Heq & [_ Hgen] & Hc & Hk & _ & _ & _ & _ & _ & _
        & _ & _ & Hm & _).
  rewrite Heq. cbn [snd]. exists (log ++ elog). split; [exact Hc |].
  split; [| split].
  - unfold countKind. rewrite callsOfKind_app.
    rewrite (generation_calls_kind MemoryCall log
               (GenerationRun_generation_calls _ _ _ _ _ Hgen))
      by (right; left; reflexivity).
    cbn [app]. fold (countKind MemoryCall elog).
    rewrite countKind_kindsOf, Hk, Hoff. now destruct (truthy (finalTextOf out)).
  - destruct Hm as [Hm | [rq [r [_ [_ [Hon _]]]]]]; [exact Hm | congruence].
  - unfold finalInputWithContextOf, contextPrefix. now rewrite Hoff.
Qed.

(** X5. A run keeps the memory list within its maximum: afterwards the list
    has at most 20 entries, or is the list it started from. *)
Theorem run_keeps_memory_cap (a : GenArgs) (cid : string) (s : AppState) :
  ai cfg = true ->
  selectedConversation s = Some cid ->
  length (longTermMemories (snd (executeGeneration a s))) <= MAX_MEMORIES
  \/ longTermMemories (snd (executeGeneration a s)) = longTermMemories s.
Proof.
  intros Hai Hcid.
  destruct (executeGeneration_effect a cid s Hai Hcid)
    as (log & out & msg & elog & s' & Heq & _ & _ & _ & _ & _ & _ & _ & _ & _
        & _ & _ & Hm & _).
  rewrite Heq. cbn [snd].
  destruct Hm as [Hm | [rq [r [_ [_ [_ Hm]]]]]]; [now right |].
  rewrite Hm. unfold admitExtracted.
  destruct (truthy (trim (text r)) && (10 <? String.length (trim (text r))));
    [left; apply storeMemory_length | now right].
Qed.

Lemma generateAndStoreMemory_calls (u r : string) (s : AppState) :
  exists elog s',
    generateAndStoreMemory u r s = (Normal tt, s')
    /\ calls s' = calls s ++ elog
    /\ proactiveSuggestions s' = proactiveSuggestions s
    /\ Forall (fun c : Call => kindOf (fst c) = MemoryCall) elog.
Proof.
  unfold generateAndStoreMemory. destruct (ai cfg).
  2:{ exists [], s. cbn. rewrite app_nil_r. repeat split. constructor. }
  cbn [negb]. cbv zeta. unfold tryCatch, bind, ai_generateContent, update, ret.
  match goal with
  | |- context [generateContent ?n ?rq] => destruct (generateContent n rq) as [x | e] eqn:Hg
  end; eexists [ _ ], _; (split; [reflexivity |]); cbn;
    repeat split; repeat constructor.
Qed.

Lemma generateProactiveSuggestions_outcome (u r : string) (s : AppState) :
  exists elog s',
    generateProactiveSuggestions u r s = (Normal tt, s')
    /\ calls s' = calls s ++ elog
    /\ ((elog = [] /\ proactiveSuggestions s' = proactiveSuggestions s)
        \/ exists rq reply,
             elog = [ (rq, reply) ]
             /\ kindOf rq = SuggestionCall
             /\ proactiveSuggestions s'
                = suggestionsAfter reply (proactiveSuggestions s)).
Proof.
  unfold generateProactiveSuggestions, suggestionsAfter. destruct (ai cfg).
  2:{ exists [], s. cbn. rewrite app_nil_r. repeat split. now left. }
  cbn [negb]. cbv zeta. unfold tryCatch, bind, ai_generateContent, update, ret.
  match goal with
  | |- context [generateContent ?n ?rq] => destruct (generateContent n rq) as [x | e] eqn:Hg
  end.
  - destruct (parseStringArray (text x)) as [[| x0 sugg] |] eqn:Hparse;
      cbn [length Nat.ltb Nat.leb];
      eexists [ _ ], _; (split; [reflexivity |]);
      (split; [reflexivity |]); right; eexists _, _;
      (split; [reflexivity |]); (split; [reflexivity |]);
      rewrite Hparse; reflexivity.
  - eexists [ _ ], _; (split; [reflexivity |]);
      (split; [reflexivity |]); right; eexists _, _;
      (split; [reflexivity |]); (split; reflexivity).
Qed.

(** The suggestion call of the [finally] block and what it leaves. *)
Lemma enrichment_suggestions (a : GenArgs) (finalResponseText : string) (s : AppState) :
  exists elog s',
    enrichment a finalResponseText s = (Normal tt, s')
    /\ calls s' = calls s ++ elog
    /\ (finalResponseText = ""%string -> elog = [])
    /\ ((callsOfKind SuggestionCall elog = []
         /\ proactiveSuggestions s' = proactiveSuggestions s)
        \/ exists rq reply,
             callsOfKind SuggestionCall elog = [ (rq, reply) ]
             /\ proactiveSuggestions s'
                = suggestionsAfter reply (proactiveSuggestions s)).
Proof.
  unfold enrichment.
  assert (H0 : update (setIsLoading false) s = (Normal tt, setIsLoading false s))
    by reflexivity.
  erewrite bind_Normal by exact H0. clear H0.
  destruct finalResponseText as [| ch rest]; cbn [truthy].
  { exists [], (setIsLoading false s). cbn. rewrite app_nil_r.
    split; [reflexivity |]. split; [reflexivity |]. split; [reflexivity |].
    left. split; reflexivity. }
  set (txt := String ch rest).
  assert (Hmem : exists elog s1,
             (if isLongTermMemoryEnabled cfg
              then generateAndStoreMemory (userInput a) txt
              else ret tt) (setIsLoading false s) = (Normal tt, s1)
             /\ calls s1 = calls s ++ elog
             /\ proactiveSuggestions s1 = proactiveSuggestions s
             /\ Forall (fun c : Call => kindOf (fst c) = MemoryCall) elog).
  { destruct (isLongTermMemoryEnabled cfg).
    - exact (generateAndStoreMemory_calls (userInput a) txt (setIsLoading false s)).
    - exists [], (setIsLoading false s). cbn. rewrite app_nil_r.
      repeat split. constructor. }
  destruct Hmem as (elog1 & s1 & Hm & Hc1 & Hp1 & Hk1).
  erewrite bind_Normal by exact Hm.
  destruct (generateProactiveSuggestions_outcome (userInput a) txt s1)
    as (elog2 & s2 & Hp & Hc2 & Hcases).
  exists (elog1 ++ elog2), s2. split; [exact Hp |].
  split; [rewrite Hc2, Hc1; now rewrite app_assoc |].
  split; [discriminate |].
  rewrite callsOfKind_app.
  rewrite (callsOfKind_none SuggestionCall elog1)
    by (eapply Forall_kind_other; [| exact Hk1]; discriminate).
  cbn [app]. rewrite <- Hp1.
  destruct Hcases as [[-> Hsame] | [rq [reply [-> [Hkind Hafter]]]]].
  - left. split; [reflexivity | exact Hsame].
  - right. exists rq, reply. split; [| exact Hafter].
    apply callsOfKind_all. repeat constructor. exact Hkind.
Qed.

(** X6. A run issues at most one suggestion call, and none after an error of
    its generation path.  Without a suggestion call the suggestions are left
    as they were.  With one, they are what its reply gives: after a reply
    whose payload parses to a non-empty array, the first three entries of
    that array at most, in their order; after any other reply the
    suggestions as they were. *)
Theorem run_stores_at_most_three_suggestions (a : GenArgs) (cid : string) (s : AppState) :
  ai cfg = true ->
  selectedConversation s = Some cid ->
  exists new : list Call,
    calls (snd (executeGeneration a s)) = calls s ++ new
    /\ countKind SuggestionCall new <= 1
    /\ (countKind SuggestionCall new = 0 ->
        proactiveSuggestions (snd (executeGeneration a s)) = proactiveSuggestions s)
    /\ (forall rq reply,
          In (rq, reply) new -> kindOf rq = SuggestionCall ->
          proactiveSuggestions (snd (executeGeneration a s))
          = match reply with
            | Resolved response =>
                match parseStringArray (text response) with
                | Some suggestions =>
                    if 0 <? length suggestions
                    then firstn 3 suggestions
                    else proactiveSuggestions s
                | None => proactiveSuggestions s
                end
            | Rejected _ => proactiveSuggestions s
            end)
    /\ (proactiveSuggestions (snd (executeGeneration a s)) = proactiveSuggestions s
        \/ 1 <= length (proactiveSuggestions (snd (executeGeneration a s))) <= 3)
    /\ (forall e,
          fst (generationPath a (finalInputWithContextOf s a) cid (runStart s)) = Thrown e ->
          countKind SuggestionCall new = 0
          /\ proactiveSuggestions (snd (executeGeneration a s)) = proactiveSuggestions s).
Proof.
  intros Hai Hcid. rewrite (executeGeneration_unfold a cid s Hai Hcid).
  destruct (generationPath_run a (finalInputWithContextOf s a) cid (runStart s))
    as (log & out & msg & s1 & Hpath & Hgen & Hc1 & _ & Hsame).
  rewrite Hpath. cbn [fst].
  pose proof (GenerationRun_generation_calls _ _ _ _ _ Hgen) as Hkinds.
  assert (Hnone : callsOfKind SuggestionCall log = [])
    by (apply (generation_calls_kind SuggestionCall log Hkinds); right; right; reflexivity).
  assert (Hp1 : proactiveSuggestions s1 = proactiveSuggestions s).
  { unfold sameOutsideRun in Hsame. cbn in Hsame. now destruct Hsame as (_ & _ & _ & _ & _ & _ & H & _). }
  cbn [runStart calls setLoadingTasks] in Hc1.
  assert (Hmain : forall t s0,
            calls s0 = calls s ++ log ->
            proactiveSuggestions s0 = proactiveSuggestions s ->
            (forall e, out = Thrown e -> t = ""%string) ->
            exists new : list Call,
              calls (snd (enrichment a t s0)) = calls s ++ new
              /\ countKind SuggestionCall new <= 1
              /\ (countKind SuggestionCall new = 0 ->
                  proactiveSuggestions (snd (enrichment a t s0)) = proactiveSuggestions s)
              /\ (forall rq reply,
                    In (rq, reply) new -> kindOf rq = SuggestionCall ->
                    proactiveSuggestions (snd (enrichment a t s0))
                    = suggestionsAfter reply (proactiveSuggestions s))
              /\ (proactiveSuggestions (snd (enrichment a t s0)) = proactiveSuggestions s
                  \/ 1 <= length (proactiveSuggestions (snd (enrichment a t s0))) <= 3)
              /\ (forall e, out = Thrown e ->
                    countKind SuggestionCall new = 0
                    /\ proactiveSuggestions (snd (enrichment a t s0))
                       = proactiveSuggestions s)).
  { intros t s0 Hc0 Hp0 Hempty.
    destruct (enrichment_suggestions a t s0) as (elog & s' & He & Hc & Hnil & Hcases).
    rewrite He. cbn [snd]. exists (log ++ elog).
    split; [rewrite Hc, Hc0; now rewrite app_assoc |].
    unfold countKind. rewrite callsOfKind_app, Hnone. cbn [app]. rewrite Hp0 in Hcases.
    destruct Hcases as [[Kn Hs] | [rq0 [reply0 [Kn Hs]]]]; rewrite Kn; cbn [length].
    - split; [lia |]. split; [intros _; exact Hs |].
      split.
      { intros rq reply Hin Hk. exfalso.
        assert (Hin' : In (rq, reply) (callsOfKind SuggestionCall (log ++ elog)))
          by (now apply callsOfKind_In).
        rewrite callsOfKind_app, Hnone, Kn in Hin'. exact Hin'. }
      split; [now left |]. intros e _. split; [reflexivity | exact Hs].
    - split; [lia |]. split; [discriminate |].
      split.
      { intros rq reply Hin Hk.
        assert (Hin' : In (rq, reply) (callsOfKind SuggestionCall (log ++ elog)))
          by (now apply callsOfKind_In).
        rewrite callsOfKind_app, Hnone, Kn in Hin'.
        destruct Hin' as [Heq | []]. injection Heq as -> ->. exact Hs. }
      split.
      { rewrite Hs. unfold suggestionsAfter.
        destruct reply0 as [r |]; [| now left].
        destruct (parseStringArray (text r)) as [sugg |]; [| now left].
        destruct sugg as [| x sugg]; [now left |]. right.
        cbn [length Nat.ltb Nat.leb]. rewrite length_firstn. cbn [length]. lia. }
      intros e He'. exfalso. rewrite (Hnil (Hempty e He')) in Kn. discriminate Kn. }
  unfold suggestionsAfter in Hmain.
  destruct out as [t | e].
  - apply (Hmain t s1 Hc1 Hp1). intros e H. discriminate H.
  - destruct (Hmain ""%string
                (setConversations
                   (map (fun c => if (id c =? cid)%string
                                  then mkConversation (id c) (conv_title c)
                                         (messages c ++ [ errorMessage e ])
                                  else c)) s1) Hc1 Hp1 (fun _ _ => eq_refl))
      as [new Hnew].
    exists new. exact Hnew.
Qed.

(** ** Submissions *)

(** A submission that passes the guards: the state in which the search gate
    or the generation starts. *)
Lemma handleSubmit_posted (overrideInput : option string) (cid : string)
    (conv : Conversation) (s : AppState) :
  (truthy (trim (match overrideInput with Some o => o | None => input s end)) = true
   \/ attachedFiles s <> []) ->
  ai cfg = true ->
  selectedConversation s = Some cid ->
  isLoading s = false ->
  find (fun c => (id c =? cid)%string) (conversations s) = Some conv ->
  exists mid,
    handleSubmit overrideInput s
    = (if engagesSearchGate
       then searchGate (match overrideInput with Some o => o | None => input s end) cid
              (map content (attachedFiles s)) (historyOf (messages conv))
       else executeGeneration
              {| userInput := match overrideInput with Some o => o | None => input s end;
                 attachedFileParts := map content (attachedFiles s);
                 history := historyOf (messages conv);
                 confirmedSearchQuery := None |}) mid
    /\ conversations mid
       = postedConversations cid
           (match overrideInput with Some o => o | None => input s end)
           (attachedFiles s) (length (messages conv) =? 0) (conversations s)
    /\ input mid = ""%string
    /\ attachedFiles mid = []
    /\ isLoading mid = true
    /\ proactiveSuggestions mid = []
    /\ calls mid = calls s
    /\ selectedConversation mid = Some cid
    /\ longTermMemories mid = longTermMemories s
    /\ showSearchConfirmation mid = showSearchConfirmation s
    /\ searchConfirmationData mid = searchConfirmationData s
    /\ notification mid = notification s
    /\ loadingTasks mid = loadingTasks s.
Proof.
  intros Hinput Hai Hcid Hload Hfind.
  unfold handleSubmit.
  assert (H0 : readState s = (Normal s, s)) by reflexivity.
  erewrite bind_Normal by exact H0. clear H0. cbv zeta.
  assert (Hguard : negb (truthy (trim (match overrideInput with
                                        | Some o => o | None => input s end)))
                   && (length (attachedFiles s) =? 0) = false).
  { destruct Hinput as [Ht | Hatt]; [now rewrite Ht |].
    destruct (attachedFiles s); [now contradiction Hatt | apply andb_false_r]. }
  rewrite Hguard, Hai, Hcid, Hload.
  unfold bind at 1. cbn [update]. unfold update at 1. cbv beta iota.
  rewrite Hfind.
  destruct (length (messages conv) =? 0);
    (eexists; split;
     [ unfold bind, update, ret, updateConversationMessages; reflexivity |]);
    (split;
     [ cbn; unfold postedConversations; rewrite ?map_map; apply map_ext; intros c;
       cbn; destruct (id c =? cid)%string eqn:E; cbn; rewrite ?E; reflexivity
     | cbn; repeat split; assumption ]).
Qed.

(** The search gate: its single call and the state it leaves, by reply. *)
Lemma searchGate_effect (userInput cid : string) (attachedFileParts : list Part)
    (history : list Content) (s : AppState) :
  exists reply,
    (forall r q qs,
        reply = Resolved r -> parseSearchProposal (text r) = Some (q, qs) ->
        searchGate userInput cid attachedFileParts history s
        = (Normal tt,
           setShowSearchConfirmation true
             (setSearchConfirmationData
                (Some {| originalUserInput := userInput;
                         searchQuery := q;
                         questions := qs;
                         pendingAttachedFileParts := attachedFileParts;
                         pendingHistory := history |})
                (logCall (searchRefinerRequest userInput) reply s))))
    /\ ((forall r, reply = Resolved r -> parseSearchProposal (text r) = None) ->
        searchGate userInput cid attachedFileParts history s
        = (Normal tt,
           setIsLoading false
             (setConversations
                (map (fun c => if (id c =? cid)%string
                               then mkConversation (id c) (conv_title c)
                                      (messages c ++ [ searchRefinementErrorMessage ])
                               else c))
                (logCall (searchRefinerRequest userInput) reply s))))
    /\ ((exists r q qs, reply = Resolved r /\ parseSearchProposal (text r) = Some (q, qs))
        \/ (forall r, reply = Resolved r -> parseSearchProposal (text r) = None)).
Proof.
  unfold searchGate, tryCatch, bind, ai_generateContent.
  destruct (generateContent (length (calls s)) (searchRefinerRequest userInput))
    as [r | e] eqn:Hg.
  - exists (Resolved r).
    destruct (parseSearchProposal (text r)) as [[q qs] |] eqn:Hparse.
    + split; [| split].
      * intros r0 q0 qs0 Hr Hp. injection Hr as <-. rewrite Hparse in Hp.
        injection Hp as <- <-. reflexivity.
      * intros Hnone. rewrite (Hnone r eq_refl) in Hparse. discriminate.
      * left. now exists r, q, qs.
    + split; [| split].
      * intros r0 q0 qs0 Hr Hp. injection Hr as <-. rewrite Hparse in Hp. discriminate.
      * intros _. reflexivity.
      * right. intros r0 Hr. now injection Hr as <-.
  - exists (Rejected e). split; [| split].
    + intros r0 q0 qs0 Hr. discriminate.
    + intros _. reflexivity.
    + right. intros r0 Hr. discriminate.
Qed.

(** What a submission that passes the guards does. *)
Lemma handleSubmit_effect (overrideInput : option string) (cid : string)
    (conv : Conversation) (s : AppState) :
  (truthy (trim (match overrideInput with Some o => o | None => input s end)) = true
   \/ attachedFiles s <> []) ->
  ai cfg = true ->
  selectedConversation s = Some cid ->
  isLoading s = false ->
  find (fun c => (id c =? cid)%string) (conversations s) = Some conv ->
  exists (answer : option Message),
    conversations (snd (handleSubmit overrideInput s))
    = appendMessage cid answer
        (postedConversations cid
           (match overrideInput with Some o => o | None => input s end)
           (attachedFiles s) (length (messages conv) =? 0) (conversations s))
    /\ input (snd (handleSubmit overrideInput s)) = ""%string
    /\ attachedFiles (snd (handleSubmit overrideInput s)) = []
    /\ ((answer = None
         /\ engagesSearchGate = true
         /\ isLoading (snd (handleSubmit overrideInput s)) = true
         /\ showSearchConfirmation (snd (handleSubmit overrideInput s)) = true
         /\ exists data,
              searchConfirmationData (snd (handleSubmit overrideInput s)) = Some data
              /\ originalUserInput data
                 = match overrideInput with Some o => o | None => input s end
              /\ pendingHistory data = historyOf (messages conv))
        \/ (exists m, answer = Some m
                      /\ role m = model
                      /\ isLoading (snd (handleSubmit overrideInput s)) = false
                      /\ showSearchConfirmation (snd (handleSubmit overrideInput s))
                         = showSearchConfirmation s
                      /\ searchConfirmationData (snd (handleSubmit overrideInput s))
                         = searchConfirmationData s)).
Proof.
  intros Hinput Hai Hcid Hload Hfind.
  destruct (handleSubmit_posted overrideInput cid conv s Hinput Hai Hcid Hload Hfind)
    as (mid & Heq & Hconv & Hin & Hatt & Hld & _ & _ & Hmcid & _ & Hssc & Hscd & _).
  rewrite Heq. clear Heq.
  set (u := match overrideInput with Some o => o | None => input s end) in *.
  destruct engagesSearchGate eqn:Hgate.
  - destruct (searchGate_effect u cid (map content (attachedFiles s))
                (historyOf (messages conv)) mid) as [reply [Hok [Hfail Hcases]]].
    destruct Hcases as [[r [q [qs [Hr Hp]]]] | Hnone].
    + rewrite (Hok r q qs Hr Hp). cbn [snd]. exists None. cbn.
      split; [exact Hconv |]. split; [exact Hin |]. split; [exact Hatt |].
      left. repeat split; try assumption. eexists. repeat split.
    + rewrite (Hfail Hnone). cbn [snd]. exists (Some searchRefinementErrorMessage). cbn.
      split; [now rewrite Hconv |]. split; [exact Hin |]. split; [exact Hatt |].
      right. exists searchRefinementErrorMessage. repeat split; assumption.
  - match goal with
    | |- context [executeGeneration ?args mid] =>
        destruct (executeGeneration_appends args cid mid Hai Hmcid)
          as [_ [m [Hv [Hrole [Hl [Hi [Ha [Hs Hd]]]]]]]]
    end.
    exists (Some m). split; [now rewrite Hv, Hconv |].
    split; [congruence |]. split; [congruence |].
    right. exists m. repeat split; congruence.
Qed.

(** X7. A submission that passes the guards posts the user message (the
    override when there is one, else the typed input, with the attachment
    parts) at the end of the selected conversation, clears the input and
    the attachments, and then ends in one of two ways: waiting for the
    confirmation of a search proposal, still loading and with no message
    added; or with exactly one message of role model after the user
    message, the loading flag down and the confirmation state untouched. *)
Theorem submission_outcome (overrideInput : option string) (cid : string)
    (conv : Conversation) (s : AppState) :
  (truthy (trim (match overrideInput with Some o => o | None => input s end)) = true
   \/ attachedFiles s <> []) ->
  ai cfg = true ->
  selectedConversation s = Some cid ->
  isLoading s = false ->
  find (fun c => (id c =? cid)%string) (conversations s) = Some conv ->
  exists (answer : option Message),
    conversations (snd (handleSubmit overrideInput s))
    = appendMessage cid answer
        (postedConversations cid
           (match overrideInput with Some o => o | None => input s end)
           (attachedFiles s) (length (messages conv) =? 0) (conversations s))
    /\ input (snd (handleSubmit overrideInput s)) = ""%string
    /\ attachedFiles (snd (handleSubmit overrideInput s)) = []
    /\ ((answer = None
         /\ engagesSearchGate = true
         /\ isLoading (snd (handleSubmit overrideInput s)) = true
         /\ showSearchConfirmation (snd (handleSubmit overrideInput s)) = true
         /\ exists data,
              searchConfirmationData (snd (handleSubmit overrideInput s)) = Some data
              /\ originalUserInput data
                 = match overrideInput with Some o => o | None => input s end
              /\ pendingHistory data = historyOf (messages conv))
        \/ (exists m, answer = Some m
                      /\ role m = model
                      /\ isLoading (snd (handleSubmit overrideInput s)) = false
                      /\ showSearchConfirmation (snd (handleSubmit overrideInput s))
                         = showSearchConfirmation s
                      /\ searchConfirmationData (snd (handleSubmit overrideInput s))
                         = searchConfirmationData s)).
Proof. exact (handleSubmit_effect overrideInput cid conv s). Qed.

Lemma substring0_length (n : nat) (str : string) :
  String.length (substring0 n str) = Nat.min n (String.length str).
Proof.
  revert str. induction n as [| n IH]; intros str; [reflexivity |].
  destruct str as [| c rest]; [reflexivity |]. cbn. now rewrite IH.
Qed.

Lemma substring0_all (n : nat) (str : string) :
  String.length str <= n -> substring0 n str = str.
Proof.
  revert str. induction n as [| n IH]; intros str Hlen.
  - destruct str; [reflexivity | cbn in Hlen; lia].
  - destruct str as [| c rest]; [reflexivity |]. cbn in *. rewrite IH; [reflexivity | lia].
Qed.

Lemma string_length_append (s1 s2 : string) :
  String.length (s1 ++ s2) = String.length s1 + String.length s2.
Proof. induction s1 as [| c rest IH]; cbn; [reflexivity | now rewrite IH]. Qed.

Lemma string_append_empty (str : string) : (str ++ "")%string = str.
Proof. induction str as [| c rest IH]; cbn; [reflexivity | now rewrite IH]. Qed.

Lemma conv_title_appendMessage (cid : string) (answer : option Message)
    (convs : list Conversation) :
  map conv_title (appendMessage cid answer convs) = map conv_title convs.
Proof.
  destruct answer as [m |]; [| reflexivity]. cbn. rewrite map_map. apply map_ext.
  intros c. now destruct (id c =? cid)%string.
Qed.

(** X8. The first message of a conversation gives it its title: the trimmed
    input when that has at most 40 characters, else its first 40 characters
    followed by three dots, so never more than 43 characters.  A submission
    to a conversation that already has messages changes no title, and no
    submission changes the title of another conversation. *)
Theorem submission_titles_first_message (overrideInput : option string) (cid : string)
    (conv : Conversation) (s : AppState) :
  (truthy (trim (match overrideInput with Some o => o | None => input s end)) = true
   \/ attachedFiles s <> []) ->
  ai cfg = true ->
  selectedConversation s = Some cid ->
  isLoading s = false ->
  find (fun c => (id c =? cid)%string) (conversations s) = Some conv ->
  map conv_title (conversations (snd (handleSubmit overrideInput s)))
  = map (fun c =>
           if (id c =? cid)%string && (length (messages conv) =? 0)
           then titleOf (match overrideInput with Some o => o | None => input s end)
           else conv_title c)
        (conversations s)
  /\ String.length (titleOf (match overrideInput with Some o => o | None => input s end))
     <= 43
  /\ (String.length (trim (match overrideInput with Some o => o | None => input s end))
      <= 40 ->
      titleOf (match overrideInput with Some o => o | None => input s end)
      = trim (match overrideInput with Some o => o | None => input s end)).
Proof.
  intros Hinput Hai Hcid Hload Hfind.
  destruct (handleSubmit_effect overrideInput cid conv s Hinput Hai Hcid Hload Hfind)
    as [answer [Hconv _]].
  rewrite Hconv, conv_title_appendMessage. clear Hconv.
  set (u := match overrideInput with Some o => o | None => input s end).
  split; [| split].
  - unfold postedConversations. rewrite map_map. apply map_ext. intros c.
    destruct (id c =? cid)%string; [| reflexivity].
    now destruct (length (messages conv) =? 0).
  - unfold titleOf. rewrite string_length_append, substring0_length.
    destruct (40 <? String.length (trim u)); cbn [String.length]; lia.
  - intros Hshort. unfold titleOf.
    assert (H : (40 <? String.length (trim u)) = false) by (apply Nat.ltb_ge; exact Hshort).
    rewrite H, string_append_empty. now apply substring0_all.
Qed.

(** X9. A submission that does not pass the guards posts nothing and calls
    nothing.  With a blank input and no attachment it only raises the
    notification asking for a message.  Otherwise, while a run is loading,
    or without a client or a selected conversation, it leaves the state
    exactly as it was. *)
Theorem rejected_submission_is_inert (overrideInput : option string) (s : AppState) :
  (truthy (trim (match overrideInput with Some o => o | None => input s end)) = false ->
   attachedFiles s = [] ->
   handleSubmit overrideInput s
   = (Normal tt,
      setNotification
        (Some (mkNotification "Por favor, insira uma mensagem ou anexe um arquivo." true))
        s))
  /\ ((truthy (trim (match overrideInput with Some o => o | None => input s end)) = true
       \/ attachedFiles s <> []) ->
      (isLoading s = true \/ ai cfg = false \/ selectedConversation s = None) ->
      handleSubmit overrideInput s = (Normal tt, s)).
Proof.
  split.
  - intros Hblank Hnone. unfold handleSubmit, bind, readState. cbv beta iota zeta.
    now rewrite Hblank, Hnone.
  - intros Hinput Hbusy. unfold handleSubmit, bind, readState. cbv beta iota zeta.
    assert (Hguard : negb (truthy (trim (match overrideInput with
                                          | Some o => o | None => input s end)))
                     && (length (attachedFiles s) =? 0) = false).
    { destruct Hinput as [Ht | Hatt]; [now rewrite Ht |].
      destruct (attachedFiles s); [now contradiction Hatt | apply andb_false_r]. }
    rewrite Hguard.
    destruct Hbusy as [Hb | [Hb | Hb]]; rewrite Hb;
      repeat match goal with
             | |- context [match ?x with _ => _ end] => destruct x
             end; reflexivity.
Qed.

(** X10. In web mode with a depth other than fast, a search proposal that is
    rejected, or whose payload does not parse, ends the submission at once:
    the proposal call is the only call, the conversation receives the user
    message followed by the fixed error message of the search refinement,
    the loading flag goes down and no confirmation is put up. *)
Theorem failed_search_proposal_aborts (overrideInput : option string) (cid : string)
    (conv : Conversation) (s : AppState) :
  (truthy (trim (match overrideInput with Some o => o | None => input s end)) = true
   \/ attachedFiles s <> []) ->
  ai cfg = true ->
  selectedConversation s = Some cid ->
  isLoading s = false ->
  find (fun c => (id c =? cid)%string) (conversations s) = Some conv ->
  researchMode cfg = web ->
  generationDepth cfg <> fast ->
  exists reply,
    calls (snd (handleSubmit overrideInput s))
    = calls s
      ++ [ (searchRefinerRequest
              (match overrideInput with Some o => o | None => input s end), reply) ]
    /\ ((forall r, reply = Resolved r -> parseSearchProposal (text r) = None) ->
        conversations (snd (handleSubmit overrideInput s))
        = appendMessage cid (Some searchRefinementErrorMessage)
            (postedConversations cid
               (match overrideInput with Some o => o | None => input s end)
               (attachedFiles s) (length (messages conv) =? 0) (conversations s))
        /\ isError searchRefinementErrorMessage = true
        /\ isLoading (snd (handleSubmit overrideInput s)) = false
        /\ showSearchConfirmation (snd (handleSubmit overrideInput s))
           = showSearchConfirmation s
        /\ searchConfirmationData (snd (handleSubmit overrideInput s))
           = searchConfirmationData s).
Proof.
  intros Hinput Hai Hcid Hload Hfind Hweb Hdepth.
  destruct (handleSubmit_posted overrideInput cid conv s Hinput Hai Hcid Hload Hfind)
    as (mid & Heq & Hconv & _ & _ & _ & _ & Hcalls & _ & _ & Hssc & Hscd & _).
  rewrite Heq. clear Heq.
  rewrite (proj2 engagesSearchGate_iff (conj Hweb Hdepth)).
  set (u := match overrideInput with Some o => o | None => input s end) in *.
  destruct (searchGate_effect u cid (map content (attachedFiles s))
              (historyOf (messages conv)) mid) as [reply [Hok [Hfail Hcases]]].
  exists reply. split.
  - destruct Hcases as [[r [q [qs [Hr Hp]]]] | Hnone].
    + rewrite (Hok r q qs Hr Hp). cbn. now rewrite Hcalls.
    + rewrite (Hfail Hnone). cbn. now rewrite Hcalls.
  - intros Hnone. rewrite (Hfail Hnone). cbn.
    rewrite Hconv. repeat split; assumption.
Qed.

(** X11. Confirming a search proposal.  A blank edited query does nothing,
    and so does a confirmation without a pending proposal.  Otherwise the
    confirmation is taken down and its data cleared, and the run starts on
    the pending input, attachments and history; when the mode searches the
    web and the depth is not fast, its first call is the web search on the
    trimmed edited query, and the run appends one message of role model. *)
Theorem confirmed_query_drives_the_search (editedQuery : string) (cid : string)
    (data : SearchConfirmationData) (s : AppState) :
  (truthy (trim editedQuery) = false -> handleConfirm editedQuery s = (Normal tt, s))
  /\ (forall q, searchConfirmationData s = None ->
                handleSearchConfirmation q s = (Normal tt, s))
  /\ (truthy (trim editedQuery) = true ->
      searchConfirmationData s = Some data ->
      ai cfg = true ->
      selectedConversation s = Some cid ->
      showSearchConfirmation (snd (handleConfirm editedQuery s)) = false
      /\ searchConfirmationData (snd (handleConfirm editedQuery s)) = None
      /\ (exists m,
             conversations (snd (handleConfirm editedQuery s))
             = appendMessage cid (Some m) (conversations s)
             /\ role m = model)
      /\ (searchesWeb = true -> generationDepth cfg <> fast ->
          exists reply rest,
            calls (snd (handleConfirm editedQuery s))
            = calls s ++ (searchRequest (trim editedQuery), reply) :: rest)).
Proof.
  split; [| split].
  - intros Hblank. unfold handleConfirm. now rewrite Hblank.
  - intros q Hnone. unfold handleSearchConfirmation, bind, readState. cbv beta iota.
    now rewrite Hnone.
  - intros Hq Hdata Hai Hcid. unfold handleConfirm. rewrite Hq.
    unfold handleSearchConfirmation.
    assert (H0 : readState s = (Normal s, s)) by reflexivity.
    erewrite bind_Normal by exact H0. clear H0. rewrite Hdata.
    set (args := {| userInput := originalUserInput data;
                    attachedFileParts := pendingAttachedFileParts data;
                    history := pendingHistory data;
                    confirmedSearchQuery := Some (trim editedQuery) |}).
    set (s0 := setShowSearchConfirmation false s).
    assert (H0 : update (setShowSearchConfirmation false) s = (Normal tt, s0))
      by reflexivity.
    erewrite bind_Normal by exact H0. clear H0.
    assert (Hcid0 : selectedConversation s0 = Some cid) by exact Hcid.
    destruct (executeGeneration_effect args cid s0 Hai Hcid0)
      as (log & out & msg & elog & s' & Heq & [_ Hgen] & Hc & _ & Hv & _ & _ & _ & _ & _
          & Hs & _).
    erewrite bind_Normal by exact Heq. cbn [update snd].
    cbn [showSearchConfirmation searchConfirmationData conversations calls
         setSearchConfirmationData].
    split; [exact Hs |]. split; [reflexivity |]. split.
    + destruct out as [t | e].
      * destruct (GenerationRun_Normal _ _ _ _ _ Hgen) as [m [-> [Hr _]]].
        exists m. split; [exact Hv | exact Hr].
      * exists (errorMessage e). split; [exact Hv | reflexivity].
    + intros Hweb Hdepth.
      assert (Hmulti : MultiAgentRun args (finalInputWithContextOf s0 args) log out msg).
      { unfold GenerationRun in Hgen. destruct (generationDepth cfg);
          [now contradiction Hdepth | exact Hgen ..]. }
      destruct (MultiAgentRun_starts_with_search _ _ _ _ _ Hweb Hmulti)
        as [reply [rest Hlog]].
      exists reply, (rest ++ elog). rewrite Hc, Hlog.
      unfold queryForSearch. cbn [confirmedSearchQuery args]. now rewrite Hq.
Qed.

(** ** The stage list during a run *)

Lemma mapi_from_compose {A : Type} (f g : A -> nat -> A) (xs : list A) :
  forall k, mapi_from f k (mapi_from g k xs) = mapi_from (fun x i => f (g x i) i) k xs.
Proof.
  induction xs as [| x rest IH]; intros k; cbn; [reflexivity | now rewrite IH].
Qed.

Lemma mapi_from_ext {A B : Type} (f g : A -> nat -> B) (xs : list A) :
  (forall x i, f x i = g x i) -> forall k, mapi_from f k xs = mapi_from g k xs.
Proof.
  intros H. induction xs as [| x rest IH]; intros k; cbn; [reflexivity |].
  now rewrite H, IH.
Qed.

Lemma updateTaskStatus_twice (i j : nat) (st st' : TaskStatus) (tasks : list LoadingTask) :
  updateTaskStatus j st' (updateTaskStatus i st tasks) = updateTaskStatus j st' tasks.
Proof.
  unfold updateTaskStatus, mapi.
  rewrite mapi_from_compose. apply mapi_from_ext. intros x k.
  destruct (k <? j), (k =? j), (k <? i), (k =? i); reflexivity.
Qed.

Lemma updateTaskStatus_stagesOf (i : nat) (st : TaskStatus) (tasks : list LoadingTask) :
  stagesOf (updateTaskStatus i st tasks) = stagesOf tasks.
Proof.
  unfold updateTaskStatus, mapi, stagesOf. generalize 0.
  induction tasks as [| t rest IH]; intros k; cbn [map mapi_from]; [reflexivity |].
  rewrite IH. f_equal. destruct (k <? i); [reflexivity |]. now destruct (k =? i).
Qed.

(** X12. An update of the stage list overrides every status: the list after
    two updates is the list after the second one alone, whatever the first
    was, so a stage can be set back as well as forward.  An update keeps
    the stages themselves, their number and their order. *)
Theorem updateTaskStatus_last_update_wins :
  forall (i j : nat) (st st' : TaskStatus) (tasks : list LoadingTask),
    updateTaskStatus j st' (updateTaskStatus i st tasks) = updateTaskStatus j st' tasks
    /\ stagesOf (updateTaskStatus i st tasks) = stagesOf tasks
    /\ length (updateTaskStatus i st tasks) = length tasks.
Proof.
  intros i j st st' tasks. split; [| split].
  - apply updateTaskStatus_twice.
  - apply updateTaskStatus_stagesOf.
  - unfold updateTaskStatus, mapi. apply length_mapi_from.
Qed.

Lemma updateTaskStatus_same_stages (i : nat) (st : TaskStatus) (xs ys : list LoadingTask) :
  stagesOf xs = stagesOf ys -> updateTaskStatus i st xs = updateTaskStatus i st ys.
Proof.
  unfold updateTaskStatus, mapi, stagesOf. generalize 0. revert ys.
  induction xs as [| x rest IH]; intros ys k H; destruct ys as [| y ys]; try discriminate;
    [reflexivity |].
  cbn in *. injection H as Hn Hi Hrest. rewrite (IH ys (S k) Hrest). f_equal.
  unfold withStatus. now rewrite Hn, Hi.
Qed.

Lemma updateTaskStatus_last_index (tasks : list LoadingTask) :
  updateTaskStatus (length tasks - 1) completed tasks = map (withStatus completed) tasks.
Proof.
  unfold updateTaskStatus, mapi.
  assert (H : forall k (xs : list LoadingTask) n, k + length xs <= S n ->
            mapi_from (fun task i => if i <? n then withStatus completed task
                                     else if i =? n then withStatus completed task
                                     else withStatus pending task) k xs
            = map (withStatus completed) xs).
  { intros k xs. revert k. induction xs as [| x rest IH]; intros k n Hle; [reflexivity |].
    cbn [map mapi_from length] in *. rewrite (IH (S k) n) by lia. f_equal.
    destruct (k <? n) eqn:E1; [reflexivity |].
    destruct (k =? n) eqn:E2; [reflexivity |].
    apply Nat.ltb_ge in E1. apply Nat.eqb_neq in E2. lia. }
  apply H. lia.
Qed.

Lemma bind_Normal_inv {A B : Type} (m : Async A) (k : A -> Async B) (s s' : AppState)
    (b : B) :
  bind m k s = (Normal b, s') ->
  exists x s1, m s = (Normal x, s1) /\ k x s1 = (Normal b, s').
Proof.
  unfold bind. destruct (m s) as [[x | e] s1]; [| discriminate].
  intros H. now exists x, s1.
Qed.

Lemma runTask_Normal_inv {T : Type} (taskFn : Async T) (idx : nat) (s s' : AppState)
    (x : T) :
  runTask taskFn idx s = (Normal x, s') ->
  exists s1,
    taskFn (setLoadingTasks (updateTaskStatus idx active) s) = (Normal x, s1)
    /\ s' = setLoadingTasks (updateTaskStatus idx completed) s1.
Proof.
  unfold runTask, bind, update, ret.
  destruct (taskFn (setLoadingTasks (updateTaskStatus idx active) s)) as [[y | e] s1];
    [| discriminate].
  intros H. injection H as <- <-. now exists s1.
Qed.

Lemma ai_generateContent_tasks (rq : Request) (s s' : AppState) (out : Completion Response) :
  ai_generateContent rq s = (out, s') -> loadingTasks s' = loadingTasks s.
Proof.
  destruct (ai_generateContent_run rq s) as [[r H] | [e H]]; rewrite H;
    intros Heq; injection Heq as _ <-; reflexivity.
Qed.

Lemma Promise_all_tasks (rqs : list Request) (s s' : AppState)
    (out : Completion (list Response)) :
  Promise_all rqs s = (out, s') -> loadingTasks s' = loadingTasks s.
Proof.
  destruct (Promise_all_run rqs s) as [[rs [H _]] | [rps [e [H _]]]]; rewrite H;
    intros Heq; injection Heq as _ <-; reflexivity.
Qed.

(** A stage wrapped in [runTask] that resolved leaves the stages of the list
    as they were when the task itself does not touch the list. *)
Lemma runTask_stages {T : Type} (taskFn : Async T) (idx : nat) (s s' : AppState) (x : T) :
  (forall s0 out s1, taskFn s0 = (out, s1) -> loadingTasks s1 = loadingTasks s0) ->
  runTask taskFn idx s = (Normal x, s') ->
  stagesOf (loadingTasks s') = stagesOf (loadingTasks s).
Proof.
  intros Hkeep H. apply runTask_Normal_inv in H. destruct H as [s1 [Ht ->]].
  apply Hkeep in Ht. cbn [loadingTasks setLoadingTasks] in *. rewrite Ht.
  rewrite updateTaskStatus_stagesOf. apply updateTaskStatus_stagesOf.
Qed.

Lemma webSearchStage_value (a : GenArgs) (fic : string) (idx idx' : nat) (s s' : AppState)
    (wc : string) (src : list WebSource) :
  webSearchStage a fic idx s = (Normal (wc, src, idx'), s') ->
  idx' = idx + (if searchesWeb then 1 else 0)
  /\ stagesOf (loadingTasks s') = stagesOf (loadingTasks s).
Proof.
  unfold webSearchStage. destruct searchesWeb.
  - intros H. apply bind_Normal_inv in H. destruct H as [r [s1 [Hr Hret]]].
    injection Hret as _ _ <- <-. split; [lia |].
    eapply runTask_stages; [| exact Hr].
    intros s0 out s2. apply ai_generateContent_tasks.
  - intros H. injection H as _ _ <- <-. split; [lia | reflexivity].
Qed.

Lemma selfCorrection_value (a : GenArgs) (prompt synthContent : Content)
    (final r : Response) (idx idx' : nat) (s s' : AppState) :
  selfCorrection a prompt synthContent final idx s = (Normal (r, idx'), s') ->
  idx' = idx + (if isSelfCorrectionEnabled cfg then 1 else 0)
  /\ stagesOf (loadingTasks s') = stagesOf (loadingTasks s).
Proof.
  unfold selfCorrection. destruct (isSelfCorrectionEnabled cfg).
  - intros H. apply bind_Normal_inv in H. destruct H as [c [s1 [Hc Hrest]]].
    assert (Hst : stagesOf (loadingTasks s1) = stagesOf (loadingTasks s)).
    { eapply runTask_stages; [| exact Hc].
      intros s0 out s2. apply ai_generateContent_tasks. }
    destruct (negb (saysPerfect (text c))).
    + apply bind_Normal_inv in Hrest. destruct Hrest as [r2 [s2 [Hr2 Hret]]].
      injection Hret as _ <- <-. split; [lia |].
      apply ai_generateContent_tasks in Hr2. now rewrite Hr2.
    + injection Hrest as _ <- <-. split; [lia | exact Hst].
  - intros H. injection H as _ <- <-. split; [lia | reflexivity].
Qed.

(** The stage list after a multi-agent generation that completed. *)
Lemma multiAgentGeneration_tasks (a : GenArgs) (fic cid t : string) (s s' : AppState) :
  multiAgentGeneration a fic cid s = (Normal t, s') ->
  loadingTasks s'
  = updateTaskStatus
      (3 + (if searchesWeb then 1 else 0) + (if isSelfCorrectionEnabled cfg then 1 else 0))
      completed (loadingTasks s).
Proof.
  unfold multiAgentGeneration. cbv zeta. intros H.
  apply bind_Normal_inv in H. destruct H as [[] [s0 [H0 H]]].
  assert (K0 : stagesOf (loadingTasks s0) = stagesOf (loadingTasks s)).
  { eapply runTask_stages; [| exact H0]. intros x out y Hret. now injection Hret as _ <-. }
  apply bind_Normal_inv in H. destruct H as [[[wc src] idx] [s1 [H1 H]]].
  apply webSearchStage_value in H1. destruct H1 as [Hidx K1].
  apply bind_Normal_inv in H. destruct H as [inits [s2 [H2 H]]].
  assert (K2 : stagesOf (loadingTasks s2) = stagesOf (loadingTasks s1)).
  { eapply runTask_stages; [| exact H2]. intros x out y. apply Promise_all_tasks. }
  apply bind_Normal_inv in H. destruct H as [refs [s3 [H3 H]]].
  assert (K3 : stagesOf (loadingTasks s3) = stagesOf (loadingTasks s2)).
  { eapply runTask_stages; [| exact H3]. intros x out y. apply Promise_all_tasks. }
  apply bind_Normal_inv in H. destruct H as [final [s4 [H4 H]]].
  assert (K4 : stagesOf (loadingTasks s4) = stagesOf (loadingTasks s3)).
  { eapply runTask_stages; [| exact H4]. intros x out y. apply ai_generateContent_tasks. }
  apply bind_Normal_inv in H. destruct H as [[final' idx'] [s5 [H5 H]]].
  apply selfCorrection_value in H5. destruct H5 as [Hidx' K5].
  unfold bind, update, updateConversationMessages, ret in H. cbv beta iota in H.
  injection H as _ <-. cbn [loadingTasks setConversations setLoadingTasks].
  subst idx' idx.
  replace (S (S (1 + (if searchesWeb then 1 else 0)))
           + (if isSelfCorrectionEnabled cfg then 1 else 0))
    with (3 + (if searchesWeb then 1 else 0)
          + (if isSelfCorrectionEnabled cfg then 1 else 0)) by lia.
  apply updateTaskStatus_same_stages. congruence.
Qed.

Lemma fastGeneration_tasks (a : GenArgs) (fic cid t : string) (s s' : AppState) :
  fastGeneration a fic cid s = (Normal t, s') ->
  loadingTasks s' = updateTaskStatus 0 completed (loadingTasks s).
Proof.
  unfold fastGeneration. intros H.
  apply bind_Normal_inv in H. destruct H as [[] [s0 [H0 H]]].
  injection H0 as <-.
  apply bind_Normal_inv in H. destruct H as [r [s1 [H1 H]]].
  apply ai_generateContent_tasks in H1.
  unfold bind, update, updateConversationMessages, ret in H. cbv beta iota zeta in H.
  injection H as _ <-. cbn [loadingTasks setConversations setLoadingTasks] in *.
  rewrite H1. apply updateTaskStatus_twice.
Qed.

Lemma length_tasksForRun :
  length (tasksForRun (generationDepth cfg) (researchMode cfg) (isSelfCorrectionEnabled cfg))
  = match generationDepth cfg with
    | fast => 1
    | _ => 4 + (if searchesWeb then 1 else 0)
             + (if isSelfCorrectionEnabled cfg then 1 else 0)
    end.
Proof.
  unfold searchesWeb.
  destruct (generationDepth cfg), (researchMode cfg), (isSelfCorrectionEnabled cfg);
    reflexivity.
Qed.

Lemma completedCount_all_completed (tasks : list LoadingTask) :
  completedCount (map (withStatus completed) tasks)
  = length (map (withStatus completed) tasks).
Proof.
  unfold completedCount. induction tasks as [| x rest IH]; [reflexivity |].
  cbn [map filter]. change (TaskStatus_eqb (status (withStatus completed x)) completed)
    with true. cbn [length]. now rewrite IH.
Qed.

(** X13. When the generation path of a run completes, at any depth and in
    any mode, the stage list it leaves is the list built for the run with
    every stage completed: no stage is left pending or active, none is
    added, dropped or reordered. *)
Theorem successful_run_completes_every_stage (a : GenArgs) (cid t : string)
    (s : AppState) :
  ai cfg = true ->
  selectedConversation s = Some cid ->
  fst (generationPath a (finalInputWithContextOf s a) cid (runStart s)) = Normal t ->
  loadingTasks (snd (executeGeneration a s))
  = map (withStatus completed)
      (tasksForRun (generationDepth cfg) (researchMode cfg) (isSelfCorrectionEnabled cfg))
  /\ Forall (fun task => status task = completed)
       (loadingTasks (snd (executeGeneration a s)))
  /\ completedCount (loadingTasks (snd (executeGeneration a s)))
     = length (loadingTasks (snd (executeGeneration a s))).
Proof.
  intros Hai Hcid Hnormal.
  assert (Hmain : loadingTasks (snd (executeGeneration a s))
                  = map (withStatus completed)
                      (tasksForRun (generationDepth cfg) (researchMode cfg)
                         (isSelfCorrectionEnabled cfg))).
  { rewrite (executeGeneration_unfold a cid s Hai Hcid).
    destruct (generationPath a (finalInputWithContextOf s a) cid (runStart s))
      as [out s1] eqn:Hp.
    cbn [fst] in Hnormal. subst out.
    destruct (enrichment_effect a t s1) as (elog & s' & He & _ & _ & _ & _ & Ht & _).
    rewrite He. cbn [snd]. rewrite Ht.
    rewrite <- updateTaskStatus_last_index.
    unfold generationPath in Hp. pose proof length_tasksForRun as Hlen.
    unfold runStart in Hp.
    destruct (generationDepth cfg).
    - apply fastGeneration_tasks in Hp. rewrite Hp, Hlen. reflexivity.
    - apply multiAgentGeneration_tasks in Hp. rewrite Hp, Hlen.
      cbn [loadingTasks setLoadingTasks]. f_equal; lia.
    - apply multiAgentGeneration_tasks in Hp. rewrite Hp, Hlen.
      cbn [loadingTasks setLoadingTasks]. f_equal; lia. }
  rewrite Hmain. split; [reflexivity |]. split.
  - apply Forall_map. apply Forall_forall. reflexivity.
  - apply completedCount_all_completed.
Qed.

(** ** The progress bar while a run advances *)

Lemma completedCount_mapi_from (i : nat) (st : TaskStatus) (xs : list LoadingTask) :
  forall k,
    completedCount
      (mapi_from (fun task j => if j <? i then withStatus completed task
                                else if j =? i then withStatus st task
                                else withStatus pending task) k xs)
    = (Nat.min i (k + length xs) - k)
      + (if TaskStatus_eqb st completed && (k <=? i) && (i <? k + length xs)
         then 1 else 0).
Proof.
  unfold completedCount.
  induction xs as [| x rest IH]; intros k.
  - cbn [mapi_from filter length].
    destruct (TaskStatus_eqb st completed); cbn [andb];
      destruct (Nat.leb_spec k i), (Nat.ltb_spec i (k + 0)); cbn [andb]; lia.
  - cbn [mapi_from filter length]. specialize (IH (S k)).
    destruct (Nat.ltb_spec k i) as [Hlt | Hge].
    + cbn [withStatus status TaskStatus_eqb length]. rewrite IH.
      destruct (TaskStatus_eqb st completed); cbn [andb];
        destruct (Nat.leb_spec (S k) i), (Nat.leb_spec k i),
                 (Nat.ltb_spec i (S k + length rest)),
                 (Nat.ltb_spec i (k + S (length rest))); cbn [andb]; lia.
    + destruct (Nat.eqb_spec k i) as [-> | Hne].
      * cbn [withStatus status].
        destruct st; cbn [TaskStatus_eqb length andb]; rewrite IH; cbn [andb];
          destruct (Nat.leb_spec (S i) i), (Nat.leb_spec i i),
                   (Nat.ltb_spec i (S i + length rest)),
                   (Nat.ltb_spec i (i + S (length rest)));
          cbn [TaskStatus_eqb andb]; lia.
      * cbn [withStatus status TaskStatus_eqb]. rewrite IH.
        destruct (TaskStatus_eqb st completed); cbn [andb];
          destruct (Nat.leb_spec (S k) i), (Nat.leb_spec k i),
                   (Nat.ltb_spec i (S k + length rest)),
                   (Nat.ltb_spec i (k + S (length rest))); cbn [andb]; lia.
Qed.

Lemma completedCount_updateTaskStatus (i : nat) (st : TaskStatus) (tasks : list LoadingTask) :
  i < length tasks ->
  completedCount (updateTaskStatus i st tasks)
  = i + (if TaskStatus_eqb st completed then 1 else 0).
Proof.
  intros Hi. unfold updateTaskStatus, mapi. rewrite completedCount_mapi_from.
  cbn [Nat.add]. rewrite Nat.min_l, Nat.sub_0_r by lia. f_equal.
  destruct (TaskStatus_eqb st completed); [| reflexivity]. cbn [andb].
  destruct (Nat.ltb_spec i (length tasks)); [reflexivity | lia].
Qed.

(** X14. The progress value of a balanced or deep run, in the binary64
    arithmetic of the code.  While stage [i] of the [n] stages of the run is
    the active one, [i] stages count as completed and the value is
    [i / (n - 1) * 100]: zero at the first stage, growing with [i], and one
    hundred as soon as the last stage becomes active.  Once the last stage
    is completed as well the value is above one hundred. *)
Theorem progress_while_run_advances (depth : GenerationDepth) (mode : ResearchMode)
    (selfCorrection : bool) (i : nat) :
  depth <> fast ->
  i < length (tasksForRun depth mode selfCorrection) ->
  let tasks := tasksForRun depth mode selfCorrection in
  completedCount (advance i tasks) = i
  /\ progressPercentage (advance i tasks)
     = Finite (js_ofNat i / js_ofNat (length tasks - 1) * 100)%float
  /\ progressPercentage (advance 0 tasks) = Finite 0
  /\ progressPercentage (advance (length tasks - 1) tasks) = Finite 100
  /\ (forall j f g,
        i < j -> j < length tasks ->
        progressPercentage (advance i tasks) = Finite f ->
        progressPercentage (advance j tasks) = Finite g ->
        (f <? g)%float = true)
  /\ exists f,
       progressPercentage (updateTaskStatus (length tasks - 1) completed tasks) = Finite f
       /\ (100 <? f)%float = true.
Proof.
  intros Hdepth Hi tasks.
  split.
  { unfold advance. rewrite completedCount_updateTaskStatus by exact Hi.
    cbn [TaskStatus_eqb]. lia. }
  subst tasks.
  assert (Hbound : i < 6).
  { destruct depth, mode, selfCorrection; vm_compute in Hi; lia. }
  split.
  { destruct depth; [now contradiction Hdepth | ..]; destruct mode, selfCorrection;
      do 6 (destruct i as [| i]; [try reflexivity; exfalso; vm_compute in Hi; lia |]);
      exfalso; lia. }
  split; [destruct depth; [now contradiction Hdepth | ..];
          destruct mode, selfCorrection; reflexivity |].
  split; [destruct depth; [now contradiction Hdepth | ..];
          destruct mode, selfCorrection; reflexivity |].
  split.
  { intros j f g Hij Hj Hf Hg.
    assert (Hjb : j < 6).
    { destruct depth, mode, selfCorrection; vm_compute in Hj; lia. }
    destruct depth; [now contradiction Hdepth | ..]; destruct mode, selfCorrection;
      do 6 (destruct i as [| i];
            [ do 6 (destruct j as [| j];
                    [ try (exfalso; lia);
                      try (exfalso; vm_compute in Hj; lia);
                      vm_compute in Hf; vm_compute in Hg;
                      injection Hf as <-; injection Hg as <-; reflexivity | ]);
              exfalso; lia | ]);
      exfalso; lia. }
  destruct depth; [now contradiction Hdepth | ..]; destruct mode, selfCorrection;
    eexists; split; reflexivity.
Qed.

(** ** Long-term memory: storing twice, deleting *)

Lemma filter_all {A : Type} (p : A -> bool) (xs : list A) :
  Forall (fun x => p x = true) xs -> filter p xs = xs.
Proof.
  induction 1 as [| x rest Hx _ IH]; [reflexivity |]. cbn. now rewrite Hx, IH.
Qed.

Lemma Forall_firstn {A : Type} (P : A -> Prop) (n : nat) (xs : list A) :
  Forall P xs -> Forall P (firstn n xs).
Proof.
  intros H. apply Forall_forall. intros x Hx. apply In_firstn in Hx.
  rewrite Forall_forall in H. now apply H.
Qed.

Lemma NoDup_firstn_keeps {A : Type} (n : nat) (xs : list A) :
  NoDup xs -> NoDup (firstn n xs).
Proof.
  revert xs. induction n as [| n IH]; intros xs H; [constructor |].
  destruct xs as [| x rest]; [constructor |].
  inversion H as [| ? ? Hnot Hrest]; subst. cbn [firstn]. constructor.
  - intros Hin. apply Hnot. now apply In_firstn in Hin.
  - now apply IH.
Qed.

Lemma firstn_firstn_same {A : Type} (n : nat) (xs : list A) :
  firstn n (firstn n xs) = firstn n xs.
Proof.
  revert xs. induction n as [| n IH]; intros xs; [reflexivity |].
  destruct xs as [| x rest]; [reflexivity |]. cbn [firstn]. now rewrite IH.
Qed.

(** X15. Storing a memory a second time changes nothing, a list without
    duplicates stays without duplicates, and a memory that is new to a list
    below the maximum is put in front of the list as it was. *)
Theorem storeMemory_idempotent (newMemory : string) (prev : list string) :
  storeMemory newMemory (storeMemory newMemory prev) = storeMemory newMemory prev
  /\ (NoDup prev -> NoDup (storeMemory newMemory prev))
  /\ (~ In newMemory prev -> length prev < MAX_MEMORIES ->
      storeMemory newMemory prev = newMemory :: prev).
Proof.
  set (others := filter (fun m => negb (m =? newMemory)%string) prev).
  assert (Hothers : Forall (fun m => negb (m =? newMemory)%string = true) others).
  { apply Forall_forall. intros m Hm. apply filter_In in Hm. exact (proj2 Hm). }
  assert (Hshape : storeMemory newMemory prev = newMemory :: firstn 19 others) by reflexivity.
  split; [| split].
  - rewrite Hshape. unfold storeMemory, MAX_MEMORIES. cbn [filter].
    rewrite String.eqb_refl. cbn [negb].
    rewrite (filter_all _ (firstn 19 others)) by (apply Forall_firstn; exact Hothers).
    change (firstn 20 (newMemory :: firstn 19 others))
      with (newMemory :: firstn 19 (firstn 19 others)).
    now rewrite firstn_firstn_same.
  - intros Hnd. rewrite Hshape. constructor.
    + intros Hin. apply In_firstn in Hin. apply filter_In in Hin.
      destruct Hin as [_ Hne]. rewrite String.eqb_refl in Hne. discriminate.
    + apply NoDup_firstn_keeps. now apply NoDup_filter.
  - intros Hnew Hlen. rewrite Hshape. f_equal.
    assert (Hall : others = prev).
    { apply filter_all. apply Forall_forall. intros m Hm.
      destruct (String.eqb_spec m newMemory) as [-> | _]; [contradiction | reflexivity]. }
    rewrite Hall. apply firstn_all2. unfold MAX_MEMORIES in Hlen. lia.
Qed.

Lemma filteri_from_remove {A : Type} (index : nat) (xs : list A) :
  forall k,
    filteri_from (fun _ i => negb (i =? index)) k xs
    = if index <? k then xs
      else firstn (index - k) xs ++ skipn (S (index - k)) xs.
Proof.
  induction xs as [| x rest IH]; intros k.
  - cbn [filteri_from]. destruct (index <? k); [reflexivity |].
    now rewrite firstn_nil, skipn_nil.
  - cbn [filteri_from]. rewrite IH.
    destruct (Nat.eqb_spec k index) as [-> | Hne].
    + cbn [negb]. destruct (Nat.ltb_spec index (S index)) as [_ | H]; [| lia].
      destruct (Nat.ltb_spec index index) as [H | _]; [lia |].
      now rewrite Nat.sub_diag.
    + cbn [negb].
      destruct (Nat.ltb_spec index (S k)) as [H1 | H1],
               (Nat.ltb_spec index k) as [H2 | H2]; try lia; [reflexivity |].
      replace (index - k) with (S (index - S k)) by lia. reflexivity.
Qed.

Lemma filteri_remove {A : Type} (index : nat) (xs : list A) :
  filteri (fun _ i => negb (i =? index)) xs = firstn index xs ++ skipn (S index) xs.
Proof.
  unfold filteri. rewrite filteri_from_remove. cbn [Nat.ltb Nat.leb].
  now rewrite Nat.sub_0_r.
Qed.

(** X16. Removing by index, for an attachment and for a memory alike: the
    entries before the index and the entries after it are kept in their
    order and the entry at the index is dropped, so one entry less for an
    index within the list and the same list for an index beyond it.
    Deleting the first memory right after adding one by hand gives back the
    list as it was. *)
Theorem removal_by_index (index : nat) (files : list AttachedFile)
    (memories : list string) (memory : string) :
  removeFile index files = firstn index files ++ skipn (S index) files
  /\ onDelete index memories = firstn index memories ++ skipn (S index) memories
  /\ (index < length files -> S (length (removeFile index files)) = length files)
  /\ (length files <= index -> removeFile index files = files)
  /\ (length memories <= index -> onDelete index memories = memories)
  /\ onDelete 0 (onAdd memory memories) = memories.
Proof.
  unfold removeFile, onDelete. rewrite !filteri_remove.
  split; [reflexivity |]. split; [reflexivity |]. split; [| split; [| split]].
  - intros Hi. rewrite length_app, length_firstn, length_skipn. lia.
  - intros Hi. rewrite firstn_all2 by exact Hi. rewrite skipn_all2 by lia.
    apply app_nil_r.
  - intros Hi. rewrite firstn_all2 by exact Hi. rewrite skipn_all2 by lia.
    apply app_nil_r.
  - reflexivity.
Qed.

(** ** Renaming a conversation *)

(** X17. Renaming a conversation always closes the title editor.  It never
    adds, drops or reorders conversations, nor touches an identifier, a
    message or any part of the application state other than the titles.  A
    title that is blank once trimmed leaves the application state as it
    was; otherwise every conversation with the identifier gets the trimmed
    title and the others keep theirs. *)
Theorem rename_changes_titles_only (conversationId newTitle : string) (ui : SideBar) :
  editingConversationId (handleRenameConversation conversationId newTitle ui) = None
  /\ map id (conversations (appState (handleRenameConversation conversationId newTitle ui)))
     = map id (conversations (appState ui))
  /\ map messages (conversations (appState (handleRenameConversation conversationId newTitle ui)))
     = map messages (conversations (appState ui))
  /\ setConversations (fun _ => conversations (appState ui))
       (appState (handleRenameConversation conversationId newTitle ui)) = appState ui
  /\ (trim newTitle = ""%string ->
      handleRenameConversation conversationId newTitle ui = mkSideBar (appState ui) None)
  /\ (trim newTitle <> ""%string ->
      map conv_title
        (conversations (appState (handleRenameConversation conversationId newTitle ui)))
      = map (fun c => if (id c =? conversationId)%string then trim newTitle
                      else conv_title c)
            (conversations (appState ui))).
Proof.
  unfold handleRenameConversation. cbv zeta.
  destruct (trim newTitle) as [| ch rest] eqn:Htrim; cbn [truthy negb appState editingConversationId].
  - split; [reflexivity |]. split; [reflexivity |]. split; [reflexivity |].
    split; [destruct (appState ui); reflexivity |]. split; [reflexivity |].
    intros H. now contradiction H.
  - cbn [setConversations conversations].
    split; [reflexivity |]. rewrite !map_map.
    split; [| split; [| split; [| split]]].
    + apply map_ext. intros c. now destruct (id c =? conversationId)%string.
    + apply map_ext. intros c. now destruct (id c =? conversationId)%string.
    + destruct (appState ui). reflexivity.
    + discriminate.
    + intros _. apply map_ext. intros c. now destruct (id c =? conversationId)%string.
Qed.

(** ** The icon of an attachment *)

(** X18. The code icon is given to exactly three media types:
    application/javascript, application/json and application/x-sh.  The
    three text types of the same list (text/css, text/html, text/x-python)
    never get it: every type that starts with text/ has the text icon, and
    every type that starts with image/ the image icon. *)
Theorem code_icon_only_for_application_types (mimeType : string) :
  (getFileTypeIcon mimeType = IconCode2 <->
   mimeType = "application/javascript"%string
   \/ mimeType = "application/json"%string
   \/ mimeType = "application/x-sh"%string)
  /\ (startsWith "text/" mimeType = true -> getFileTypeIcon mimeType <> IconCode2)
  /\ (startsWith "image/" mimeType = true -> getFileTypeIcon mimeType = IconImage)
  /\ (startsWith "image/" mimeType = false -> startsWith "text/" mimeType = true ->
      getFileTypeIcon mimeType = IconFileText).
Proof.
  assert (Hcode : getFileTypeIcon mimeType = IconCode2 <->
                  mimeType = "application/javascript"%string
                  \/ mimeType = "application/json"%string
                  \/ mimeType = "application/x-sh"%string).
  { split.
    - unfold getFileTypeIcon, arrayIncludes. cbn [existsb].
      destruct (startsWith "image/" mimeType); [discriminate |].
      destruct (startsWith "text/" mimeType) eqn:Htext; [discriminate |].
      destruct (String.eqb_spec "application/pdf" mimeType); [discriminate |].
      destruct (String.eqb_spec "application/msword" mimeType); [discriminate |].
      destruct (String.eqb_spec
                  "application/vnd.openxmlformats-officedocument.wordprocessingml.document"
                  mimeType); [discriminate |].
      cbn [orb].
      destruct (String.eqb_spec "application/javascript" mimeType) as [<- | _];
        [intros _; now left |].
      destruct (String.eqb_spec "application/json" mimeType) as [<- | _];
        [intros _; right; now left |].
      destruct (String.eqb_spec "text/css" mimeType) as [<- | _]; [discriminate Htext |].
      destruct (String.eqb_spec "text/html" mimeType) as [<- | _]; [discriminate Htext |].
      destruct (String.eqb_spec "text/x-python" mimeType) as [<- | _];
        [discriminate Htext |].
      destruct (String.eqb_spec "application/x-sh" mimeType) as [<- | _];
        [intros _; right; now right | discriminate].
    - intros [-> | [-> | ->]]; reflexivity. }
  split; [exact Hcode |]. split; [| split].
  - intros Htext Hicon. apply Hcode in Hicon.
    destruct Hicon as [-> | [-> | ->]]; discriminate Htext.
  - intros Himg. unfold getFileTypeIcon. now rewrite Himg.
  - intros Himg Htext. unfold getFileTypeIcon. now rewrite Himg, Htext.
Qed.

(** ** The timer of the loading indicator *)

Lemma padStart_two_digits (n : Z) :
  (0 <= n < 100)%Z ->
  padStart 2 "0" (ofNat (Z.to_nat n))
  = String (digit (n / 10)) (String (digit (n mod 10)) EmptyString).
Proof.
  intros Hn.
  assert (Hk : exists k, k < 100 /\ n = Z.of_nat k).
  { exists (Z.to_nat n). split; [lia | now rewrite Znat.Z2Nat.id by lia]. }
  destruct Hk as [k [Hk ->]]. clear Hn.
  do 100 (destruct k as [| k]; [vm_compute; reflexivity |]).
  lia.
Qed.

(** X19. Below one hundred minutes the timer reads exactly [mm:ss]: the two
    decimal digits of the whole minutes, a colon, and the two decimal digits
    of the remaining whole seconds, which stay below sixty; the fraction of
    a second is dropped. *)
Theorem formatTimer_mm_ss (milliseconds : Z) :
  (0 <= milliseconds < 6000000)%Z ->
  let totalSeconds := (milliseconds / 1000)%Z in
  formatTimer milliseconds
  = String (digit (totalSeconds / 60 / 10))
      (String (digit ((totalSeconds / 60) mod 10))
         (String ":"
            (String (digit ((totalSeconds mod 60) / 10))
               (String (digit ((totalSeconds mod 60) mod 10)) EmptyString))))
  /\ String.length (formatTimer milliseconds) = 5
  /\ (0 <= totalSeconds mod 60 < 60)%Z
  /\ formatTimer milliseconds = formatTimer (1000 * totalSeconds).
Proof.
  intros Hms totalSeconds.
  assert (Hsec : (0 <= totalSeconds < 6000)%Z).
  { unfold totalSeconds. split; [apply Z.div_pos; lia |].
    apply Z.div_lt_upper_bound; lia. }
  assert (Hmin : (0 <= totalSeconds / 60 < 100)%Z).
  { split; [apply Z.div_pos; lia |]. apply Z.div_lt_upper_bound; lia. }
  assert (Hrem : (0 <= totalSeconds mod 60 < 60)%Z) by (apply Z.mod_pos_bound; lia).
  assert (Hremeq : Z.rem totalSeconds 60 = (totalSeconds mod 60)%Z)
    by (apply Z.rem_mod_nonneg; lia).
  assert (Hshape : formatTimer milliseconds
                   = String (digit (totalSeconds / 60 / 10))
                       (String (digit ((totalSeconds / 60) mod 10))
                          (String ":"
                             (String (digit ((totalSeconds mod 60) / 10))
                                (String (digit ((totalSeconds mod 60) mod 10))
                                   EmptyString))))).
  { unfold formatTimer. fold totalSeconds. cbv zeta. rewrite Hremeq.
    rewrite (padStart_two_digits (totalSeconds / 60)) by exact Hmin.
    rewrite (padStart_two_digits (totalSeconds mod 60)) by lia.
    reflexivity. }
  split; [exact Hshape |]. split; [now rewrite Hshape |]. split; [exact Hrem |].
  unfold formatTimer. cbv zeta. fold totalSeconds.
  replace (1000 * totalSeconds / 1000)%Z with totalSeconds; [reflexivity |].
  rewrite Z.mul_comm. now rewrite Z.div_mul.
Qed.

(** ** The texts of the error message *)

Lemma prefix_app (needle post : string) : prefix needle (needle ++ post) = true.
Proof.
  induction needle as [| c rest IH]; cbn; [now destruct post |].
  destruct (ascii_dec c c) as [_ | Hne]; [exact IH | now contradiction Hne].
Qed.

Lemma prefix_inv (needle str : string) :
  prefix needle str = true -> exists post, str = (needle ++ post)%string.
Proof.
  revert str. induction needle as [| c rest IH]; intros str H.
  - exists str. reflexivity.
  - destruct str as [| d str']; [discriminate |]. cbn in H.
    destruct (ascii_dec c d) as [-> | _]; [| discriminate].
    destruct (IH str' H) as [post ->]. exists post. reflexivity.
Qed.

Lemma includes_unfold (needle str : string) :
  includes needle str
  = prefix needle str
    || match str with
       | EmptyString => false
       | String _ rest => includes needle rest
       end.
Proof. destruct str; reflexivity. Qed.

Lemma includes_app (pre needle post : string) :
  includes needle (pre ++ needle ++ post) = true.
Proof.
  induction pre as [| c rest IH].
  - cbn [append]. rewrite includes_unfold, prefix_app. reflexivity.
  - cbn [append]. rewrite includes_unfold, IH. apply orb_true_r.
Qed.

Lemma includes_inv (needle str : string) :
  includes needle str = true ->
  exists pre post, str = (pre ++ needle ++ post)%string.
Proof.
  induction str as [| c rest IH]; rewrite includes_unfold; intros H.
  - rewrite orb_false_r in H. apply prefix_inv in H. destruct H as [post ->].
    exists EmptyString, post. reflexivity.
  - apply orb_true_iff in H. destruct H as [H | H].
    + apply prefix_inv in H. destruct H as [post ->].
      exists EmptyString, post. reflexivity.
    + destruct (IH H) as [pre [post ->]]. exists (String c pre), post. reflexivity.
Qed.

Lemma mapChars_app (f : ascii -> ascii) (a b : string) :
  mapChars f (a ++ b) = (mapChars f a ++ mapChars f b)%string.
Proof. induction a as [| c rest IH]; cbn; [reflexivity | now rewrite IH]. Qed.

Lemma includes_toLowerCase (word str : string) :
  includes word str = true -> includes (toLowerCase word) (toLowerCase str) = true.
Proof.
  intros H. apply includes_inv in H. destruct H as [pre [post ->]].
  unfold toLowerCase. rewrite !mapChars_app. apply includes_app.
Qed.

(** X20. A timeout is recognised whatever the letter case of the word
    deadline in the message of the error: unless the message reports an
    invalid API key, which is tested first, the error message posted is the
    fixed text about the request that took too long, also when the message
    mentions SAFETY, and it is flagged as an error. *)
Theorem timeout_recognised_in_any_case (error : JsError) (word : string) :
  instanceofError error = true ->
  includes "API key not valid" (message error) = false ->
  toLowerCase word = "deadline"%string ->
  includes word (message error) = true ->
  friendlyMessage error
  = "A solicitação demorou muito e expirou. Tente novamente com uma pergunta mais curta ou verifique sua conexão de rede."%string
  /\ parts (errorMessage error) = [ TextPart (friendlyMessage error) ]
  /\ isError (errorMessage error) = true
  /\ role (errorMessage error) = model.
Proof.
  intros Herr Hkey Hword Hin.
  apply includes_toLowerCase in Hin. rewrite Hword in Hin.
  split; [| repeat split].
  unfold friendlyMessage. now rewrite Herr, Hkey, Hin.
Qed.

(** ** The code blocks of an answer *)

Lemma parseToolOutputs_map (response : Response) :
  parseToolOutputs response
  = map (fun raw =>
           {| code := match raw_code raw with
                      | Some c => if truthy c then c else "Código não encontrado"
                      | None => "Código não encontrado"
                      end;
              result := match raw_outputs raw with
                        | Some outputs => outputs
                        | None => []
                        end |})
        (concat (toolCalls response)).
Proof.
  unfold parseToolOutputs.
  induction (toolCalls response) as [| call rest IH]; [reflexivity |].
  cbn [flat_map concat]. now rewrite map_app, IH.
Qed.

(** X21. The code blocks read from a response: one block for each tool
    output of each tool call, in order, none dropped.  The block of a tool
    output carries the code of that output when it has one that is not
    empty, and the fixed placeholder when the code is missing or empty, so
    its code is never empty; its result is the outputs of the tool output,
    or none when they are missing. *)
Theorem parseToolOutputs_blocks (response : Response) :
  length (parseToolOutputs response) = length (concat (toolCalls response))
  /\ forall (k : nat) (raw : RawToolOutput),
       nth_error (concat (toolCalls response)) k = Some raw ->
       exists block,
         nth_error (parseToolOutputs response) k = Some block
         /\ (forall c, raw_code raw = Some c -> c <> ""%string -> code block = c)
         /\ (raw_code raw = None \/ raw_code raw = Some ""%string ->
             code block = "Código não encontrado"%string)
         /\ code block <> ""%string
         /\ (forall outputs, raw_outputs raw = Some outputs -> result block = outputs)
         /\ (raw_outputs raw = None -> result block = []).
Proof.
  rewrite parseToolOutputs_map. split; [apply length_map |].
  intros k raw Hk. rewrite nth_error_map, Hk. cbn [option_map].
  eexists. split; [reflexivity |]. cbn [code result].
  split; [| split; [| split; [| split]]].
  - intros c -> Hc. destruct c; [now contradiction Hc | reflexivity].
  - intros [-> | ->]; reflexivity.
  - destruct (raw_code raw) as [[| ch rest] |]; discriminate.
  - intros outputs ->. reflexivity.
  - intros ->. reflexivity.
Qed.

(** ** Attaching files *)

Lemma addFiles_newFiles (fileToGenerativePart : File -> option Part) (files : list File) :
  flat_map (fun result => match result with Some v => [ v ] | None => [] end)
    (map (fun file => option_map (mkAttached file) (fileToGenerativePart file)) files)
  = readFiles fileToGenerativePart files.
Proof.
  unfold readFiles. induction files as [| f rest IH]; [reflexivity |].
  cbn [map flat_map]. rewrite IH. now destruct (fileToGenerativePart f).
Qed.

Lemma addFiles_errors (fileToGenerativePart : File -> option Part) (files : list File) :
  exists k,
    flat_map (fun result : option AttachedFile =>
                match result with Some _ => [] | None => [ READ_ERROR ] end)
      (map (fun file => option_map (mkAttached file) (fileToGenerativePart file)) files)
    = repeat READ_ERROR k
    /\ (k = 0 <-> forall f, In f files -> fileToGenerativePart f <> None).
Proof.
  induction files as [| f rest IH].
  - exists 0. split; [reflexivity |]. split; [intros _ f [] | reflexivity].
  - destruct IH as [k [Hk Hiff]]. cbn [map flat_map]. rewrite Hk.
    destruct (fileToGenerativePart f) as [p |] eqn:Hf; cbn [option_map app].
    + exists k. split; [reflexivity |]. rewrite Hiff. split.
      * intros H g [<- | Hg]; [congruence | now apply H].
      * intros H g Hg. apply H. now right.
    + exists (S k). split; [reflexivity |]. split; [discriminate |].
      intros H. exfalso. apply (H f); [now left | exact Hf].
Qed.

Lemma unique_repeat (x : string) (k : nat) : unique (repeat x (S k)) = [ x ].
Proof.
  induction k as [| k IH]; [reflexivity |].
  change (repeat x (S (S k))) with (x :: repeat x (S k)).
  cbn [unique]. rewrite IH. cbn [filter]. now rewrite String.eqb_refl.
Qed.

Lemma readFiles_all (fileToGenerativePart : File -> option Part) (files : list File) :
  (forall f, In f files -> fileToGenerativePart f <> None) ->
  length (readFiles fileToGenerativePart files) = length files.
Proof.
  unfold readFiles. induction files as [| f more IH]; intros Hok; [reflexivity |].
  cbn [flat_map]. destruct (fileToGenerativePart f) eqn:Hf.
  - cbn [app length]. f_equal. apply IH. intros g Hg. apply Hok. now right.
  - exfalso. apply (Hok f); [now left | exact Hf].
Qed.

(** X22. Attaching files never throws and touches the attachments and the
    notification only.  The files that could be read are added after the
    attachments already there, each with its own part, in the order of the
    list, also when other files of the list failed.  When at least one file
    failed the notification left is the error one, with its sentence once,
    however many failed and even if files were attached; when none failed
    it is the success one with the number of files.  An empty or missing
    list changes nothing. *)
Theorem addFiles_outcome (fileToGenerativePart : File -> option Part)
    (files : list File) (s : AppState) :
  fst (addFiles fileToGenerativePart (Some files) s) = Normal tt
  /\ attachedFiles (snd (addFiles fileToGenerativePart (Some files) s))
     = attachedFiles s ++ readFiles fileToGenerativePart files
  /\ setNotification (notification s)
       (setAttachedFiles (attachedFiles s)
          (snd (addFiles fileToGenerativePart (Some files) s))) = s
  /\ ((exists f, In f files /\ fileToGenerativePart f = None) ->
      notification (snd (addFiles fileToGenerativePart (Some files) s))
      = Some (mkNotification READ_ERROR true))
  /\ (files <> [] -> (forall f, In f files -> fileToGenerativePart f <> None) ->
      notification (snd (addFiles fileToGenerativePart (Some files) s))
      = Some (mkNotification
                (ofNat (length files) ++ " arquivo(s) anexado(s) com sucesso.") false)
      /\ length (readFiles fileToGenerativePart files) = length files)
  /\ addFiles fileToGenerativePart (Some []) s = (Normal tt, s)
  /\ addFiles fileToGenerativePart None s = (Normal tt, s).
Proof.
  destruct files as [| f0 rest].
  { cbn. rewrite app_nil_r. destruct s.
    split; [reflexivity |]. split; [reflexivity |]. split; [reflexivity |].
    split; [intros [f [[] _]] |].
    split; [intros Hne; now contradiction Hne |]. split; reflexivity. }
  assert (Hunfold :
    addFiles fileToGenerativePart (Some (f0 :: rest))
    = ((if 0 <? length (readFiles fileToGenerativePart (f0 :: rest)) then
          update (fun s => setAttachedFiles
                             (attachedFiles s
                              ++ readFiles fileToGenerativePart (f0 :: rest)) s) ;;
          update (setNotification
                    (Some (mkNotification
                             (ofNat (length (readFiles fileToGenerativePart (f0 :: rest)))
                              ++ " arquivo(s) anexado(s) com sucesso.")
                             false)))
        else ret tt) ;;
       (if 0 <? length
                  (flat_map (fun result : option AttachedFile =>
                               match result with Some _ => [] | None => [ READ_ERROR ] end)
                     (map (fun file => option_map (mkAttached file)
                                         (fileToGenerativePart file)) (f0 :: rest)))
        then update (setNotification
               (Some (mkNotification
                  (join " "
                     (unique
                        (flat_map (fun result : option AttachedFile =>
                                     match result with
                                     | Some _ => []
                                     | None => [ READ_ERROR ]
                                     end)
                           (map (fun file => option_map (mkAttached file)
                                               (fileToGenerativePart file))
                                (f0 :: rest)))))
                  true)))
        else ret tt))).
  { unfold addFiles. cbv zeta.
    now rewrite (addFiles_newFiles fileToGenerativePart (f0 :: rest)). }
  rewrite Hunfold. clear Hunfold.
  set (files := f0 :: rest).
  destruct (addFiles_errors fileToGenerativePart files) as [k [Hk Hiff]].
  rewrite Hk. clear Hk.
  assert (Hall : k = 0 -> length (readFiles fileToGenerativePart files) = length files).
  { intros H0. apply readFiles_all. exact (proj1 Hiff H0). }
  set (new := readFiles fileToGenerativePart files) in *.
  split; [| split; [| split; [| split; [| split; [| split; reflexivity]]]]].
  - destruct (0 <? length new), k; reflexivity.
  - destruct new as [| n0 more]; [| destruct k; reflexivity].
    rewrite app_nil_r. destruct k; reflexivity.
  - destruct (0 <? length new), k; destruct s; reflexivity.
  - intros [f [Hf Hnone]]. destruct k as [| k].
    + exfalso. exact (proj1 Hiff eq_refl f Hf Hnone).
    + rewrite unique_repeat. destruct (0 <? length new); reflexivity.
  - intros _ Hok. apply Hiff in Hok. subst k. specialize (Hall eq_refl).
    split; [| exact Hall].
    assert (Hpos : (0 <? length new) = true).
    { apply Nat.ltb_lt. rewrite Hall. cbn. lia. }
    rewrite Hpos, Hall. reflexivity.
Qed.

(** ** Offline runs *)

Lemma generateAndStoreMemory_tools (u r : string) (s : AppState) :
  exists elog s',
    generateAndStoreMemory u r s = (Normal tt, s')
    /\ calls s' = calls s ++ elog
    /\ Forall (fun c : Call => tools (config (fst c)) = []) elog.
Proof.
  unfold generateAndStoreMemory. destruct (ai cfg).
  2:{ exists [], s. cbn. rewrite app_nil_r. repeat split. constructor. }
  cbn [negb]. cbv zeta. unfold tryCatch, bind, ai_generateContent, update, ret.
  match goal with
  | |- context [generateContent ?n ?rq] => destruct (generateContent n rq) as [x | e] eqn:Hg
  end; eexists [ _ ], _; (split; [reflexivity |]); cbn;
    repeat split; repeat constructor.
Qed.

Lemma generateProactiveSuggestions_tools (u r : string) (s : AppState) :
  exists elog s',
    generateProactiveSuggestions u r s = (Normal tt, s')
    /\ calls s' = calls s ++ elog
    /\ Forall (fun c : Call => tools (config (fst c)) = []) elog.
Proof.
  unfold generateProactiveSuggestions. destruct (ai cfg).
  2:{ exists [], s. cbn. rewrite app_nil_r. repeat split. constructor. }
  cbn [negb]. cbv zeta. unfold tryCatch, bind, ai_generateContent, update, ret.
  match goal with
  | |- context [generateContent ?n ?rq] => destruct (generateContent n rq) as [x | e] eqn:Hg
  end.
  - destruct (parseStringArray (text x)) as [sugg |];
      [destruct (0 <? length sugg) |];
      eexists [ _ ], _; (split; [reflexivity |]); cbn;
      repeat split; repeat constructor.
  - eexists [ _ ], _; (split; [reflexivity |]); cbn;
      repeat split; repeat constructor.
Qed.

Lemma enrichment_tools (a : GenArgs) (finalResponseText : string) (s : AppState) :
  exists elog s',
    enrichment a finalResponseText s = (Normal tt, s')
    /\ calls s' = calls s ++ elog
    /\ Forall (fun c : Call => tools (config (fst c)) = []) elog.
Proof.
  unfold enrichment.
  assert (H0 : update (setIsLoading false) s = (Normal tt, setIsLoading false s))
    by reflexivity.
  erewrite bind_Normal by exact H0. clear H0.
  destruct (truthy finalResponseText).
  2:{ exists [], (setIsLoading false s). cbn. rewrite app_nil_r.
      repeat split. constructor. }
  assert (Hmem : exists elog s1,
             (if isLongTermMemoryEnabled cfg
              then generateAndStoreMemory (userInput a) finalResponseText
              else ret tt) (setIsLoading false s) = (Normal tt, s1)
             /\ calls s1 = calls s ++ elog
             /\ Forall (fun c : Call => tools (config (fst c)) = []) elog).
  { destruct (isLongTermMemoryEnabled cfg).
    - exact (generateAndStoreMemory_tools (userInput a) finalResponseText
               (setIsLoading false s)).
    - exists [], (setIsLoading false s). cbn. rewrite app_nil_r.
      repeat split. constructor. }
  destruct Hmem as (elog1 & s1 & Hm & Hc1 & Ht1).
  erewrite bind_Normal by exact Hm.
  destruct (generateProactiveSuggestions_tools (userInput a) finalResponseText s1)
    as (elog2 & s2 & Hp & Hc2 & Ht2).
  exists (elog1 ++ elog2), s2. split; [exact Hp |]. split.
  - rewrite Hc2, Hc1. now rewrite app_assoc.
  - apply Forall_app. now split.
Qed.

Lemma usesTool_no_tools (t : Tool) (rq : Request) :
  tools (config rq) = [] -> usesTool t rq = false.
Proof. unfold usesTool. now intros ->. Qed.

Lemma usesTool_codeInterpreterTool (rq : Request) :
  tools (config rq) = codeInterpreterTool -> usesTool googleSearch rq = false.
Proof.
  unfold usesTool, codeInterpreterTool. intros ->.
  now destruct (isCodeInterpreterEnabled cfg).
Qed.

Lemma SearchStage_offline (a : GenArgs) (fic : string) (slog : list Call) (wc : string)
    (src : list WebSource) :
  searchesWeb = false -> SearchStage a fic slog wc src -> slog = [] /\ src = [].
Proof. intros Hoff H. destruct H; [now split | congruence]. Qed.

Lemma fanOut_no_search (rqs : list Request) (rps : list GatewayReply) :
  Forall (fun rq => tools (config rq) = []) rqs ->
  Forall (fun c : Call => usesTool googleSearch (fst c) = false) (combine rqs rps).
Proof.
  intros H.
  apply (Forall_combine_fst (fun rq => usesTool googleSearch rq = false)).
  eapply Forall_impl; [| exact H]. intros rq. apply usesTool_no_tools.
Qed.

Lemma initialRequests_tools (a : GenArgs) (prompt : Content) :
  Forall (fun rq => tools (config rq) = []) (initialRequests a prompt).
Proof. unfold initialRequests. apply Forall_map. apply Forall_forall. reflexivity. Qed.

Lemma refinementRequests_tools (a : GenArgs) (prompt : Content) (rs : list Response) :
  Forall (fun rq => tools (config rq) = []) (refinementRequests a prompt rs).
Proof. unfold refinementRequests. apply Forall_map. apply Forall_forall. reflexivity. Qed.

Lemma DraftStage_offline (a : GenArgs) (fic : string) (log : list Call) (prompt : Content)
    (src : list WebSource) (inits refs : list Response) :
  searchesWeb = false ->
  DraftStage a fic log prompt src inits refs ->
  Forall (fun c : Call => usesTool googleSearch (fst c) = false) log /\ src = [].
Proof.
  intros Hoff H. destruct H as [slog wc src inits refs Hs _ _].
  destruct (SearchStage_offline _ _ _ _ _ Hoff Hs) as [-> ->].
  split; [| reflexivity]. cbn [app]. apply Forall_app. split.
  - apply fanOut_no_search, initialRequests_tools.
  - apply fanOut_no_search, refinementRequests_tools.
Qed.

Ltac no_search_tail :=
  repeat constructor; cbn [fst];
  first [ apply usesTool_codeInterpreterTool; reflexivity
        | apply usesTool_no_tools; reflexivity ].

Lemma MultiAgentRun_offline (a : GenArgs) (fic : string) (log : list Call)
    (out : Completion string) (msg : option Message) :
  searchesWeb = false ->
  MultiAgentRun a fic log out msg ->
  Forall (fun c : Call => usesTool googleSearch (fst c) = false) log
  /\ (forall m, msg = Some m -> sources m = Some []).
Proof.
  intros Hoff H. destruct H;
    try match goal with
        | Hd : DraftStage _ _ _ _ _ _ _ |- _ =>
            destruct (DraftStage_offline _ _ _ _ _ _ _ Hoff Hd) as [Hlog ->]
        end;
    try match goal with
        | Hs : SearchStage _ _ _ _ _ |- _ =>
            destruct (SearchStage_offline _ _ _ _ _ Hoff Hs) as [-> ->]
        end.
  - congruence.
  - split; [| discriminate]. cbn [app]. apply fanOut_no_search, initialRequests_tools.
  - split; [| discriminate]. cbn [app]. apply Forall_app. split.
    + apply fanOut_no_search, initialRequests_tools.
    + apply fanOut_no_search, refinementRequests_tools.
  - split; [| discriminate]. apply Forall_app. split; [exact Hlog | no_search_tail].
  - split; [| intros m Hm; now injection Hm as <-].
    apply Forall_app. split; [exact Hlog | no_search_tail].
  - split; [| discriminate]. apply Forall_app. split; [exact Hlog | no_search_tail].
  - split; [| intros m Hm; now injection Hm as <-].
    apply Forall_app. split; [exact Hlog | no_search_tail].
  - split; [| discriminate]. apply Forall_app. split; [exact Hlog | no_search_tail].
  - split; [| intros m Hm; now injection Hm as <-].
    apply Forall_app. split; [exact Hlog | no_search_tail].
Qed.

Lemma FastRun_offline (a : GenArgs) (fic : string) (log : list Call)
    (out : Completion string) (msg : option Message) :
  searchesWeb = false ->
  FastRun a fic log out msg ->
  Forall (fun c : Call => usesTool googleSearch (fst c) = false) log.
Proof.
  intros Hoff H.
  assert (Hfast : usesTool googleSearch (fastRequest a fic) = false).
  { unfold usesTool, fastRequest, codeInterpreterTool. cbn [tools config].
    rewrite Hoff. now destruct (isCodeInterpreterEnabled cfg). }
  destruct H; repeat constructor; exact Hfast.
Qed.

(** X23. In offline mode no call of a run carries the search tool: not the
    calls of the generation path, at any depth, whether the run completes
    or fails part-way, and not the enrichment calls, which carry no tool at
    all.  The message a balanced or deep offline run posts has an empty
    list of sources when it is an answer, and none when it is the error
    message. *)
Theorem offline_run_never_searches (a : GenArgs) (cid : string) (s : AppState) :
  ai cfg = true ->
  selectedConversation s = Some cid ->
  researchMode cfg = offline ->
  exists new m,
    calls (snd (executeGeneration a s)) = calls s ++ new
    /\ Forall (fun c : Call => usesTool googleSearch (fst c) = false) new
    /\ conversations (snd (executeGeneration a s))
       = appendMessage cid (Some m) (conversations s)
    /\ (generationDepth cfg <> fast ->
        (isError m = false /\ sources m = Some [])
        \/ (isError m = true /\ sources m = None)).
Proof.
  intros Hai Hcid Hmode.
  assert (Hoff : searchesWeb = false) by (unfold searchesWeb; now rewrite Hmode).
  rewrite (executeGeneration_unfold a cid s Hai Hcid).
  destruct (generationPath_run a (finalInputWithContextOf s a) cid (runStart s))
    as (log & out & msg & s1 & Hp & Hgen & Hstep).
  rewrite Hp.
  destruct Hstep as (Hc1 & Hv1 & _).
  assert (Hlog : Forall (fun c : Call => usesTool googleSearch (fst c) = false) log
                 /\ (generationDepth cfg <> fast ->
                     forall m, msg = Some m -> sources m = Some [])).
  { unfold GenerationRun in Hgen. destruct (generationDepth cfg).
    - split; [now apply (FastRun_offline a _ _ _ _ Hoff Hgen) | intros H; now contradiction H].
    - destruct (MultiAgentRun_offline a _ _ _ _ Hoff Hgen) as [H1 H2]. now split.
    - destruct (MultiAgentRun_offline a _ _ _ _ Hoff Hgen) as [H1 H2]. now split. }
  destruct Hlog as [Hlog Hsrc].
  destruct out as [t | e].
  - destruct (GenerationRun_Normal _ _ _ _ _ Hgen) as (m & -> & _ & Herr & _).
    destruct (enrichment_tools a t s1) as (elog & s' & He & Hc & Ht).
    destruct (enrichment_effect a t s1) as (elog' & s'' & He' & _ & _ & Hv & _).
    rewrite He in He'. injection He' as <-.
    rewrite He. cbn [snd]. exists (log ++ elog), m.
    split; [rewrite Hc, Hc1; cbn [runStart calls setLoadingTasks]; now rewrite app_assoc |].
    split.
    { apply Forall_app. split; [exact Hlog |].
      eapply Forall_impl; [| exact Ht]. intros c. apply usesTool_no_tools. }
    split; [rewrite Hv, Hv1; reflexivity |].
    intros Hd. left. split; [exact Herr | now apply Hsrc].
  - destruct (enrichment_tools a ""
                (setConversations
                   (map (fun c => if (id c =? cid)%string
                                  then mkConversation (id c) (conv_title c)
                                         (messages c ++ [ errorMessage e ])
                                  else c)) s1))
      as (elog & s' & He & Hc & Ht).
    destruct (enrichment_effect a ""
                (setConversations
                   (map (fun c => if (id c =? cid)%string
                                  then mkConversation (id c) (conv_title c)
                                         (messages c ++ [ errorMessage e ])
                                  else c)) s1))
      as (elog' & s'' & He' & _ & _ & Hv & _).
    rewrite He in He'. injection He' as <-.
    rewrite He. cbn [snd]. exists (log ++ elog), (errorMessage e).
    split.
    { rewrite Hc. cbn [calls setConversations]. rewrite Hc1.
      cbn [runStart calls setLoadingTasks]. now rewrite app_assoc. }
    split.
    { apply Forall_app. split; [exact Hlog |].
      eapply Forall_impl; [| exact Ht]. intros c. apply usesTool_no_tools. }
    split.
    { rewrite Hv. cbn [conversations setConversations]. rewrite Hv1.
      assert (Hnone : msg = None).
      { unfold GenerationRun in Hgen.
        destruct (generationDepth cfg); inversion Hgen; reflexivity. }
      rewrite Hnone. reflexivity. }
    intros _. right. split; reflexivity.
Qed.

(** ** A new chat and its first message *)

(** X24. A new chat followed by a submission.  The new conversation is put
    in front of the others and selected, so with a client and no run
    loading a first message that is not blank passes the guards: the
    conversation in front then has the title made from that message and the
    user message, without attachments, as its first message.  The
    conversations that were there before keep their place after it. *)
Theorem new_chat_first_submission (now text : string) (s : AppState) :
  ai cfg = true ->
  isLoading s = false ->
  truthy now = true ->
  truthy (trim text) = true ->
  conversations (snd (handleNewChat now s))
  = mkConversation now "Nova Conversa" [] :: conversations s
  /\ selectedConversation (snd (handleNewChat now s)) = Some now
  /\ exists (answer : option Message) (first : Conversation) (others : list Conversation),
       conversations (snd ((handleNewChat now ;; handleSubmit (Some text)) s))
       = first :: others
       /\ first :: others
          = appendMessage now answer
              (postedConversations now text [] true
                 (mkConversation now "Nova Conversa" [] :: conversations s))
       /\ id first = now
       /\ conv_title first = titleOf text
       /\ hd_error (messages first) = Some (userMessageOf text [])
       /\ map id others = map id (conversations s).
Proof.
  intros Hai Hload Hnow Htext.
  set (s1 := snd (handleNewChat now s)).
  assert (Hrun : handleNewChat now s = (Normal tt, s1)) by reflexivity.
  assert (Hconv : conversations s1 = mkConversation now "Nova Conversa" [] :: conversations s)
    by reflexivity.
  assert (Hsel : selectedConversation s1 = Some now).
  { unfold selectedConversation. cbn. now rewrite Hnow. }
  split; [exact Hconv |]. split; [exact Hsel |].
  assert (Hfind : find (fun c => (id c =? now)%string) (conversations s1)
                  = Some (mkConversation now "Nova Conversa" [])).
  { rewrite Hconv. cbn [find id]. now rewrite String.eqb_refl. }
  destruct (handleSubmit_effect (Some text) now (mkConversation now "Nova Conversa" []) s1
              (or_introl Htext) Hai Hsel Hload Hfind) as [answer [Heq _]].
  erewrite bind_Normal by exact Hrun.
  cbn [messages length Nat.eqb] in Heq. change (attachedFiles s1) with (@nil AttachedFile) in Heq.
  rewrite Hconv in Heq. rewrite Heq.
  assert (Hids : forall convs,
            map id (appendMessage now answer (postedConversations now text [] true convs))
            = map id convs).
  { intros convs. unfold postedConversations.
    destruct answer as [m |]; cbn [appendMessage]; rewrite ?map_map;
      apply map_ext; intros c; cbn [id];
      destruct (id c =? now)%string eqn:Hc; cbn [id]; rewrite ?Hc; reflexivity. }
  assert (Hposted :
    postedConversations now text [] true
      (mkConversation now "Nova Conversa" [] :: conversations s)
    = mkConversation now (titleOf text) [ userMessageOf text [] ]
      :: postedConversations now text [] true (conversations s)).
  { unfold postedConversations. cbn [map id]. now rewrite String.eqb_refl. }
  assert (Hhead : forall title msgs rest,
    appendMessage now answer (mkConversation now title msgs :: rest)
    = mkConversation now title
        (msgs ++ match answer with Some m => [ m ] | None => [] end)
      :: appendMessage now answer rest).
  { intros title msgs rest. destruct answer as [m |]; cbn [appendMessage map id].
    - now rewrite String.eqb_refl.
    - now rewrite app_nil_r. }
  exists answer,
    (mkConversation now (titleOf text)
       ([ userMessageOf text [] ] ++ match answer with Some m => [ m ] | None => [] end)),
    (appendMessage now answer (postedConversations now text [] true (conversations s))).
  split; [now rewrite Hposted, Hhead |]. split; [now rewrite Hposted, Hhead |].
  cbn [id conv_title messages app hd_error]. repeat split.
  apply Hids.
Qed.

End Core.

(** ** The statements at concrete inputs *)

Lemma advance_statuses_idempotent_witness :
  2 < length WEB_RESEARCH_TASKS
  /\ map status (advance 2 WEB_RESEARCH_TASKS)
     = [ completed; completed; active; pending; pending; pending ]
  /\ advance 2 (advance 2 WEB_RESEARCH_TASKS) = advance 2 WEB_RESEARCH_TASKS.
Proof.
  assert (Hlt : 2 < length WEB_RESEARCH_TASKS) by (cbn; lia).
  split; [exact Hlt |]. split; [reflexivity |].
  exact (proj2 (proj2 (proj2 (proj2
           (advance_statuses_idempotent WEB_RESEARCH_TASKS 2 Hlt))))).
Defined.

Lemma self_correction_single_pass_witness :
  ai (demoSettings offline balanced) = true
  /\ selectedConversation demoState = Some "c1"
  /\ generationDepth (demoSettings offline balanced) <> fast
  /\ isSelfCorrectionEnabled (demoSettings offline balanced) = true
  /\ exists (new : list Call) (appended : option Message),
       calls (snd (executeGeneration criticalModel inCallOrder noSuggestions
                     (demoSettings offline balanced) demoArgs demoState))
       = calls demoState ++ new
       /\ conversations (snd (executeGeneration criticalModel inCallOrder noSuggestions
                                (demoSettings offline balanced) demoArgs demoState))
          = appendMessage "c1" appended (conversations demoState)
       /\ exists (prompt : Content) (refineds : list Response)
              (first critique improved : Response),
            callsOfKind CritiqueCall new
            = [ (critiqueRequest prompt first, Resolved critique) ]
            /\ text critique = "The budget is missing."%string
            /\ saysPerfect (text critique) = false
            /\ callsOfKind SynthesisCall new
               = [ (synthesizerRequest (demoSettings offline balanced) demoArgs
                      (synthesizerContent prompt refineds),
                    Resolved first);
                   (synthesizerRequest (demoSettings offline balanced) demoArgs
                      (secondSynthesizerContent (synthesizerContent prompt refineds)
                         critique),
                    Resolved improved) ]
            /\ text first = "Kyoto plan, version of call 4"%string
            /\ text improved = "Kyoto plan, version of call 6"%string
            /\ exists m, appended = Some m /\ isError m = false
                         /\ parts m = [ TextPart "Kyoto plan, version of call 6" ].
Proof.
  split; [reflexivity |]. split; [reflexivity |].
  split; [discriminate |]. split; [reflexivity |].
  destruct (self_correction_single_pass criticalModel inCallOrder noSuggestions
              (demoSettings offline balanced) demoArgs "c1" demoState
              eq_refl eq_refl ltac:(discriminate) eq_refl)
    as [new [appended [H1 [H2 [_ [_ H5]]]]]].
  exists new, appended. split; [exact H1 |]. split; [exact H2 |].
  change (calls demoState ++ new) with new in H1.
  destruct (callsOfKind SynthesisCall new) as [| [synthRq reply] rest] eqn:Ks;
    rewrite <- H1 in Ks; vm_compute in Ks; [discriminate Ks |].
  specialize (H5 synthRq reply rest eq_refl).
  destruct reply as [first | e]; [| discriminate Ks].
  destruct H5 as [prompt [refineds [critiqueReply [Hrq [Kc Hrest]]]]].
  pose proof Ks as Ks'. injection Ks' as _ Hfirst Hrest2.
  assert (Hc : exists rq, callsOfKind CritiqueCall new
                          = [ (rq, Resolved (plainResponse "The budget is missing.")) ]).
  { rewrite <- H1. vm_compute. eexists. reflexivity. }
  destruct Hc as [rq Hc]. pose proof Kc as Kc'. rewrite Hc in Kc'.
  injection Kc' as _ Hcr. subst critiqueReply.
  assert (Hsp : saysPerfect (text (plainResponse "The budget is missing.")) = false)
    by reflexivity.
  rewrite Hsp in Hrest.
  destruct Hrest as [reply2 [Hr2 Hm]].
  pose proof Hr2 as Hr2'. rewrite <- Hrest2 in Hr2'. injection Hr2' as _ Hreply2.
  subst reply2.
  destruct Hm as [m [Hm [Herr Hparts]]].
  exists prompt, refineds, first, (plainResponse "The budget is missing."),
    (plainResponse "Kyoto plan, version of call 6").
  split; [exact Kc |]. split; [reflexivity |]. split; [reflexivity |].
  split; [now rewrite Hrq, Hr2 |].
  split; [now rewrite <- Hfirst |]. split; [reflexivity |].
  exists m. split; [exact Hm |]. split; [exact Herr | exact Hparts].
Defined.

Lemma fan_out_join_witness :
  ai (demoSettings offline deep) = true
  /\ selectedConversation demoState = Some "c1"
  /\ generationDepth (demoSettings offline deep) <> fast
  /\ exists new : list Call,
       calls (snd (executeGeneration approvingModel inCallOrder noSuggestions
                     (demoSettings offline deep) demoArgs demoState))
       = calls demoState ++ new
       /\ numAgents (demoSettings offline deep) = 4
       /\ (callsOfKind RefinementCall new <> []
           <-> length (callsOfKind InitialDraftCall new) = 4
               /\ forallb isResolved (callsOfKind InitialDraftCall new) = true).
Proof.
  split; [reflexivity |]. split; [reflexivity |]. split; [discriminate |].
  destruct (fan_out_join approvingModel inCallOrder noSuggestions (demoSettings offline deep)
              demoArgs "c1" demoState eq_refl eq_refl ltac:(discriminate))
    as [new [appended [prompt [H1 [_ [_ [H4 [_ [H6 _]]]]]]]]].
  exists new. split; [exact H1 |]. split; [exact (H4 eq_refl) |]. exact H6.
Defined.

Lemma search_gate_only_for_web_witness :
  (truthy (trim (input demoState)) = true \/ attachedFiles demoState <> [])
  /\ ai (demoSettings web balanced) = true
  /\ selectedConversation demoState = Some "c1"
  /\ isLoading demoState = false
  /\ find (fun c => (id c =? "c1")%string) (conversations demoState)
     = Some demoConversation
  /\ exists new : list Call,
       calls (snd (handleSubmit approvingModel inCallOrder echoProposal noSuggestions
                     (demoSettings web balanced) None demoState))
       = calls demoState ++ new
       /\ (countKind SearchProposalCall new = 1
           <-> researchMode (demoSettings web balanced) = web
               /\ generationDepth (demoSettings web balanced) <> fast).
Proof.
  split; [left; reflexivity |]. split; [reflexivity |]. split; [reflexivity |].
  split; [reflexivity |]. split; [reflexivity |].
  destruct (search_gate_only_for_web approvingModel inCallOrder echoProposal noSuggestions
              (demoSettings web balanced) None "c1" demoConversation demoState
              (or_introl eq_refl) eq_refl eq_refl eq_refl eq_refl)
    as [new [H1 [H2 _]]].
  exists new. split; [exact H1 | exact H2].
Defined.

Lemma generation_error_aborts_run_witness :
  ai (demoSettings offline balanced) = true
  /\ selectedConversation demoState = Some "c1"
  /\ exists new : list Call,
       calls (snd (executeGeneration timingOutModel inCallOrder noSuggestions
                     (demoSettings offline balanced) demoArgs demoState))
       = calls demoState ++ new
       /\ fst (generationPath timingOutModel inCallOrder (demoSettings offline balanced)
                 demoArgs
                 (finalInputWithContextOf (demoSettings offline balanced) demoState demoArgs)
                 "c1" (runStart (demoSettings offline balanced) demoState))
          = Thrown (mkError true "Deadline exceeded")
       /\ (exists rq, In (rq, Rejected (mkError true "Deadline exceeded")) new)
       /\ conversations (snd (executeGeneration timingOutModel inCallOrder noSuggestions
                                (demoSettings offline balanced) demoArgs demoState))
          = appendMessage "c1" (Some (errorMessage (mkError true "Deadline exceeded")))
              (conversations demoState)
       /\ parts (errorMessage (mkError true "Deadline exceeded"))
          = [ TextPart "A solicitação demorou muito e expirou. Tente novamente com uma pergunta mais curta ou verifique sua conexão de rede." ]
       /\ countKind MemoryCall new = 0
       /\ countKind SuggestionCall new = 0.
Proof.
  split; [reflexivity |]. split; [reflexivity |].
  destruct (generation_error_aborts_run timingOutModel inCallOrder noSuggestions
              (demoSettings offline balanced) demoArgs "c1" demoState eq_refl eq_refl)
    as [new [_ [H2 [_ [_ H5]]]]].
  exists new. split; [exact H2 |]. split; [reflexivity |].
  destruct (H5 (mkError true "Deadline exceeded") eq_refl)
    as [[rq [Hin _]] [Hv [_ [_ [_ [_ [Hdeadline [_ [_ [Hm [Hs _]]]]]]]]]]].
  split; [now exists rq |]. split; [exact Hv |].
  split; [exact (Hdeadline eq_refl eq_refl eq_refl) |].
  split; [exact Hm | exact Hs].
Defined.

(** C10 as it is worded fails on a text part of one space: the
    code drops the part, and with it the message, while a reduction to the
    non-empty text parts keeps both. *)
Lemma historyOf_drops_blank_text :
  historyOf [ blankMessage ] = []
  /\ spec_historyOf [ blankMessage ] = [ mkContent user [ TextPart " " ] ]
  /\ historyOf [ blankMessage ] <> spec_historyOf [ blankMessage ].
Proof. repeat split; try reflexivity. discriminate. Qed.

(** C2 as it is worded fails on a balanced run in deep research mode whose
    web search is rejected: the run stops at the search and issues no
    initial draft, where the claim has every balanced run issue exactly
    two. *)
Lemma balanced_run_without_initial_drafts :
  generationDepth (demoSettings deepResearch balanced) = balanced
  /\ selectedConversation demoState = Some "c1"%string
  /\ kindsOf (calls (snd (executeGeneration searchFailingModel inCallOrder noSuggestions
                            (demoSettings deepResearch balanced) demoArgs demoState)))
     = [ WebSearchCall ]
  /\ countKind InitialDraftCall
       (calls (snd (executeGeneration searchFailingModel inCallOrder noSuggestions
                      (demoSettings deepResearch balanced) demoArgs demoState)))
     = 0
  /\ countKind InitialDraftCall
       (calls (snd (executeGeneration searchFailingModel inCallOrder noSuggestions
                      (demoSettings deepResearch balanced) demoArgs demoState)))
     <> 2.
Proof. vm_compute. repeat split; discriminate. Qed.

(** ** Scenarios *)

(** Two initial drafts are rejected, the first for a safety block and the
    second for a timeout: the error reported is the one whose rejection
    arrives first, whatever the order of the requests. *)
Example first_rejection_to_arrive_is_reported :
  texts (conversations
           (snd (executeGeneration draftsFailingModel inCallOrder noSuggestions
                   (demoSettings offline balanced) demoArgs demoState)))
  = [ [ (true,
         [ TextPart "A resposta foi bloqueada devido às configurações de segurança. Por favor, modifique sua pergunta e tente novamente." ]) ] ]
  /\ texts (conversations
              (snd (executeGeneration draftsFailingModel latestCallFirst noSuggestions
                      (demoSettings offline balanced) demoArgs demoState)))
     = [ [ (true,
            [ TextPart "A solicitação demorou muito e expirou. Tente novamente com uma pergunta mais curta ou verifique sua conexão de rede." ]) ] ]
  /\ kindsOf (calls
                (snd (executeGeneration draftsFailingModel latestCallFirst noSuggestions
                        (demoSettings offline balanced) demoArgs demoState)))
     = [ InitialDraftCall; InitialDraftCall ].
Proof. vm_compute. repeat split; reflexivity. Qed.


(** An approving critic: one synthesis, whose text is the answer. *)
Example approving_run :
  let s' := snd (executeGeneration approvingModel inCallOrder noSuggestions
                   (demoSettings offline balanced) demoArgs demoState) in
  kindsOf (calls s')
  = [ InitialDraftCall; InitialDraftCall; RefinementCall; RefinementCall;
      SynthesisCall; CritiqueCall; MemoryCall; SuggestionCall ]
  /\ texts (conversations s') = [ [ (false, [ TextPart "Three days in Kyoto." ]) ] ].
Proof. vm_compute. split; reflexivity. Qed.

(** A critic with a remark: a second synthesis, whose text is the answer. *)
Example critical_run :
  let s' := snd (executeGeneration criticalModel inCallOrder noSuggestions
                   (demoSettings offline balanced) demoArgs demoState) in
  kindsOf (calls s')
  = [ InitialDraftCall; InitialDraftCall; RefinementCall; RefinementCall;
      SynthesisCall; CritiqueCall; SynthesisCall; MemoryCall; SuggestionCall ]
  /\ texts (conversations s')
     = [ [ (false, [ TextPart "Kyoto plan, version of call 6" ]) ] ].
Proof. vm_compute. split; reflexivity. Qed.

(** Scenario A: fast depth, offline. *)
Example scenario_fast_offline :
  let s' := snd (executeGeneration approvingModel inCallOrder noSuggestions
                   (demoSettings offline fast) demoArgs demoState) in
  kindsOf (calls s') = [ DirectCall; MemoryCall; SuggestionCall ]
  /\ map (fun c => map generationDetails (messages c)) (conversations s') = [ [ None ] ]
  /\ map (fun c => map sources (messages c)) (conversations s') = [ [ Some [] ] ].
Proof. vm_compute. repeat split; reflexivity. Qed.

(** Scenario B: deep depth, web mode; the user confirms the proposal. *)
Example scenario_deep_web :
  let cfg := demoSettings web deep in
  let proposed := snd (handleSubmit approvingModel inCallOrder echoProposal noSuggestions cfg None
                         demoState) in
  let s' := snd (handleSearchConfirmation approvingModel inCallOrder noSuggestions cfg "A draft."
                   proposed) in
  kindsOf (calls proposed) = [ SearchProposalCall ]
  /\ showSearchConfirmation proposed = true
  /\ kindsOf (calls s')
     = [ SearchProposalCall; WebSearchCall;
         InitialDraftCall; InitialDraftCall; InitialDraftCall; InitialDraftCall;
         RefinementCall; RefinementCall; RefinementCall; RefinementCall;
         SynthesisCall; CritiqueCall; MemoryCall; SuggestionCall ]
  /\ map (fun c => map (fun m => option_map (fun d => (length (initial d), length (refined d)))
                                   (generationDetails m)) (messages c))
         (conversations s')
     = [ [ None; Some (4, 4) ] ].
Proof. vm_compute. repeat split; reflexivity. Qed.

(** Scenario C: the synthesis times out. *)
Example scenario_timeout :
  let s' := snd (executeGeneration timingOutModel inCallOrder noSuggestions
                   (demoSettings offline balanced) demoArgs demoState) in
  kindsOf (calls s')
  = [ InitialDraftCall; InitialDraftCall; RefinementCall; RefinementCall; SynthesisCall ]
  /\ texts (conversations s')
     = [ [ (true,
            [ TextPart "A solicitação demorou muito e expirou. Tente novamente com uma pergunta mais curta ou verifique sua conexão de rede." ]) ] ]
  /\ isLoading s' = false.
Proof. vm_compute. repeat split; reflexivity. Qed.

(** Deep research mode goes to the web search without a confirmation. *)
Example deep_research_skips_the_gate :
  let s' := snd (handleSubmit approvingModel inCallOrder echoProposal noSuggestions
                   (demoSettings deepResearch balanced) None demoState) in
  kindsOf (calls s')
  = [ WebSearchCall; InitialDraftCall; InitialDraftCall; RefinementCall; RefinementCall;
      SynthesisCall; CritiqueCall; MemoryCall; SuggestionCall ]
  /\ showSearchConfirmation s' = false
  /\ searchConfirmationData s' = None.
Proof. vm_compute. repeat split; reflexivity. Qed.

(** Cancelling the confirmation of scenario B leaves the conversation with
    the user message only. *)
Example cancel_after_proposal :
  let proposed := snd (handleSubmit approvingModel inCallOrder echoProposal noSuggestions
                         (demoSettings web deep) None demoState) in
  let s' := snd (handleSearchCancel proposed) in
  conversations s' = conversations proposed
  /\ kindsOf (calls s') = [ SearchProposalCall ]
  /\ map (fun c => map role (messages c)) (conversations s') = [ [ user ] ]
  /\ isLoading s' = false.
Proof. vm_compute. repeat split; reflexivity. Qed.

(** ** The further statements at concrete inputs *)

Lemma successful_run_call_order_witness :
  ai (demoSettings web balanced) = true
  /\ selectedConversation demoState = Some "c1"
  /\ generationDepth (demoSettings web balanced) <> fast
  /\ fst (generationPath approvingModel inCallOrder (demoSettings web balanced) demoArgs
            (finalInputWithContextOf (demoSettings web balanced) demoState demoArgs)
            "c1" (runStart (demoSettings web balanced) demoState))
     = Normal "Three days in Kyoto."%string
  /\ exists new tail : list _,
       calls (snd (executeGeneration approvingModel inCallOrder noSuggestions
                     (demoSettings web balanced) demoArgs demoState))
       = calls demoState ++ new
       /\ kindsOf new
          = [ WebSearchCall; InitialDraftCall; InitialDraftCall;
              RefinementCall; RefinementCall; SynthesisCall ]
            ++ tail ++ [ MemoryCall; SuggestionCall ]
       /\ (tail = [ CritiqueCall ] \/ tail = [ CritiqueCall; SynthesisCall ]).
Proof.
  split; [reflexivity |]. split; [reflexivity |]. split; [discriminate |].
  split; [reflexivity |].
  destruct (successful_run_call_order approvingModel inCallOrder noSuggestions
              (demoSettings web balanced) demoArgs "c1" demoState
              "Three days in Kyoto." eq_refl eq_refl ltac:(discriminate) eq_refl)
    as [new [tail [H1 [H2 [_ H4]]]]].
  exists new, tail. split; [exact H1 |]. split; [exact H2 | exact (H4 eq_refl)].
Defined.

Lemma fast_run_single_call_witness :
  ai (demoSettings web fast) = true
  /\ selectedConversation demoState = Some "c1"
  /\ generationDepth (demoSettings web fast) = fast
  /\ exists reply elog,
       calls (snd (executeGeneration approvingModel inCallOrder noSuggestions
                     (demoSettings web fast) demoArgs demoState))
       = calls demoState
         ++ (fastRequest (demoSettings web fast) demoArgs
               (finalInputWithContextOf (demoSettings web fast) demoState demoArgs),
             reply) :: elog
       /\ tools (config (fastRequest (demoSettings web fast) demoArgs
                           (finalInputWithContextOf (demoSettings web fast)
                              demoState demoArgs)))
          = [ codeExecution; googleSearch ].
Proof.
  split; [reflexivity |]. split; [reflexivity |]. split; [reflexivity |].
  destruct (fast_run_single_call approvingModel inCallOrder noSuggestions (demoSettings web fast)
              demoArgs "c1" demoState eq_refl eq_refl eq_refl)
    as [reply [elog [H1 [_ [H3 _]]]]].
  exists reply, elog. split; [exact H1 | exact H3].
Defined.

Lemma memory_disabled_is_inert_witness :
  ai (plainSettings offline balanced) = true
  /\ selectedConversation demoState = Some "c1"
  /\ isLongTermMemoryEnabled (plainSettings offline balanced) = false
  /\ exists new,
       calls (snd (executeGeneration approvingModel inCallOrder noSuggestions
                     (plainSettings offline balanced) demoArgs demoState))
       = calls demoState ++ new
       /\ countKind MemoryCall new = 0
       /\ longTermMemories (snd (executeGeneration approvingModel inCallOrder noSuggestions
                                   (plainSettings offline balanced) demoArgs demoState))
          = longTermMemories demoState.
Proof.
  split; [reflexivity |]. split; [reflexivity |]. split; [reflexivity |].
  destruct (memory_disabled_is_inert approvingModel inCallOrder noSuggestions
              (plainSettings offline balanced) demoArgs "c1" demoState
              eq_refl eq_refl eq_refl)
    as [new [H1 [H2 [H3 _]]]].
  exists new. split; [exact H1 |]. split; [exact H2 | exact H3].
Defined.

Lemma run_keeps_memory_cap_witness :
  ai (demoSettings offline balanced) = true
  /\ selectedConversation demoState = Some "c1"
  /\ (length (longTermMemories
                (snd (executeGeneration approvingModel inCallOrder noSuggestions
                        (demoSettings offline balanced) demoArgs demoState)))
      <= MAX_MEMORIES
      \/ longTermMemories
           (snd (executeGeneration approvingModel inCallOrder noSuggestions
                   (demoSettings offline balanced) demoArgs demoState))
         = longTermMemories demoState).
Proof.
  split; [reflexivity |]. split; [reflexivity |].
  exact (run_keeps_memory_cap approvingModel inCallOrder noSuggestions
           (demoSettings offline balanced) demoArgs "c1" demoState eq_refl eq_refl).
Defined.

Lemma run_stores_at_most_three_suggestions_witness :
  ai (demoSettings offline fast) = true
  /\ selectedConversation demoState = Some "c1"
  /\ exists new : list Call,
       calls (snd (executeGeneration approvingModel inCallOrder fourSuggestions
                     (demoSettings offline fast) demoArgs demoState))
       = calls demoState ++ new
       /\ kindsOf new = [ DirectCall; MemoryCall; SuggestionCall ]
       /\ countKind SuggestionCall new <= 1
       /\ proactiveSuggestions
            (snd (executeGeneration approvingModel inCallOrder fourSuggestions
                    (demoSettings offline fast) demoArgs demoState))
          = [ "Which season?"; "How many days?"; "What budget?" ]%string.
Proof.
  split; [reflexivity |]. split; [reflexivity |].
  destruct (run_stores_at_most_three_suggestions approvingModel inCallOrder fourSuggestions
              (demoSettings offline fast) demoArgs "c1" demoState eq_refl eq_refl)
    as [new [H1 [H2 [_ [H4 _]]]]].
  exists new. split; [exact H1 |].
  change (calls demoState ++ new) with new in H1.
  split; [rewrite <- H1; reflexivity |]. split; [exact H2 |].
  assert (Hin : exists rq, In (rq, Resolved (plainResponse "A draft.")) new
                           /\ kindOf rq = SuggestionCall).
  { rewrite <- H1. vm_compute. eexists. split; [right; right; left; reflexivity |].
    reflexivity. }
  destruct Hin as [rq [Hin Hkind]].
  rewrite (H4 rq _ Hin Hkind). reflexivity.
Defined.

Lemma submission_outcome_witness :
  (truthy (trim (input demoState)) = true \/ attachedFiles demoState <> [])
  /\ ai (demoSettings offline balanced) = true
  /\ selectedConversation demoState = Some "c1"
  /\ isLoading demoState = false
  /\ find (fun c => (id c =? "c1")%string) (conversations demoState)
     = Some demoConversation
  /\ exists answer : option Message,
       conversations (snd (handleSubmit approvingModel inCallOrder echoProposal noSuggestions
                             (demoSettings offline balanced) None demoState))
       = appendMessage "c1" answer
           (postedConversations "c1" "Plan a trip to Kyoto" [] true
              (conversations demoState))
       /\ input (snd (handleSubmit approvingModel inCallOrder echoProposal noSuggestions
                        (demoSettings offline balanced) None demoState))
          = ""%string.
Proof.
  split; [left; reflexivity |]. split; [reflexivity |]. split; [reflexivity |].
  split; [reflexivity |]. split; [reflexivity |].
  destruct (submission_outcome approvingModel inCallOrder echoProposal noSuggestions
              (demoSettings offline balanced) None "c1" demoConversation demoState
              (or_introl eq_refl) eq_refl eq_refl eq_refl eq_refl)
    as [answer [H1 [H2 _]]].
  exists answer. split; [exact H1 | exact H2].
Defined.

Lemma submission_titles_first_message_witness :
  (truthy (trim (input demoState)) = true \/ attachedFiles demoState <> [])
  /\ ai (demoSettings offline balanced) = true
  /\ selectedConversation demoState = Some "c1"
  /\ isLoading demoState = false
  /\ find (fun c => (id c =? "c1")%string) (conversations demoState)
     = Some demoConversation
  /\ map conv_title
       (conversations (snd (handleSubmit approvingModel inCallOrder echoProposal noSuggestions
                              (demoSettings offline balanced) None demoState)))
     = [ "Plan a trip to Kyoto"%string ].
Proof.
  split; [left; reflexivity |]. split; [reflexivity |]. split; [reflexivity |].
  split; [reflexivity |]. split; [reflexivity |].
  exact (proj1 (submission_titles_first_message approvingModel inCallOrder echoProposal noSuggestions
                  (demoSettings offline balanced) None "c1" demoConversation demoState
                  (or_introl eq_refl) eq_refl eq_refl eq_refl eq_refl)).
Defined.

Lemma failed_search_proposal_aborts_witness :
  (truthy (trim (input demoState)) = true \/ attachedFiles demoState <> [])
  /\ ai (demoSettings web balanced) = true
  /\ selectedConversation demoState = Some "c1"
  /\ isLoading demoState = false
  /\ find (fun c => (id c =? "c1")%string) (conversations demoState)
     = Some demoConversation
  /\ researchMode (demoSettings web balanced) = web
  /\ generationDepth (demoSettings web balanced) <> fast
  /\ exists reply,
       calls (snd (handleSubmit approvingModel inCallOrder noProposal noSuggestions
                     (demoSettings web balanced) None demoState))
       = calls demoState ++ [ (searchRefinerRequest "Plan a trip to Kyoto", reply) ]
       /\ conversations (snd (handleSubmit approvingModel inCallOrder noProposal noSuggestions
                                (demoSettings web balanced) None demoState))
          = appendMessage "c1" (Some searchRefinementErrorMessage)
              (postedConversations "c1" "Plan a trip to Kyoto" [] true
                 (conversations demoState)).
Proof.
  split; [left; reflexivity |]. split; [reflexivity |]. split; [reflexivity |].
  split; [reflexivity |]. split; [reflexivity |]. split; [reflexivity |].
  split; [discriminate |].
  destruct (failed_search_proposal_aborts approvingModel inCallOrder noProposal noSuggestions
              (demoSettings web balanced) None "c1" demoConversation demoState
              (or_introl eq_refl) eq_refl eq_refl eq_refl eq_refl eq_refl
              ltac:(discriminate))
    as [reply [H1 H2]].
  exists reply. split; [exact H1 |].
  exact (proj1 (H2 (fun r _ => eq_refl))).
Defined.

Lemma successful_run_completes_every_stage_witness :
  ai (demoSettings web balanced) = true
  /\ selectedConversation demoState = Some "c1"
  /\ fst (generationPath approvingModel inCallOrder (demoSettings web balanced) demoArgs
            (finalInputWithContextOf (demoSettings web balanced) demoState demoArgs)
            "c1" (runStart (demoSettings web balanced) demoState))
     = Normal "Three days in Kyoto."%string
  /\ map status
       (loadingTasks (snd (executeGeneration approvingModel inCallOrder noSuggestions
                             (demoSettings web balanced) demoArgs demoState)))
     = [ completed; completed; completed; completed; completed; completed ].
Proof.
  split; [reflexivity |]. split; [reflexivity |]. split; [reflexivity |].
  rewrite (proj1 (successful_run_completes_every_stage approvingModel inCallOrder noSuggestions
                    (demoSettings web balanced) demoArgs "c1" "Three days in Kyoto."
                    demoState eq_refl eq_refl eq_refl)).
  reflexivity.
Defined.

(** With four stages and one completed the value is the binary64 number
    printed 33.333333333333329, not the rational 100/3. *)
Lemma progress_while_run_advances_witness :
  balanced <> fast
  /\ 1 < length (tasksForRun balanced offline false)
  /\ length (tasksForRun balanced offline false) = 4
  /\ completedCount (advance 1 (tasksForRun balanced offline false)) = 1
  /\ progressPercentage (advance 1 (tasksForRun balanced offline false))
     = Finite 0x1.0aaaaaaaaaaaap+5
  /\ progressPercentage (advance 3 (tasksForRun balanced offline false)) = Finite 100.
Proof.
  assert (Hd : balanced <> fast) by discriminate.
  assert (Hi : 1 < length (tasksForRun balanced offline false)) by (cbn; lia).
  split; [exact Hd |]. split; [exact Hi |]. split; [reflexivity |].
  destruct (progress_while_run_advances balanced offline false 1 Hd Hi)
    as [Hc [Hp [_ [Hlast _]]]].
  split; [exact Hc |]. split; [exact Hp | exact Hlast].
Defined.

Lemma formatTimer_mm_ss_witness :
  (0 <= 83500 < 6000000)%Z
  /\ formatTimer 83500 = "01:23"%string
  /\ String.length (formatTimer 83500) = 5.
Proof.
  assert (H : (0 <= 83500 < 6000000)%Z) by lia.
  split; [exact H |].
  destruct (formatTimer_mm_ss 83500 H) as [H1 [H2 _]].
  split; [exact H1 | exact H2].
Defined.

Lemma timeout_recognised_in_any_case_witness :
  instanceofError (mkError true "SAFETY check: Deadline Exceeded") = true
  /\ includes "API key not valid" (message (mkError true "SAFETY check: Deadline Exceeded"))
     = false
  /\ toLowerCase "Deadline" = "deadline"%string
  /\ includes "Deadline" (message (mkError true "SAFETY check: Deadline Exceeded")) = true
  /\ friendlyMessage (mkError true "SAFETY check: Deadline Exceeded")
     = "A solicitação demorou muito e expirou. Tente novamente com uma pergunta mais curta ou verifique sua conexão de rede."%string.
Proof.
  split; [reflexivity |]. split; [reflexivity |]. split; [reflexivity |].
  split; [reflexivity |].
  exact (proj1 (timeout_recognised_in_any_case
                  (mkError true "SAFETY check: Deadline Exceeded") "Deadline"
                  eq_refl eq_refl eq_refl eq_refl)).
Defined.

Lemma offline_run_never_searches_witness :
  ai (demoSettings offline balanced) = true
  /\ selectedConversation demoState = Some "c1"
  /\ researchMode (demoSettings offline balanced) = offline
  /\ exists new m,
       calls (snd (executeGeneration timingOutModel inCallOrder noSuggestions
                     (demoSettings offline balanced) demoArgs demoState))
       = calls demoState ++ new
       /\ Forall (fun c : Call => usesTool googleSearch (fst c) = false) new
       /\ conversations (snd (executeGeneration timingOutModel inCallOrder noSuggestions
                                (demoSettings offline balanced) demoArgs demoState))
          = appendMessage "c1" (Some m) (conversations demoState).
Proof.
  split; [reflexivity |]. split; [reflexivity |]. split; [reflexivity |].
  destruct (offline_run_never_searches timingOutModel inCallOrder noSuggestions
              (demoSettings offline balanced) demoArgs "c1" demoState
              eq_refl eq_refl eq_refl)
    as [new [m [H1 [H2 [H3 _]]]]].
  exists new, m. split; [exact H1 |]. split; [exact H2 | exact H3].
Defined.

Lemma new_chat_first_submission_witness :
  ai (demoSettings offline fast) = true
  /\ isLoading demoState = false
  /\ truthy "1700000000000" = true
  /\ truthy (trim "  Plan a trip to Kyoto ") = true
  /\ selectedConversation (snd (handleNewChat "1700000000000" demoState))
     = Some "1700000000000"%string
  /\ exists (first : Conversation) (others : list Conversation),
       conversations
         (snd ((handleNewChat "1700000000000" ;;
                handleSubmit approvingModel inCallOrder echoProposal noSuggestions
                  (demoSettings offline fast) (Some "  Plan a trip to Kyoto "%string))
               demoState))
       = first :: others
       /\ id first = "1700000000000"%string
       /\ conv_title first = "Plan a trip to Kyoto"%string
       /\ map id others = [ "c1"%string ].
Proof.
  split; [reflexivity |]. split; [reflexivity |]. split; [reflexivity |].
  split; [reflexivity |].
  destruct (new_chat_first_submission approvingModel inCallOrder echoProposal noSuggestions
              (demoSettings offline fast) "1700000000000" "  Plan a trip to Kyoto "
              demoState eq_refl eq_refl eq_refl eq_refl)
    as [_ [H2 [answer [first [others [H3 [_ [H5 [H6 [_ H8]]]]]]]]]].
  split; [exact H2 |].
  exists first, others. split; [exact H3 |]. split; [exact H5 |].
  split; [exact H6 | exact H8].
Defined.
